(** * PowerPoint selection add-in: the detection cascade, the debounced
      trigger and the report formatter, embedded from the two task-pane
      scripts.

    Conventions of the embedding.
    - JavaScript numbers that the scripts read from the host (coordinates,
      sizes, z-indices, parsed modification dates) are integers ([Z]).
    - A JavaScript string is a [string]; the empty string is the falsy one,
      and a property the host did not deliver is the empty string as well.
    - [Array.prototype.sort] with a comparator is the stable sort of the
      language standard.
    - Every host round trip of a guarded block is one [HostResult]: [Failed]
      stands for a throw anywhere inside the block.
    - The three detection channels of a pass are promises that each write the
      SelectionInfo in their last synchronous stretch only; a pass applies
      them in the order in which the host lets them complete.
    - Time is discrete; a timer runs its callback at its due time plus a
      non-negative lateness chosen by the event loop. *)

From Stdlib Require Import ZArith List Bool Lia Permutation Sorted.
From Stdlib Require Import Strings.String Strings.Ascii Numbers.DecimalString.
Import ListNotations.

Open Scope string_scope.
Open Scope Z_scope.

(* ================================================================== *)
(** ** JavaScript helpers *)

(** Template-literal rendering of an integral number. *)
Definition numToString (z : Z) : string :=
  NilZero.string_of_int (Z.to_int z).

(** Rendering of an array length or index. *)
Definition natToString (n : nat) : string := numToString (Z.of_nat n).

(** Truthiness of a string value. *)
Definition truthy (s : string) : bool :=
  match s with EmptyString => false | String _ _ => true end.

(** [a || b] on strings. *)
Definition orDefault (a b : string) : string :=
  if truthy a then a else b.

(** [hay.indexOf(needle) !== -1]. *)
Fixpoint includes (needle hay : string) : bool :=
  String.prefix needle hay
  || match hay with
     | EmptyString => false
     | String _ rest => includes needle rest
     end.

Definition nl : string := String (ascii_of_nat 10) EmptyString.
Definition dq : string := String (ascii_of_nat 34) EmptyString.

(** [s.substring(0, n)]. *)
Definition substring0 (n : nat) (s : string) : string := String.substring 0 n s.

Section Sort.
Context {A : Type}.
(** The comparator: negative when the first argument goes first. *)
Variable cmp : A -> A -> Z.

Fixpoint insertSorted (x : A) (l : list A) : list A :=
  match l with
  | [] => [x]
  | y :: l' => if cmp x y <=? 0 then x :: l else y :: insertSorted x l'
  end.

(** [arr.sort(cmp)]: stable, elements compared equal keep their order. *)
Definition jsSort (l : list A) : list A := fold_right insertSorted [] l.
End Sort.

(** [forEach] over an array with the running index, accumulating text. *)
Fixpoint concatIndexed {A : Type} (f : A -> nat -> string) (i : nat) (l : list A)
  : string :=
  match l with
  | [] => ""
  | x :: l' => f x i ++ concatIndexed f (S i) l'
  end.

(* ================================================================== *)
(** ** Data model *)

(** One shape handle after its properties were loaded. *)
Record Shape := mkShape {
  name : string;
  id : string;
  type : string;
  text : string;
  left : Z;
  top : Z;
  width : Z;
  height : Z;
  zIndex : Z;
  isSelected : option bool;          (* [None]: the host has no such flag *)
  altTextDescription : string;
  altTextTitle : string;
  imageData : option string;         (* [Some fmt]: imageData with its format *)
  lastModified : option Z            (* [Some t]: a date, as its time value *)
}.

(** Truthiness of [shape.isSelected]. *)
Definition selectedFlag (s : Shape) : bool :=
  match isSelected s with Some true => true | _ => false end.

Definition isPicture (s : Shape) : bool := String.eqb (type s) "Picture".

Definition hasModifiedTime (s : Shape) : bool :=
  match lastModified s with Some _ => true | None => false end.

Definition modifiedTime (s : Shape) : Z :=
  match lastModified s with Some t => t | None => 0 end.

(** What a guarded host block yields. *)
Inductive HostResult (A : Type) : Type :=
| Ok (a : A)
| Failed (err : string).
Arguments Ok {A} a.
Arguments Failed {A} err.

Record Slide := mkSlide {
  shapes : HostResult (list Shape)    (* slide.load("shapes") and the property loads *)
}.

(** The answers of the host during one pass. *)
Record Host := mkHost {
  getSelectedSlides : HostResult (list Slide);
  getSelection : HostResult (list Shape);               (* approach 1 *)
  getActiveView : HostResult (option (list Shape));     (* approach 2; [None]: no view.selection *)
  lastModifiedLoad : HostResult unit;                   (* approach 4's loads and syncs *)
  topShapeLoad : HostResult unit;                       (* the reload of the top-most shape *)
  getSelectedText : HostResult string                   (* getSelectedDataAsync(Text) *)
}.

Record Point := mkPoint { px : Z; py : Z }.

(** The module-level variables of the script (the timer is modelled with the
    debounce below). *)
Record Globals := mkGlobals {
  lastSelectedText : string;
  lastMousePosition : Point;
  lastClickedPosition : Point;
  hasMousePositionData : bool
}.

Definition initialGlobals : Globals :=
  mkGlobals "" (mkPoint 0 0) (mkPoint 0 0) false.

(** The capture button and the selection-changed tracker. *)
Definition capturePosition (g : Globals) : Globals :=
  mkGlobals (lastSelectedText g) (lastMousePosition g) (lastMousePosition g) true.

Record SelectionInfo := mkInfo {
  selText : option string;
  selShapes : list Shape;
  selPictures : list Shape;
  detectionMethod : option string;
  allShapes : option (list Shape);
  allPictures : option (list Shape)
}.

Definition freshInfo : SelectionInfo := mkInfo None [] [] None None None.

Definition setText (t : string) (si : SelectionInfo) : SelectionInfo :=
  mkInfo (Some t) (selShapes si) (selPictures si) (detectionMethod si)
         (allShapes si) (allPictures si).
Definition setShapes (l : list Shape) (si : SelectionInfo) : SelectionInfo :=
  mkInfo (selText si) l (selPictures si) (detectionMethod si)
         (allShapes si) (allPictures si).
Definition setPictures (l : list Shape) (si : SelectionInfo) : SelectionInfo :=
  mkInfo (selText si) (selShapes si) l (detectionMethod si)
         (allShapes si) (allPictures si).
Definition setMethod (m : string) (si : SelectionInfo) : SelectionInfo :=
  mkInfo (selText si) (selShapes si) (selPictures si) (Some m)
         (allShapes si) (allPictures si).
Definition setAllShapes (l : list Shape) (si : SelectionInfo) : SelectionInfo :=
  mkInfo (selText si) (selShapes si) (selPictures si) (detectionMethod si)
         (Some l) (allPictures si).
Definition setAllPictures (l : list Shape) (si : SelectionInfo) : SelectionInfo :=
  mkInfo (selText si) (selShapes si) (selPictures si) (detectionMethod si)
         (allShapes si) (Some l).

(** [if (!selectionInfo.detectionMethod) selectionInfo.detectionMethod = m]. *)
Definition claimMethod (m : string) (si : SelectionInfo) : SelectionInfo :=
  match detectionMethod si with
  | Some t => if truthy t then si else setMethod m si
  | None => setMethod m si
  end.

(** The point-in-rectangle test of the position strategies. *)
Definition containsPoint (p : Point) (s : Shape) : bool :=
  (left s <=? px p) && (px p <=? left s + width s)
  && (top s <=? py p) && (py p <=? top s + height s).

(** [(a, b) => b.zIndex - a.zIndex]. *)
Definition byZIndexDesc (a b : Shape) : Z := zIndex b - zIndex a.

(** [(a, b) => new Date(b.lastModified) - new Date(a.lastModified)]. *)
Definition byModifiedDesc (a b : Shape) : Z := modifiedTime b - modifiedTime a.

(** Whether approach 1 / approach 2 comes back with shapes. *)
Definition directSelectionFound (h : Host) : bool :=
  match getSelection h with Ok (_ :: _) => true | _ => false end.

Definition activeViewFound (h : Host) : bool :=
  match getActiveView h with Ok (Some (_ :: _)) => true | _ => false end.

(** Whether approach 4 gets a timestamp from some shape. *)
Definition lastModifiedFound (h : Host) (l : list Shape) : bool :=
  match lastModifiedLoad h with
  | Ok _ => existsb hasModifiedTime l
  | Failed _ => false
  end.

(* ================================================================== *)
(** ** The report formatter (shared text pieces) *)

(** The four-line element entry of the "all elements" listings. *)
Definition elementEntry (e : Shape) (index : nat) : string :=
  natToString (index + 1) ++ ". " ++ orDefault (name e) "Unnamed"
    ++ " (ID: " ++ id e ++ ")" ++ nl
  ++ "   Position: (" ++ numToString (left e) ++ ", " ++ numToString (top e) ++ ")" ++ nl
  ++ "   Size: " ++ numToString (width e) ++ " x " ++ numToString (height e) ++ nl
  ++ "   Z-Index: " ++ numToString (zIndex e) ++ nl ++ nl.

(** The text line of a shape, cut after 100 characters. *)
Definition textLine (s : Shape) : string :=
  if truthy (text s) then
    let maxTextLength := 100%nat in
    let displayText :=
      if Nat.ltb maxTextLength (String.length (text s))
      then substring0 maxTextLength (text s) ++ "..."
      else text s in
    "   Text: " ++ dq ++ displayText ++ dq ++ nl
  else "".

Definition geometryLines (s : Shape) : string :=
  "   Position: (" ++ numToString (left s) ++ ", " ++ numToString (top s) ++ ")" ++ nl
  ++ "   Size: " ++ numToString (width s) ++ " x " ++ numToString (height s) ++ nl
  ++ "   Z-Index: " ++ numToString (zIndex s) ++ nl.

(** An object used as a map from type name to the elements of that type;
    keys keep their insertion order (type names are not integer-like). *)
Fixpoint pushGroup {A : Type} (k : string) (x : A) (groups : list (string * list A))
  : list (string * list A) :=
  match groups with
  | [] => [(k, [x])]
  | (k', xs) :: rest =>
      if String.eqb k k' then (k', (xs ++ [x])%list) :: rest
      else (k', xs) :: pushGroup k x rest
  end.

Fixpoint hasGroup {A : Type} (k : string) (groups : list (string * list A)) : bool :=
  match groups with
  | [] => false
  | (k', xs) :: rest => String.eqb k k' || hasGroup k rest
  end.

(* ================================================================== *)
(** ** The task pane that aggregates a SelectionInfo *)

Module Taskpane.

(** The blocks of the shape cascade, in source order. *)
Inductive Step :=
| StepSelectedSlides | StepDirectSelection | StepActiveView | StepSlideShapes
| StepIsSelected | StepLastModified | StepPosition | StepZOrder.

Inductive Event :=
| Entered (s : Step)
| ConsoleLog (message err : string)
| ConsoleError (message err : string).

(** One approach of the cascade: the events it produces and, when it
    resolves the promise, the SelectionInfo it leaves. *)
Definition Attempt := SelectionInfo -> list Event * option SelectionInfo.

Definition orElse (a b : Attempt) : Attempt := fun si =>
  match a si with
  | (ev, Some r) => (ev, Some r)
  | (ev, None) => let (ev', r) := b si in ((ev ++ ev')%list, r)
  end.
Infix "<|>" := orElse (at level 60, right associativity).

(** Approach 1: the presentation-level selection. *)
Definition approach1 (h : Host) : Attempt := fun si =>
  match getSelection h with
  | Ok [] => ([Entered StepDirectSelection], None)
  | Ok selectedShapes =>
      ([Entered StepDirectSelection],
       Some (claimMethod "direct-selection" (setShapes selectedShapes si)))
  | Failed e =>
      ([Entered StepDirectSelection;
        ConsoleLog "Direct selection API not supported:" e], None)
  end.

(** Approach 2: the selection of the active view. *)
Definition approach2 (h : Host) : Attempt := fun si =>
  match getActiveView h with
  | Ok None | Ok (Some []) => ([Entered StepActiveView], None)
  | Ok (Some selectedShapes) =>
      ([Entered StepActiveView],
       Some (claimMethod "active-view" (setShapes selectedShapes si)))
  | Failed e =>
      ([Entered StepActiveView;
        ConsoleLog "Active view selection API not supported:" e], None)
  end.

(** Approach 3, after the shapes were fetched: the isSelected scan. *)
Definition approach3 (shapes : list Shape) : Attempt := fun si =>
  match filter selectedFlag shapes with
  | [] => ([Entered StepIsSelected], None)
  | selectedShapes =>
      ([Entered StepIsSelected],
       Some (claimMethod "isSelected" (setShapes selectedShapes si)))
  end.

(** Approach 4: the most recently modified shape. *)
Definition approach4 (h : Host) (shapes : list Shape) : Attempt := fun si =>
  match lastModifiedLoad h with
  | Failed e =>
      ([Entered StepLastModified; ConsoleLog "Modified time detection failed:" e], None)
  | Ok _ =>
      match filter hasModifiedTime shapes with
      | [] => ([Entered StepLastModified], None)
      | shapesWithModifiedTime =>
          match jsSort byModifiedDesc shapesWithModifiedTime with
          | [] => ([Entered StepLastModified], None)
          | mostRecentShape :: _ =>
              ([Entered StepLastModified],
               Some (claimMethod "lastModified" (setShapes [mostRecentShape] si)))
          end
      end
  end.

(** Approach 5: the shapes under the last clicked position. *)
Definition approach5 (g : Globals) (shapes : list Shape) : Attempt := fun si =>
  if hasMousePositionData g then
    match filter (containsPoint (lastClickedPosition g)) shapes with
    | [] => ([Entered StepPosition], None)
    | shapesAtPosition =>
        ([Entered StepPosition],
         Some (claimMethod "position"
                 (setShapes (jsSort byZIndexDesc shapesAtPosition) si)))
    end
  else ([], None).

(** Approach 6 and the closing statement: keep every shape for reference. *)
Definition approach6 (shapes : list Shape) : Attempt := fun si =>
  match jsSort byZIndexDesc shapes with
  | [] => ([Entered StepZOrder], None)
  | _ => ([Entered StepZOrder], Some (setAllShapes shapes si))
  end.

Definition storeAll (shapes : list Shape) : Attempt := fun si =>
  ([], Some (setAllShapes shapes si)).

(** The slide's shapes are fetched between approach 2 and the scan. *)
Definition withSlideShapes (slide : Slide) (k : list Shape -> Attempt) : Attempt :=
  fun si =>
  match shapes slide with
  | Failed e => ([Entered StepSlideShapes; ConsoleError "Shape detection error:" e], Some si)
  | Ok [] => ([Entered StepSlideShapes], Some si)
  | Ok l => let (ev, r) := k l si in (Entered StepSlideShapes :: ev, r)
  end.

(** Approaches 3 to 6 on the fetched shapes. *)
Definition afterFetch (h : Host) (g : Globals) (l : list Shape) : Attempt :=
  approach3 l <|> approach4 h l <|> approach5 g l <|> approach6 l <|> storeAll l.

Definition cascade (h : Host) (g : Globals) (slide : Slide) : Attempt :=
  approach1 h <|> approach2 h <|> withSlideShapes slide (afterFetch h g).

Definition detectShapesDirectly (h : Host) (g : Globals) (si : SelectionInfo)
  : list Event * SelectionInfo :=
  match getSelectedSlides h with
  | Failed e => ([Entered StepSelectedSlides; ConsoleError "Shape detection error:" e], si)
  | Ok [] => ([Entered StepSelectedSlides], si)
  | Ok (slide :: _) =>
      let (ev, r) := cascade h g slide si in
      (Entered StepSelectedSlides :: ev, match r with Some si' => si' | None => si end)
  end.

(** The picture-specific pass. *)
Definition detectPicturesSpecifically (h : Host) (g : Globals) (si : SelectionInfo)
  : SelectionInfo :=
  match getSelectedSlides h with
  | Failed _ | Ok [] => si
  | Ok (slide :: _) =>
      match shapes slide with
      | Failed _ | Ok [] => si
      | Ok l =>
          match filter isPicture l with
          | [] => si
          | pictures =>
              let selectedPictures := filter selectedFlag pictures in
              let si1 :=
                match selectedPictures with
                | [] => si
                | _ => claimMethod "picture-isSelected" (setPictures selectedPictures si)
                end in
              let si2 :=
                match selPictures si1 with
                | [] =>
                    if hasMousePositionData g then
                      match filter (containsPoint (lastClickedPosition g)) pictures with
                      | [] => si1
                      | picturesAtPosition =>
                          claimMethod "picture-position"
                            (setPictures (jsSort byZIndexDesc picturesAtPosition) si1)
                      end
                    else si1
                | _ => si1
                end in
              match selPictures si2 with
              | [] => setAllPictures pictures si2
              | _ => si2
              end
          end
      end
  end.

(** The free-text channel. *)
Definition detectSelectionText (h : Host) (g : Globals) (si : SelectionInfo)
  : Globals * SelectionInfo :=
  match getSelectedText h with
  | Ok selectedText =>
      if (0 <? String.length selectedText)%nat then
        (mkGlobals selectedText (lastMousePosition g) (lastClickedPosition g)
                   (hasMousePositionData g),
         setMethod "text" (setText selectedText si))
      else (g, si)
  | Failed _ => (g, si)
  end.


(** Details of one picture. *)
Definition getPictureDetailsString (picture : Shape) (index : nat) : string :=
  natToString (index + 1) ++ ". " ++ orDefault (name picture) "Unnamed Picture"
    ++ " (ID: " ++ id picture ++ ")" ++ nl
  ++ "   Type: Picture/Image" ++ nl
  ++ geometryLines picture
  ++ (if truthy (altTextDescription picture)
      then "   Alt Text: " ++ altTextDescription picture ++ nl else "")
  ++ (if truthy (altTextTitle picture)
      then "   Alt Text Title: " ++ altTextTitle picture ++ nl else "")
  ++ (match imageData picture with
      | Some format =>
          if truthy format then "   Image Format: " ++ format ++ nl else ""
      | None => ""
      end)
  ++ nl.

(** The [switch (shape.type)] of the shape details. *)
Definition elementTypeLines (shape : Shape) : string :=
  if String.eqb (type shape) "Picture" then
    "   Element Type: Image/Picture" ++ nl
    ++ (match imageData shape with
        | Some format => "   Image Format: " ++ orDefault format "Unknown" ++ nl
        | None => ""
        end)
    ++ (if truthy (altTextDescription shape)
        then "   Alt Text: " ++ altTextDescription shape ++ nl else "")
    ++ (if truthy (altTextTitle shape)
        then "   Alt Text Title: " ++ altTextTitle shape ++ nl else "")
  else if String.eqb (type shape) "Group" then
    "   Element Type: Group (contains multiple elements)" ++ nl
  else if String.eqb (type shape) "Table" then "   Element Type: Table" ++ nl
  else if String.eqb (type shape) "Chart" then "   Element Type: Chart" ++ nl
  else if String.eqb (type shape) "SmartArt" then "   Element Type: SmartArt" ++ nl
  else "".

(** Details of one shape. *)
Definition getDetailedShapeInfo (shape : Shape) (index : nat) : string :=
  natToString (index + 1) ++ ". " ++ orDefault (name shape) "Unnamed"
    ++ " (ID: " ++ id shape ++ ")" ++ nl
  ++ "   Type: " ++ type shape ++ nl
  ++ elementTypeLines shape
  ++ geometryLines shape
  ++ textLine shape
  ++ nl.

Definition plural (n : nat) : string := if Nat.ltb 1 n then "S" else "".

Definition tipsText : string :=
  nl ++ "Tips for selecting elements:" ++ nl
  ++ "1. Click directly on the element you want to examine" ++ nl
  ++ "2. Press the 'Get Info' button immediately after selecting" ++ nl
  ++ "3. For text elements, try selecting some text within the element" ++ nl
  ++ "4. Try using the 'Capture Current Position' button while hovering over an element".

Definition groupByType (l : list Shape) : list (string * list Shape) :=
  fold_left (fun acc s => pushGroup (orDefault (type s) "Unknown") s acc) l [].

Fixpoint groupsText (groups : list (string * list Shape)) : string :=
  match groups with
  | [] => ""
  | (ty, els) :: rest =>
      "== " ++ ty ++ " Elements (" ++ natToString (List.length els) ++ ") ==" ++ nl ++ nl
      ++ concatIndexed elementEntry 0 els
      ++ groupsText rest
  end.

Definition textTruthy (t : option string) : bool :=
  match t with Some s => truthy s | None => false end.

Definition isEmpty {A : Type} (l : list A) : bool :=
  match l with [] => true | _ => false end.

(** The report written to the display node. *)
Definition displaySelectionInfo (si : SelectionInfo) : string :=
  let hasSelection :=
    textTruthy (selText si) || negb (isEmpty (selShapes si))
    || negb (isEmpty (selPictures si)) in
  if negb hasSelection then
    let allS := match allShapes si with Some l => l | None => [] end in
    let allP := match allPictures si with Some l => l | None => [] end in
    "No element is currently selected." ++ nl ++ nl
    ++ (if negb (isEmpty allS) || negb (isEmpty allP) then
          let byType := groupByType allS in
          let byType' :=
            if negb (isEmpty allP) && negb (hasGroup "Picture" byType)
            then (byType ++ [("Picture", allP)])%list else byType in
          "All elements on current slide ("
            ++ natToString (List.length allS + List.length allP) ++ " total):" ++ nl ++ nl
          ++ groupsText byType'
          ++ tipsText
        else "No elements found on the current slide.")
  else
    "=== CURRENT SELECTION INFO ===" ++ nl ++ nl
    ++ (match selText si with
        | Some t =>
            if truthy t then "SELECTED TEXT:" ++ nl ++ dq ++ t ++ dq ++ nl ++ nl else ""
        | None => ""
        end)
    ++ (match selPictures si with
        | [] => ""
        | pictures =>
            "SELECTED PICTURE" ++ plural (List.length pictures) ++ ":" ++ nl
            ++ concatIndexed getPictureDetailsString 0 pictures ++ nl
        end)
    ++ (match selShapes si with
        | [] => ""
        | l =>
            let nonPictureShapes :=
              filter (fun shape =>
                        negb (String.eqb (type shape) "Picture")
                        || negb (existsb (fun pic => String.eqb (id pic) (id shape))
                                         (selPictures si))) l in
            match nonPictureShapes with
            | [] => ""
            | _ =>
                "SELECTED SHAPE" ++ plural (List.length nonPictureShapes) ++ ":" ++ nl
                ++ concatIndexed getDetailedShapeInfo 0 nonPictureShapes
            end
        end)
    ++ (match detectionMethod si with
        | Some m => if truthy m then nl ++ "Detection method: " ++ m else ""
        | None => ""
        end).

(** The three channels run as independent promises; each one touches the
    SelectionInfo in its last synchronous stretch only, so a pass is the three
    channels applied in the order in which they complete. *)
Inductive Channel := TextChannel | PictureChannel | ShapeChannel.

Definition runChannel (h : Host) (c : Channel) (st : Globals * SelectionInfo)
  : Globals * SelectionInfo :=
  let (g, si) := st in
  match c with
  | TextChannel => detectSelectionText h g si
  | PictureChannel => (g, detectPicturesSpecifically h g si)
  | ShapeChannel => (g, snd (detectShapesDirectly h g si))
  end.

Definition runChannels (h : Host) (order : list Channel) (st : Globals * SelectionInfo)
  : Globals * SelectionInfo :=
  fold_left (fun st c => runChannel h c st) order st.

Definition completionOrders : list (list Channel) :=
  [ [TextChannel; PictureChannel; ShapeChannel];
    [TextChannel; ShapeChannel; PictureChannel];
    [PictureChannel; TextChannel; ShapeChannel];
    [PictureChannel; ShapeChannel; TextChannel];
    [ShapeChannel; TextChannel; PictureChannel];
    [ShapeChannel; PictureChannel; TextChannel] ].

(** What the user sees at the end of a pass. *)
Record PassResult := mkPass {
  passGlobals : Globals;
  passInfo : SelectionInfo;
  textContent : string
}.

Definition detectSelectedElement (h : Host) (order : list Channel) (g : Globals)
  : PassResult :=
  let (g', si) := runChannels h order (g, freshInfo) in
  mkPass g' si (displaySelectionInfo si).

End Taskpane.

(* ================================================================== *)
(** ** The task pane that writes each finding straight to the display *)

Module TaskpaneDirect.

Inductive Step :=
| StepSelectedSlides | StepDirectSelection | StepActiveView | StepSlideShapes
| StepIsSelected | StepZOrder | StepListAll.

(** Details of one shape. *)
Definition getDetailedShapeInfo (shape : Shape) (index : nat) : string :=
  natToString (index + 1) ++ ". " ++ orDefault (name shape) "Unnamed"
    ++ " (ID: " ++ id shape ++ ")" ++ nl
  ++ "   Type: " ++ type shape ++ nl
  ++ (if String.eqb (type shape) "Picture" then "   Element Type: Image/Picture" ++ nl
      else if String.eqb (type shape) "Group"
           then "   Element Type: Group (contains multiple elements)" ++ nl
      else if String.eqb (type shape) "Table" then "   Element Type: Table" ++ nl
      else if String.eqb (type shape) "Chart" then "   Element Type: Chart" ++ nl
      else if String.eqb (type shape) "SmartArt" then "   Element Type: SmartArt" ++ nl
      else "")
  ++ geometryLines shape
  ++ textLine shape
  ++ nl.

Definition getShapeDetailsString (shape : Shape) (index : nat) : string :=
  getDetailedShapeInfo shape index.

(** [shapesByType]: groups of [{ shape, index }] in insertion order. *)
Fixpoint groupIndexed (i : nat) (l : list Shape)
  (acc : list (string * list (Shape * nat))) : list (string * list (Shape * nat)) :=
  match l with
  | [] => acc
  | s :: rest => groupIndexed (S i) rest (pushGroup (orDefault (type s) "Unknown") (s, i) acc)
  end.

Fixpoint groupsText (groups : list (string * list (Shape * nat))) : string :=
  match groups with
  | [] => ""
  | (ty, els) :: rest =>
      "== " ++ ty ++ " Elements (" ++ natToString (List.length els) ++ ") ==" ++ nl ++ nl
      ++ String.concat "" (map (fun e => elementEntry (fst e) (snd e)) els)
      ++ groupsText rest
  end.

Definition foundMessage (suffix : string) (selectedShapes : list Shape) : string :=
  "Found " ++ natToString (List.length selectedShapes) ++ " selected element(s)"
    ++ suffix ++ ":" ++ nl ++ nl
  ++ concatIndexed getDetailedShapeInfo 0 selectedShapes.

Definition listAllMessage (l : list Shape) : string :=
  "Could not identify which element is selected." ++ nl ++ nl
  ++ "All elements on current slide (" ++ natToString (List.length l) ++ " total):" ++ nl ++ nl
  ++ groupsText (groupIndexed 0 l [])
  ++ nl ++ "Tips for selecting elements:" ++ nl
  ++ "1. Click directly on the element you want to examine" ++ nl
  ++ "2. Press the 'Get Info' button immediately after selecting" ++ nl
  ++ "3. For text elements, try selecting some text within the element".

Definition bestGuessMessage (topShape : Shape) : string :=
  "Best guess of selected element (top-most element):" ++ nl ++ nl
  ++ getDetailedShapeInfo topShape 0
  ++ "Note: This is a best guess based on the top-most element on the slide." ++ nl
  ++ "For more accurate results, try clicking directly on an element before pressing 'Get Info'."
  ++ nl ++ nl.

(** After the shapes were fetched: the isSelected scan, the z-order guess and
    the listing of everything. *)
Definition afterFetch (h : Host) (l : list Shape) : list Step * string :=
  match filter selectedFlag l with
  | [] =>
      match jsSort byZIndexDesc l, topShapeLoad h with
      | topShape :: _, Ok _ => ([StepIsSelected; StepZOrder], bestGuessMessage topShape)
      | _, _ => ([StepIsSelected; StepZOrder; StepListAll], listAllMessage l)
      end
  | selectedShapes => ([StepIsSelected], foundMessage "" selectedShapes)
  end.

Definition approach12 (h : Host) : list Step * option string :=
  match getSelection h with
  | Ok (s :: l) => ([StepDirectSelection], Some (foundMessage "" (s :: l)))
  | _ =>
      match getActiveView h with
      | Ok (Some (s :: l)) =>
          ([StepDirectSelection; StepActiveView],
           Some (foundMessage " via active view" (s :: l)))
      | _ => ([StepDirectSelection; StepActiveView], None)
      end
  end.

(** The steps taken and the text written to the display node. *)
Definition detectShapesDirectly (h : Host) : list Step * string :=
  match getSelectedSlides h with
  | Failed e => ([StepSelectedSlides], "Error detecting shapes: " ++ e)
  | Ok [] => ([StepSelectedSlides], "No slide is currently selected.")
  | Ok (slide :: _) =>
      match approach12 h with
      | (st, Some message) => (StepSelectedSlides :: st, message)
      | (st, None) =>
          match shapes slide with
          | Failed e =>
              (((StepSelectedSlides :: st) ++ [StepSlideShapes])%list,
               "Error detecting shapes: " ++ e)
          | Ok [] =>
              (((StepSelectedSlides :: st) ++ [StepSlideShapes])%list,
               "No elements found on the current slide.")
          | Ok l =>
              let (st', message) := afterFetch h l in
              (((StepSelectedSlides :: st) ++ StepSlideShapes :: st')%list, message)
          end
      end
  end.

(** How the text scan of [getSelectedShapeDetails] ended at a shape. *)
Inductive ScanHit :=
| ContainsText (shape : Shape) (index : nat)
| FlaggedSelected (shape : Shape) (index : nat).

(** The loop over the shapes: stop at the first shape whose text contains
    the selected text or whose isSelected flag is set. *)
Fixpoint scanShapes (selectedText : string) (i : nat) (l : list Shape) : option ScanHit :=
  match l with
  | [] => None
  | shape :: rest =>
      if truthy (text shape) && includes selectedText (text shape)
      then Some (ContainsText shape i)
      else if selectedFlag shape then Some (FlaggedSelected shape i)
      else scanShapes selectedText (S i) rest
  end.

Definition listEntry (shape : Shape) (i : nat) : string :=
  natToString (i + 1) ++ ". " ++ orDefault (name shape) "Unnamed"
    ++ " (ID: " ++ id shape ++ ")" ++ nl
  ++ "   Type: " ++ type shape ++ ", Position: (" ++ numToString (left shape) ++ ", "
    ++ numToString (top shape) ++ ")" ++ nl
  ++ "   Size: " ++ numToString (width shape) ++ " x " ++ numToString (height shape)
    ++ ", Z-Index: " ++ numToString (zIndex shape) ++ nl ++ nl.

(** [getSelectedShapeDetails(selectedText)]; [shown] is the display text at
    the time of the call, the result the display text it leaves.  A slide whose
    load succeeded always carries its shapes collection. *)
Definition getSelectedShapeDetails (h : Host) (selectedText : string) (shown : string)
  : string :=
  match getSelectedSlides h with
  | Failed e => shown ++ nl ++ nl ++ "Error processing slide: " ++ e
  | Ok [] => shown ++ nl ++ nl ++ "No slide is currently selected."
  | Ok (slide :: _) =>
      match shapes slide with
      | Failed e => shown ++ nl ++ nl ++ "Error processing slide: " ++ e
      | Ok [] =>
          (if truthy selectedText then shown else "Detecting selected shape... ")
          ++ "No elements found on the current slide."
      | Ok l =>
          let message0 := if truthy selectedText then shown else "Detecting selected shape... " in
          let (message1, found1) :=
            if truthy selectedText then
              let m := message0 ++ "Attempting to identify the shape containing this text..."
                         ++ nl ++ nl in
              match scanShapes selectedText 0 l with
              | Some (ContainsText shape i) =>
                  (m ++ "Found shape containing selected text:" ++ nl ++ nl
                     ++ getShapeDetailsString shape i, true)
              | Some (FlaggedSelected shape i) =>
                  (m ++ "Found selected shape:" ++ nl ++ nl
                     ++ getShapeDetailsString shape i, true)
              | None =>
                  (m ++ "Could not identify which specific shape contains the selected text."
                     ++ nl ++ nl, false)
              end
            else (message0, false) in
          let (message2, found2) :=
            if found1 then (message1, true)
            else
              match getSelection h with
              | Ok (selectedShape :: _) =>
                  (message1 ++ "Found selected shape via selection API:" ++ nl ++ nl
                     ++ getShapeDetailsString selectedShape 0, true)
              | _ => (message1, false)
              end in
          if found2 then message2
          else
            message2 ++ "All elements on current slide (" ++ natToString (List.length l)
              ++ " total):" ++ nl ++ nl
            ++ concatIndexed listEntry 0 l
            ++ nl ++ "Tip: Select text within a shape to help identify it more precisely."
      end
  end.

(** The free-text callback of [detectSelectedElement]: the remembered text and
    the display text it leaves ([shown] when it records nothing). *)
Definition textChannel (h : Host) (g : Globals) (shown : string) : Globals * string :=
  match getSelectedText h with
  | Ok selectedText =>
      if negb (String.eqb selectedText (lastSelectedText g))
         && (0 <? String.length selectedText)%nat
      then
        (mkGlobals selectedText (lastMousePosition g) (lastClickedPosition g)
                   (hasMousePositionData g),
         getSelectedShapeDetails h selectedText
           ("Selected text: " ++ dq ++ selectedText ++ dq ++ nl ++ nl))
      else (g, shown)
  | Failed _ => (g, shown)
  end.

End TaskpaneDirect.

(* ================================================================== *)
(** ** The debounced selection-changed handler (identical in both scripts) *)

Module Debounce.

Record Timer := mkTimer { timerId : nat; due : Z }.

Record Loop := mkLoop {
  nextTimerId : nat;
  pending : list Timer;                    (* scheduled, neither fired nor cleared *)
  selectionChangeTimeout : option nat;
  passes : list Z                          (* when detectSelectedElement was started *)
}.

Definition initialLoop : Loop := mkLoop 1 [] None [].

Definition quietPeriod : Z := 300.

Section Timers.
(** How late the event loop runs the callback of each timer. *)
Variable lag : nat -> Z.

Definition clearTimeout (i : nat) (l : list Timer) : list Timer :=
  filter (fun t => negb (Nat.eqb (timerId t) i)) l.

(** The callbacks that are due run before anything that happens at [t]. *)
Definition advance (t : Z) (st : Loop) : Loop :=
  mkLoop (nextTimerId st)
         (filter (fun tm => negb (due tm <=? t)) (pending st))
         (selectionChangeTimeout st)
         (passes st ++ map due (filter (fun tm => due tm <=? t) (pending st)))%list.

(** [selectionChangedHandler], called at time [t]. *)
Definition selectionChangedHandler (t : Z) (st : Loop) : Loop :=
  let cleared :=
    match selectionChangeTimeout st with
    | Some i => clearTimeout i (pending st)
    | None => pending st
    end in
  let i := nextTimerId st in
  mkLoop (S i)
         (cleared ++ [mkTimer i (t + quietPeriod + lag i)])%list
         (Some i)
         (passes st).

Definition onEvent (st : Loop) (t : Z) : Loop :=
  selectionChangedHandler t (advance t st).

(** After the last event every timer still pending runs. *)
Definition drain (st : Loop) : Loop :=
  mkLoop (nextTimerId st) [] (selectionChangeTimeout st)
         (passes st ++ map due (pending st))%list.

(** The state in which the [k]-th timer, set at time [t], is the only one. *)
Definition armed (k : nat) (t : Z) : Loop :=
  mkLoop (S k) [mkTimer k (t + quietPeriod + lag k)] (Some k) [].

(** The start times of the detection passes caused by the events at the
    given (non-decreasing) times. *)
Definition passesOf (events : list Z) : list Z :=
  passes (drain (fold_left onEvent events initialLoop)).
End Timers.

End Debounce.

(* ================================================================== *)
(** ** Notions used by the statements *)

(** The tag is set (to a truthy value). *)
Definition claimed (si : SelectionInfo) : bool :=
  match detectionMethod si with Some t => truthy t | None => false end.

(** An attempt that resolves never replaces a tag that is already there. *)
Definition keepsMethod (a : Taskpane.Attempt) : Prop :=
  forall si ev r, claimed si = true -> a si = (ev, Some r) ->
                  detectionMethod r = detectionMethod si.

(** Sample data. *)
Definition logo : Shape :=
  mkShape "Logo" "p1" "Picture" "" 10 20 100 50 2 (Some true) "A logo" "" None None.

Definition box : Shape :=
  mkShape "Box" "s1" "GeometricShape" "hello" 0 0 40 30 1 (Some true) "" "" None None.

Definition note : Shape :=
  mkShape "Note" "s2" "GeometricShape" "say hello" 5 5 40 30 3 None "" "" None (Some 1700).

Definition card : Shape :=
  mkShape "Card" "s3" "GeometricShape" "" 0 0 80 60 7 None "" "" None (Some 1500).

(** A slide with one selected picture while the host also reports selected
    text; neither selection API is available. *)
Definition hostPictureAndText : Host :=
  mkHost (Ok [mkSlide (Ok [logo])]) (Failed "unsupported") (Failed "unsupported")
         (Failed "unsupported") (Ok tt) (Ok "Hi").

(** Two shapes carry the flag, one does not; no selection API. *)
Definition hostTwoSelected : Host :=
  mkHost (Ok [mkSlide (Ok [box; note; logo])]) (Failed "unsupported") (Failed "unsupported")
         (Failed "unsupported") (Ok tt) (Ok "").

(** Three overlapping shapes without flags or timestamps from the host, the
    position captured at the origin. *)
Definition plain (n i : string) (x y w hgt z : Z) : Shape :=
  mkShape n i "GeometricShape" "" x y w hgt z None "" "" None None.

Definition hostOverlap : Host :=
  mkHost (Ok [mkSlide (Ok [plain "A" "a" 0 0 10 10 1; plain "B" "b" (-5) (-5) 20 20 4;
                           plain "C" "c" 3 3 5 5 9])])
         (Failed "unsupported") (Failed "unsupported") (Failed "unsupported") (Ok tt) (Ok "").

(** The host with every failure of approaches 1 and 2 replaced by the
    corresponding empty answer. *)
Definition recovered (h : Host) : Host :=
  mkHost (getSelectedSlides h)
         (match getSelection h with Failed _ => Ok [] | r => r end)
         (match getActiveView h with Failed _ => Ok None | r => r end)
         (lastModifiedLoad h) (topShapeLoad h) (getSelectedText h).

Definition reportHeader : string := "=== CURRENT SELECTION INFO ===".

(** One flagged shape; the selection API throws. *)
Definition hostOneSelected : Host :=
  mkHost (Ok [mkSlide (Ok [note; box; card])]) (Failed "getSelection is not a function")
         (Ok None) (Failed "unsupported") (Ok tt) (Ok "").

(** Every event follows its predecessor by less than [q]. *)
Fixpoint gapsUnder (q : Z) (prev : Z) (ts : list Z) : Prop :=
  match ts with
  | [] => True
  | t :: ts' => prev <= t < prev + q /\ gapsUnder q t ts'
  end.

(** Whether the host reports selected free text. *)
Definition textSelectionFound (h : Host) : bool :=
  match getSelectedText h with Ok t => truthy t | Failed _ => false end.

Definition emptySlideReport : string :=
  "No element is currently selected." ++ nl ++ nl ++ "No elements found on the current slide.".

(** The events up to and including the fetch of the slide's shapes. *)
Definition beforeScan (e : Taskpane.Event) : Prop :=
  match e with
  | Taskpane.Entered Taskpane.StepIsSelected
  | Taskpane.Entered Taskpane.StepLastModified
  | Taskpane.Entered Taskpane.StepPosition
  | Taskpane.Entered Taskpane.StepZOrder => False
  | _ => True
  end.

Definition hostEmptySlide : Host :=
  mkHost (Ok [mkSlide (Ok [])]) (Failed "unsupported") (Ok None)
         (Failed "unsupported") (Ok tt) (Ok "").

(** Timestamps on two of three shapes, no flags. *)
Definition hostTimestamps : Host :=
  mkHost (Ok [mkSlide (Ok [card; plain "A" "a" 0 0 10 10 1; note])])
         (Failed "unsupported") (Failed "unsupported") (Ok tt) (Ok tt) (Ok "").

(** The lines every report of the sample picture contains. *)
Definition logoLines : string :=
  "1. Logo (ID: p1)" ++ nl
  ++ "   Type: Picture/Image" ++ nl
  ++ "   Position: (10, 20)" ++ nl
  ++ "   Size: 100 x 50" ++ nl
  ++ "   Z-Index: 2" ++ nl
  ++ "   Alt Text: A logo" ++ nl.

(** The point lies on an edge of the shape's box. *)
Definition onEdge (p : Point) (s : Shape) : Prop :=
  ((px p = left s \/ px p = left s + width s) /\ top s <= py p <= top s + height s)
  \/ ((py p = top s \/ py p = top s + height s) /\ left s <= px p <= left s + width s).

(** The index of the first element that satisfies [p], counting from [i]. *)
Fixpoint firstIndex {A : Type} (p : A -> bool) (i : nat) (l : list A) : option nat :=
  match l with
  | [] => None
  | x :: l' => if p x then Some i else firstIndex p (S i) l'
  end.

(** [shape.text && shape.text.indexOf(t) !== -1]. *)
Definition textContains (t : string) (s : Shape) : bool :=
  truthy (text s) && includes t (text s).

Definition hitIndex (r : option TaskpaneDirect.ScanHit) : option nat :=
  match r with
  | Some (TaskpaneDirect.ContainsText _ i) | Some (TaskpaneDirect.FlaggedSelected _ i) => Some i
  | None => None
  end.

(** The scan as the specification words it: the first shape whose text
    contains the selected text wins. *)
Definition firstSubstringMatchWins : Prop :=
  forall t l, hitIndex (TaskpaneDirect.scanShapes t 0 l) = firstIndex (textContains t) 0 l.

(** The recording rule as the specification words it, for a text channel
    [detect]: a text is recorded only if it differs from the one seen before. *)
Definition recordsOnlyChangedText
  (detect : Host -> Globals -> SelectionInfo -> Globals * SelectionInfo) : Prop :=
  forall h g si t,
    selText si = None -> selText (snd (detect h g si)) = Some t ->
    t <> lastSelectedText g.

Definition seenHi : Globals := mkGlobals "Hi" (mkPoint 0 0) (mkPoint 0 0) false.

(** Where the scan of the direct task pane stops. *)
Definition stopsScan (t : string) (s : Shape) : bool :=
  textContains t s || selectedFlag s.

(** Comparator and order of a descending sort by [key]. *)
Definition descendingBy {A : Type} (key : A -> Z) : A -> A -> Z :=
  fun a b => key b - key a.

Definition notBelow {A : Type} (key : A -> Z) : A -> A -> Prop :=
  fun a b => key b <= key a.

(* ================================================================== *)
(** ** Notions used by the further properties *)

(** The tags the shape cascade, the picture pass and the text channel write. *)
Definition shapeTags : list string :=
  ["direct-selection"; "active-view"; "isSelected"; "lastModified"; "position"].

Definition pictureTags : list string := ["picture-isSelected"; "picture-position"].

Definition allTags : list string := ("text" :: pictureTags ++ shapeTags)%list.

(** [hasSelection] of the report. *)
Definition hasSelection (si : SelectionInfo) : bool :=
  Taskpane.textTruthy (selText si) || negb (Taskpane.isEmpty (selShapes si))
  || negb (Taskpane.isEmpty (selPictures si)).

(** What one run of the shape cascade can do to the SelectionInfo. *)
Inductive ShapeOutcome (si : SelectionInfo) : SelectionInfo -> Prop :=
| ShapesUnchanged : ShapeOutcome si si
| ShapesFound (m : string) (l : list Shape) :
    l <> [] -> In m shapeTags ->
    ShapeOutcome si (claimMethod m (setShapes l si))
| ShapesStored (l : list Shape) : ShapeOutcome si (setAllShapes l si).

Definition attemptOutcome (a : Taskpane.Attempt) : Prop :=
  forall si ev r, a si = (ev, Some r) -> ShapeOutcome si r.

(** What one run of the picture pass can do to the SelectionInfo. *)
Inductive PictureOutcome (si : SelectionInfo) : SelectionInfo -> Prop :=
| PicturesUnchanged : PictureOutcome si si
| PicturesFound (m : string) (l : list Shape) :
    l <> [] -> In m pictureTags -> Forall (fun p => isPicture p = true) l ->
    PictureOutcome si (claimMethod m (setPictures l si))
| PicturesStored (l : list Shape) :
    selPictures si = [] -> PictureOutcome si (setAllPictures l si).

(** The strategy that decides the tag of the shape cascade, by priority. *)
Definition expectedTag (h : Host) (g : Globals) (l : list Shape) : option string :=
  if directSelectionFound h then Some "direct-selection"
  else if activeViewFound h then Some "active-view"
  else if existsb selectedFlag l then Some "isSelected"
  else if lastModifiedFound h l then Some "lastModified"
  else if hasMousePositionData g && existsb (containsPoint (lastClickedPosition g)) l
       then Some "position"
  else None.

(** Hosts for the examples of the further properties. *)
Definition hostDirect : Host :=
  mkHost (Ok [mkSlide (Ok [box; note; card])]) (Ok [card]) (Ok (Some [note]))
         (Ok tt) (Ok tt) (Ok "").

Definition hostNothing : Host :=
  mkHost (Ok [mkSlide (Ok [plain "A" "a" 5 5 10 10 1; plain "B" "b" 50 50 20 20 4])])
         (Failed "unsupported") (Failed "unsupported") (Failed "unsupported") (Ok tt) (Ok "").


(** A slide with two pictures, one of them flagged and both under the origin. *)
Definition photo : Shape :=
  mkShape "Photo" "p2" "Picture" "" (-5) (-5) 50 50 8 None "" "" None None.

Definition hostPictures : Host :=
  mkHost (Ok [mkSlide (Ok [box; logo; photo])]) (Failed "unsupported") (Failed "unsupported")
         (Failed "unsupported") (Ok tt) (Ok "").

(** Two unflagged pictures and a shape, all under the origin. *)
Definition poster : Shape :=
  mkShape "Poster" "p3" "Picture" "" (-9) (-9) 20 20 3 None "" "" None None.

Definition hostUnflaggedPictures : Host :=
  mkHost (Ok [mkSlide (Ok [poster; plain "A" "a" (-1) (-1) 10 10 9; photo])])
         (Failed "unsupported") (Failed "unsupported") (Failed "unsupported") (Ok tt) (Ok "").


(** The effect of one run of the shape cascade, whatever the SelectionInfo. *)
Inductive ShapeEffect :=
| FoundShapes (m : string) (l : list Shape)
| StoreShapes (l : list Shape)
| KeepShapes.

Definition applyShapeEffect (e : ShapeEffect) (si : SelectionInfo) : SelectionInfo :=
  match e with
  | FoundShapes m l => claimMethod m (setShapes l si)
  | StoreShapes l => setAllShapes l si
  | KeepShapes => si
  end.

Definition attemptEffect (a : Taskpane.Attempt) : Prop :=
  exists e : option ShapeEffect,
    forall si, snd (a si) = option_map (fun e => applyShapeEffect e si) e.

(** Everything of a SelectionInfo but its tag. *)
Definition content (si : SelectionInfo)
  : option string * list Shape * list Shape * option (list Shape) * option (list Shape) :=
  (selText si, selShapes si, selPictures si, allShapes si, allPictures si).

Definition methodLine (m : string) : string := nl ++ "Detection method: " ++ m.


(** Two states of a pass that agree on everything but the tag. *)
Definition sameState (st st' : Globals * SelectionInfo) : Prop :=
  fst st = fst st' /\ content (snd st) = content (snd st').

(** The effect of one run of the picture pass. *)
Inductive PictureEffect :=
| FoundPictures (m : string) (l : list Shape)
| FoundIfNone (m : string) (l : list Shape)
| StoreIfNone (l : list Shape)
| KeepPictures.

Definition applyPictureEffect (e : PictureEffect) (si : SelectionInfo) : SelectionInfo :=
  match e with
  | FoundPictures m l => claimMethod m (setPictures l si)
  | FoundIfNone m l =>
      match selPictures si with [] => claimMethod m (setPictures l si) | _ => si end
  | StoreIfNone l =>
      match selPictures si with [] => setAllPictures l si | _ => si end
  | KeepPictures => si
  end.

(** The text the free-text channel records, if any. *)
Definition textRecorded (h : Host) : option string :=
  match getSelectedText h with
  | Ok t => if (0 <? String.length t)%nat then Some t else None
  | Failed _ => None
  end.

Definition rememberText (t : string) (g : Globals) : Globals :=
  mkGlobals t (lastMousePosition g) (lastClickedPosition g) (hasMousePositionData g).

(** A host that reports text, a flagged picture and a flagged shape. *)
Definition hostEverything : Host :=
  mkHost (Ok [mkSlide (Ok [box; logo; note])]) (Failed "unsupported") (Failed "unsupported")
         (Failed "unsupported") (Ok tt) (Ok "hello").


(** The effects as functions on the content. *)
Definition Content : Type :=
  (option string * list Shape * list Shape * option (list Shape) * option (list Shape))%type.

Definition shapeOnContent (e : ShapeEffect) (c : Content) : Content :=
  match e, c with
  | FoundShapes _ l, (t, _, p, a, b) => (t, l, p, a, b)
  | StoreShapes l, (t, s, p, _, b) => (t, s, p, Some l, b)
  | KeepShapes, _ => c
  end.

Definition pictureOnContent (e : PictureEffect) (c : Content) : Content :=
  match e, c with
  | FoundPictures _ l, (t, s, _, a, b) => (t, s, l, a, b)
  | FoundIfNone _ l, (t, s, [], a, b) => (t, s, l, a, b)
  | StoreIfNone l, (t, s, [], a, _) => (t, s, [], a, Some l)
  | _, _ => c
  end.

Definition textOnContent (t : string) (c : Content) : Content :=
  match c with (_, s, p, a, b) => (Some t, s, p, a, b) end.


(** [x] is the first entry of [l] with the greatest key. *)
Definition firstWithGreatest {A : Type} (key : A -> Z) (x : A) (l : list A) : Prop :=
  exists before after,
    l = (before ++ x :: after)%list
    /\ (forall y, In y before -> key y < key x)
    /\ (forall y, In y after -> key y <= key x).

(** Equal timestamps and equal z-indices. *)
Definition early : Shape :=
  mkShape "Early" "e1" "GeometricShape" "" 0 0 10 10 5 None "" "" None (Some 900).
Definition twin1 : Shape :=
  mkShape "Twin1" "t1" "GeometricShape" "" 0 0 10 10 7 None "" "" None (Some 1700).
Definition twin2 : Shape :=
  mkShape "Twin2" "t2" "GeometricShape" "" 0 0 10 10 7 None "" "" None (Some 1700).

Definition hostTwins : Host :=
  mkHost (Ok [mkSlide (Ok [early; twin1; twin2])])
         (Failed "unsupported") (Failed "unsupported") (Ok tt) (Ok tt) (Ok "").


(** At most one timer is pending, and it is the one the handler remembers. *)
Definition singleTimer (st : Debounce.Loop) : Prop :=
  match Debounce.pending st with
  | [] => True
  | [tm] => Debounce.selectionChangeTimeout st = Some (Debounce.timerId tm)
  | _ => False
  end.

(** Every event follows its predecessor by at least [q]. *)
Fixpoint gapsAtLeast (q : Z) (prev : Z) (ts : list Z) : Prop :=
  match ts with
  | [] => True
  | t :: ts' => prev + q <= t /\ gapsAtLeast q t ts'
  end.

(** The due times of the timers set by the events [ts], numbered from [k]. *)
Fixpoint dueTimes (lag : nat -> Z) (k : nat) (ts : list Z) : list Z :=
  match ts with
  | [] => []
  | t :: ts' => (t + Debounce.quietPeriod + lag k) :: dueTimes lag (S k) ts'
  end.


(** The module-level variables as the script can leave them: they start at
    their initial values, the capture button and the selection tracker copy the
    mouse position into the clicked position, and the free-text channel
    remembers a text.  Nothing in the script writes the mouse position. *)
Inductive reachableGlobals : Globals -> Prop :=
| ReachInitial : reachableGlobals initialGlobals
| ReachCapture (g : Globals) :
    reachableGlobals g -> reachableGlobals (capturePosition g)
| ReachText (h : Host) (g : Globals) (si : SelectionInfo) :
    reachableGlobals g -> reachableGlobals (fst (Taskpane.detectSelectionText h g si)).

Definition origin : Point := mkPoint 0 0.


(** The key under which the listing files a shape. *)
Definition typeKey (s : Shape) : string := orDefault (type s) "Unknown".

(** A group of the listing is not empty and holds shapes of its key only. *)
Definition properGroup (kg : string * list Shape) : Prop :=
  snd kg <> [] /\ forall s, In s (snd kg) -> typeKey s = fst kg.

(** The picture of a pass is also among the shapes of that pass. *)
Definition shownAsPicture (si : SelectionInfo) (s : Shape) : Prop :=
  isPicture s = true
  /\ existsb (fun pic => String.eqb (id pic) (id s)) (selPictures si) = true.

Definition longText : Shape :=
  mkShape "Long" "s9" "GeometricShape"
    "0123456789012345678901234567890123456789012345678901234567890123456789012345678901234567890123456789 and more"
    0 0 10 10 1 None "" "" None None.

(** Nothing is flagged, stamped or under the cursor; one of the shapes is a
    picture. *)
Definition hostQuiet : Host :=
  mkHost (Ok [mkSlide (Ok [plain "A" "a" 5 5 10 10 1; poster])])
         (Failed "unsupported") (Failed "unsupported") (Failed "unsupported") (Ok tt) (Ok "").


(* ================================================================== *)
(** ** The first task pane: shapes selected on the slide, listed as they are *)

Module SimplePane.

Definition shapeEntry (shape : Shape) : string :=
  "- Name: " ++ name shape ++ nl
  ++ "  Type: " ++ type shape ++ nl
  ++ "  Position: (" ++ numToString (left shape) ++ ", " ++ numToString (top shape) ++ ")" ++ nl
  ++ "  Size: " ++ numToString (width shape) ++ " x " ++ numToString (height shape) ++ nl
  ++ (if truthy (text shape) then "  Text: " ++ dq ++ text shape ++ dq ++ nl else "")
  ++ nl.

Fixpoint entries (l : list Shape) : string :=
  match l with
  | [] => ""
  | shape :: rest => shapeEntry shape ++ entries rest
  end.

(** [run]: [selected] is what [slide.shapes.getSelected()] delivers after the
    two syncs, [Failed] a throw of either; the result is the message shown. *)
Definition run (selected : HostResult (list Shape)) : string :=
  match selected with
  | Failed e => "Error: " ++ e
  | Ok [] => "No elements are selected. Please select a shape on the slide."
  | Ok l => "Selected element(s):" ++ nl ++ entries l
  end.

End SimplePane.

(** The text a shape's details show. *)
Definition shownText (s : Shape) : string :=
  if Nat.ltb 100 (String.length (text s))
  then substring0 100 (text s) ++ "..."
  else text s.

(* ================================================================== *)
(** * Properties *)

(** ** The sort *)

Section SortFacts.
Context {A : Type}.
Variable cmp : A -> A -> Z.

Lemma insertSorted_perm (x : A) (l : list A) :
  Permutation (insertSorted cmp x l) (x :: l).
Proof.
  induction l as [|y l IH]; simpl.
  - apply Permutation_refl.
  - destruct (cmp x y <=? 0).
    + apply Permutation_refl.
    + eapply perm_trans; [apply perm_skip, IH | apply perm_swap].
Qed.

Lemma jsSort_perm (l : list A) : Permutation (jsSort cmp l) l.
Proof.
  induction l as [|x l IH]; simpl.
  - constructor.
  - eapply perm_trans; [apply insertSorted_perm | apply perm_skip, IH].
Qed.

Lemma jsSort_nil_inv (l : list A) : jsSort cmp l = [] -> l = [].
Proof.
  intros H. pose proof (jsSort_perm l) as P. rewrite H in P.
  now apply Permutation_nil in P.
Qed.
End SortFacts.

Section DescendingKey.
Context {A : Type}.
Variable key : A -> Z.

Lemma insertSorted_descending (x : A) (l : list A) :
  StronglySorted (notBelow key) l ->
  StronglySorted (notBelow key) (insertSorted (descendingBy key) x l).
Proof.
  induction l as [|y l IH]; intros HS; simpl.
  - repeat constructor.
  - inversion HS as [|? ? HS' Hall]; subst.
    unfold descendingBy at 1. destruct (Z.leb_spec (key y - key x) 0) as [Hle|Hgt].
    + constructor; [assumption|].
      constructor; [unfold notBelow; lia|].
      rewrite Forall_forall in *. intros z Hz. specialize (Hall z Hz).
      unfold notBelow in *. lia.
    + constructor; [now apply IH|].
      rewrite Forall_forall in *. intros z Hz.
      apply (Permutation_in _ (insertSorted_perm (descendingBy key) x l)) in Hz.
      destruct Hz as [<-|Hz]; [unfold notBelow; lia | now apply Hall].
Qed.

Lemma jsSort_descending (l : list A) : StronglySorted (notBelow key) (jsSort (descendingBy key) l).
Proof.
  induction l as [|x l IH]; simpl.
  - constructor.
  - now apply insertSorted_descending.
Qed.

(** The first element of the sorted array carries the greatest key. *)
Lemma jsSort_head_max (l : list A) (x : A) (rest : list A) :
  jsSort (descendingBy key) l = x :: rest -> forall y, In y l -> key y <= key x.
Proof.
  intros Hs y Hy.
  pose proof (jsSort_descending l) as HS. rewrite Hs in HS.
  apply (Permutation_in _ (Permutation_sym (jsSort_perm (descendingBy key) l))) in Hy.
  rewrite Hs in Hy. inversion HS as [|? ? _ Hall]; subst.
  destruct Hy as [<-|Hy]; [lia|].
  rewrite Forall_forall in Hall. exact (Hall y Hy).
Qed.
End DescendingKey.

Lemma byZIndexDesc_head_max (l : list Shape) (s : Shape) (rest : list Shape) :
  jsSort byZIndexDesc l = s :: rest -> forall s', In s' l -> zIndex s' <= zIndex s.
Proof. exact (jsSort_head_max zIndex l s rest). Qed.

Lemma byModifiedDesc_head_max (l : list Shape) (s : Shape) (rest : list Shape) :
  jsSort byModifiedDesc l = s :: rest ->
  forall s', In s' l -> modifiedTime s' <= modifiedTime s.
Proof. exact (jsSort_head_max modifiedTime l s rest). Qed.

(** ** Substrings *)

Lemma prefix_append (n post : string) : String.prefix n (n ++ post) = true.
Proof.
  induction n as [|c n IH]; simpl.
  - now destruct post.
  - destruct (ascii_dec c c) as [_|ne]; [exact IH | now elim ne].
Qed.

Lemma prefix_split (n h : string) :
  String.prefix n h = true -> exists post, h = n ++ post.
Proof.
  revert h. induction n as [|c n IH]; intros h H.
  - now exists h.
  - destruct h as [|d h]; simpl in H; [discriminate|].
    destruct (ascii_dec c d) as [->|]; [|discriminate].
    destruct (IH h H) as [post ->]. now exists post.
Qed.

Lemma includes_prefix (n h : string) : String.prefix n h = true -> includes n h = true.
Proof. intros H. destruct h; cbn [includes]; rewrite H; reflexivity. Qed.

Lemma includes_intro (pre n post : string) : includes n (pre ++ n ++ post) = true.
Proof.
  induction pre as [|c pre IH]; simpl.
  - apply includes_prefix, prefix_append.
  - rewrite IH. apply orb_true_r.
Qed.

Lemma includes_split (n h : string) :
  includes n h = true -> exists pre post, h = pre ++ n ++ post.
Proof.
  induction h as [|c h IH]; cbn [includes]; intros H.
  - rewrite orb_false_r in H. destruct (prefix_split _ _ H) as [post E].
    exists "", post. exact E.
  - apply orb_true_iff in H. destruct H as [H|H].
    + destruct (prefix_split _ _ H) as [post E]. exists "", post. exact E.
    + destruct (IH H) as (pre & post & ->). exists (String c pre), post. reflexivity.
Qed.

Lemma append_assoc (a b c : string) : (a ++ b) ++ c = a ++ b ++ c.
Proof. induction a as [|x a IH]; simpl; [reflexivity | now rewrite IH]. Qed.

(** A substring of a piece is a substring of the whole. *)
Lemma includes_within (n a h b : string) :
  includes n h = true -> includes n (a ++ h ++ b) = true.
Proof.
  intros H. destruct (includes_split _ _ H) as (pre & post & ->).
  replace (a ++ (pre ++ n ++ post) ++ b) with ((a ++ pre) ++ n ++ (post ++ b)).
  - apply includes_intro.
  - now rewrite !append_assoc.
Qed.

Lemma includes_left (n h b : string) :
  includes n h = true -> includes n (h ++ b) = true.
Proof. intros H. exact (includes_within n "" h b H). Qed.

Lemma includes_right (n a h : string) :
  includes n h = true -> includes n (a ++ h) = true.
Proof.
  intros H. destruct (includes_split _ _ H) as (pre & post & ->).
  rewrite <- append_assoc. apply includes_intro.
Qed.

(** ** The method tag *)

Lemma claimMethod_claimed (m : string) (si : SelectionInfo) :
  claimed si = true -> claimMethod m si = si.
Proof.
  unfold claimed, claimMethod. destruct (detectionMethod si) as [t|]; [|discriminate].
  now intros ->.
Qed.

Lemma claimMethod_unclaimed (m : string) (si : SelectionInfo) :
  claimed si = false -> claimMethod m si = setMethod m si.
Proof.
  unfold claimed, claimMethod. destruct (detectionMethod si) as [t|]; [|reflexivity].
  now intros ->.
Qed.

Lemma claimMethod_keeps (m : string) (si : SelectionInfo) :
  claimed si = true -> detectionMethod (claimMethod m si) = detectionMethod si.
Proof. intros H. now rewrite claimMethod_claimed. Qed.

Lemma claimMethod_setShapes (m : string) (l : list Shape) (si : SelectionInfo) :
  selShapes (claimMethod m (setShapes l si)) = l.
Proof.
  unfold claimMethod. simpl. destruct (detectionMethod si) as [t|]; [destruct (truthy t)|];
    reflexivity.
Qed.

Lemma claimMethod_setShapes_method (m : string) (l : list Shape) (si : SelectionInfo) :
  detectionMethod (claimMethod m (setShapes l si)) = detectionMethod (claimMethod m si).
Proof.
  unfold claimMethod. simpl. destruct (detectionMethod si) as [t|]; [destruct (truthy t)|];
    reflexivity.
Qed.

Lemma claimMethod_fresh (m : string) (si : SelectionInfo) :
  detectionMethod si = None -> detectionMethod (claimMethod m si) = Some m.
Proof. unfold claimMethod. now intros ->. Qed.

Lemma orElse_keepsMethod (a b : Taskpane.Attempt) :
  keepsMethod a -> keepsMethod b -> keepsMethod (Taskpane.orElse a b).
Proof.
  intros Ha Hb si ev r Hc. unfold Taskpane.orElse.
  destruct (a si) as [ev1 [r1|]] eqn:Ea.
  - intros [= <- <-]. exact (Ha si ev1 r1 Hc Ea).
  - destruct (b si) as [ev2 r2] eqn:Eb. intros [= <- ->]. exact (Hb si ev2 r Hc Eb).
Qed.

Ltac keeps_tac :=
  intros [= <- <-]; rewrite claimMethod_setShapes_method;
  now apply claimMethod_keeps.

Lemma approach1_keepsMethod (h : Host) : keepsMethod (Taskpane.approach1 h).
Proof.
  intros si ev r Hc. unfold Taskpane.approach1.
  destruct (getSelection h) as [[|s l]|e]; try discriminate. keeps_tac.
Qed.

Lemma approach2_keepsMethod (h : Host) : keepsMethod (Taskpane.approach2 h).
Proof.
  intros si ev r Hc. unfold Taskpane.approach2.
  destruct (getActiveView h) as [[[|s l]|]|e]; try discriminate. keeps_tac.
Qed.

Lemma approach3_keepsMethod (l : list Shape) : keepsMethod (Taskpane.approach3 l).
Proof.
  intros si ev r Hc. unfold Taskpane.approach3.
  destruct (filter selectedFlag l); try discriminate. keeps_tac.
Qed.

Lemma approach4_keepsMethod (h : Host) (l : list Shape) :
  keepsMethod (Taskpane.approach4 h l).
Proof.
  intros si ev r Hc. unfold Taskpane.approach4.
  destruct (lastModifiedLoad h); try discriminate.
  destruct (filter hasModifiedTime l); try discriminate.
  destruct (jsSort byModifiedDesc _); try discriminate. keeps_tac.
Qed.

Lemma approach5_keepsMethod (g : Globals) (l : list Shape) :
  keepsMethod (Taskpane.approach5 g l).
Proof.
  intros si ev r Hc. unfold Taskpane.approach5.
  destruct (hasMousePositionData g); try discriminate.
  destruct (filter _ l); try discriminate. keeps_tac.
Qed.

Lemma approach6_keepsMethod (l : list Shape) : keepsMethod (Taskpane.approach6 l).
Proof.
  intros si ev r Hc. unfold Taskpane.approach6.
  destruct (jsSort byZIndexDesc l); try discriminate. now intros [= <- <-].
Qed.

Lemma storeAll_keepsMethod (l : list Shape) : keepsMethod (Taskpane.storeAll l).
Proof. intros si ev r Hc. unfold Taskpane.storeAll. now intros [= <- <-]. Qed.

Lemma withSlideShapes_keepsMethod (slide : Slide) (k : list Shape -> Taskpane.Attempt) :
  (forall l, keepsMethod (k l)) -> keepsMethod (Taskpane.withSlideShapes slide k).
Proof.
  intros Hk si ev r Hc. unfold Taskpane.withSlideShapes.
  destruct (shapes slide) as [[|s l]|e].
  - now intros [= <- <-].
  - destruct (k (s :: l) si) as [ev' r'] eqn:Ek. intros [= <- ->].
    exact (Hk _ si ev' r Hc Ek).
  - now intros [= <- <-].
Qed.

Lemma cascade_keepsMethod (h : Host) (g : Globals) (slide : Slide) :
  keepsMethod (Taskpane.cascade h g slide).
Proof.
  unfold Taskpane.cascade.
  repeat first
    [ apply orElse_keepsMethod | apply approach1_keepsMethod | apply approach2_keepsMethod
    | apply withSlideShapes_keepsMethod; intros l; unfold Taskpane.afterFetch
    | apply approach3_keepsMethod | apply approach4_keepsMethod
    | apply approach5_keepsMethod | apply approach6_keepsMethod
    | apply storeAll_keepsMethod ].
Qed.

(** X23: The shape cascade leaves a tag that is already set as it is, whatever
    the host answers and whichever strategy finds shapes. *)
Lemma detectShapesDirectly_keeps_method (h : Host) (g : Globals) (si : SelectionInfo) :
  claimed si = true ->
  detectionMethod (snd (Taskpane.detectShapesDirectly h g si)) = detectionMethod si.
Proof.
  intros Hc. unfold Taskpane.detectShapesDirectly.
  destruct (getSelectedSlides h) as [[|slide rest]|e]; try reflexivity.
  destruct (Taskpane.cascade h g slide si) as [ev [r|]] eqn:E; simpl; [|reflexivity].
  exact (cascade_keepsMethod h g slide si ev r Hc E).
Qed.

Lemma claim_setPictures_method (m : string) (l : list Shape) (si : SelectionInfo) :
  claimed si = true ->
  detectionMethod (claimMethod m (setPictures l si)) = detectionMethod si.
Proof.
  intros Hc. rewrite claimMethod_claimed; [reflexivity|]. exact Hc.
Qed.

(** X24: The picture pass leaves a tag that is already set as it is. *)
Lemma detectPicturesSpecifically_keeps_method (h : Host) (g : Globals) (si : SelectionInfo) :
  claimed si = true ->
  detectionMethod (Taskpane.detectPicturesSpecifically h g si) = detectionMethod si.
Proof.
  intros Hc. unfold Taskpane.detectPicturesSpecifically.
  destruct (getSelectedSlides h) as [[|slide rest]|e]; try reflexivity.
  destruct (shapes slide) as [[|s0 l0]|e]; try reflexivity.
  destruct (filter isPicture (s0 :: l0)) as [|p ps]; [reflexivity|].
  set (pics := p :: ps).
  assert (H1 : forall si1, claimed si1 = true -> detectionMethod si1 = detectionMethod si ->
     detectionMethod
       (let si2 := match selPictures si1 with
                   | [] => if hasMousePositionData g
                           then match filter (containsPoint (lastClickedPosition g)) pics with
                                | [] => si1
                                | q :: qs => claimMethod "picture-position"
                                    (setPictures (jsSort byZIndexDesc (q :: qs)) si1)
                                end
                           else si1
                   | _ :: _ => si1
                   end in
        match selPictures si2 with [] => setAllPictures pics si2 | _ :: _ => si2 end)
     = detectionMethod si).
  { intros si1 Hc1 E1. cbv zeta.
    assert (H2 : forall si2, detectionMethod si2 = detectionMethod si ->
       detectionMethod (match selPictures si2 with
                        | [] => setAllPictures pics si2 | _ :: _ => si2 end)
       = detectionMethod si).
    { intros si2 E2. destruct (selPictures si2); simpl; exact E2. }
    apply H2.
    destruct (selPictures si1); [|exact E1].
    destruct (hasMousePositionData g); [|exact E1].
    destruct (filter _ pics); [exact E1|].
    rewrite claim_setPictures_method; assumption. }
  destruct (filter selectedFlag pics) as [|q qs].
  - apply H1; [exact Hc | reflexivity].
  - apply H1.
    + rewrite claimMethod_claimed; exact Hc.
    + apply claim_setPictures_method, Hc.
Qed.

(** The free-text channel writes its tag whatever the tag was before. *)
Lemma detectSelectionText_sets_method (h : Host) (g : Globals) (si : SelectionInfo)
      (c : ascii) (t : string) :
  getSelectedText h = Ok (String c t) ->
  detectionMethod (snd (Taskpane.detectSelectionText h g si)) = Some "text".
Proof. unfold Taskpane.detectSelectionText. now intros ->. Qed.

(** C1 (evaluation at the failing input): with one selected picture and a
    non-empty host text selection, when the picture pass and the shape cascade
    complete before the free-text callback, the tag is first set to
    "picture-isSelected", survives the shape cascade, and is then overwritten
    with "text" by the free-text channel: it is assigned twice in one pass. *)
Theorem C1_text_channel_overwrites_method :
  let h := hostPictureAndText in
  let st0 := (initialGlobals, freshInfo) in
  detectionMethod (snd (Taskpane.runChannels h [Taskpane.PictureChannel] st0))
    = Some "picture-isSelected"
  /\ detectionMethod
       (snd (Taskpane.runChannels h [Taskpane.PictureChannel; Taskpane.ShapeChannel] st0))
     = Some "picture-isSelected"
  /\ detectionMethod
       (Taskpane.passInfo
          (Taskpane.detectSelectedElement h
             [Taskpane.PictureChannel; Taskpane.ShapeChannel; Taskpane.TextChannel]
             initialGlobals))
     = Some "text".
Proof. repeat split; vm_compute; reflexivity. Qed.

(** ** Reaching the scan of the fetched shapes *)

Lemma approach1_silent (h : Host) (si : SelectionInfo) :
  directSelectionFound h = false -> snd (Taskpane.approach1 h si) = None.
Proof.
  unfold directSelectionFound, Taskpane.approach1.
  destruct (getSelection h) as [[|s l]|e]; simpl; congruence.
Qed.

Lemma approach2_silent (h : Host) (si : SelectionInfo) :
  activeViewFound h = false -> snd (Taskpane.approach2 h si) = None.
Proof.
  unfold activeViewFound, Taskpane.approach2.
  destruct (getActiveView h) as [[[|s l]|]|e]; simpl; congruence.
Qed.

Lemma orElse_silent (a b : Taskpane.Attempt) (si : SelectionInfo) :
  snd (a si) = None ->
  Taskpane.orElse a b si = ((fst (a si) ++ fst (b si))%list, snd (b si)).
Proof.
  unfold Taskpane.orElse. destruct (a si) as [ev [r|]]; simpl; [discriminate|].
  intros _. now destruct (b si).
Qed.

Lemma orElse_found (a b : Taskpane.Attempt) (si r : SelectionInfo) :
  snd (a si) = Some r -> Taskpane.orElse a b si = (fst (a si), Some r).
Proof.
  unfold Taskpane.orElse. destruct (a si) as [ev [r'|]]; simpl; [|discriminate].
  now intros [= ->].
Qed.

Lemma withSlideShapes_fetched (slide : Slide) (k : list Shape -> Taskpane.Attempt)
      (si : SelectionInfo) (s : Shape) (l : list Shape) :
  shapes slide = Ok (s :: l) ->
  Taskpane.withSlideShapes slide k si =
    (Taskpane.Entered Taskpane.StepSlideShapes :: fst (k (s :: l) si), snd (k (s :: l) si)).
Proof.
  intros Hl. unfold Taskpane.withSlideShapes. rewrite Hl.
  now destruct (k (s :: l) si).
Qed.

(** When approaches 1 and 2 come back empty-handed and the slide has shapes,
    the pass is decided by approaches 3 to 6 on those shapes. *)
Lemma detectShapesDirectly_afterFetch (h : Host) (g : Globals) (si : SelectionInfo)
      (slide : Slide) (rest : list Slide) (s : Shape) (l : list Shape) :
  getSelectedSlides h = Ok (slide :: rest) ->
  directSelectionFound h = false ->
  activeViewFound h = false ->
  shapes slide = Ok (s :: l) ->
  Taskpane.detectShapesDirectly h g si =
    ((Taskpane.Entered Taskpane.StepSelectedSlides
        :: fst (Taskpane.approach1 h si) ++ fst (Taskpane.approach2 h si)
        ++ Taskpane.Entered Taskpane.StepSlideShapes
        :: fst (Taskpane.afterFetch h g (s :: l) si))%list,
     match snd (Taskpane.afterFetch h g (s :: l) si) with
     | Some si' => si'
     | None => si
     end).
Proof.
  intros Hs H1 H2 Hl. unfold Taskpane.detectShapesDirectly, Taskpane.cascade.
  rewrite Hs, (orElse_silent _ _ si (approach1_silent h si H1)).
  rewrite (orElse_silent _ _ si (approach2_silent h si H2)).
  rewrite (withSlideShapes_fetched slide _ si s l Hl). reflexivity.
Qed.

(** ** Strategy 3 *)

Lemma approach3_result (l : list Shape) (si : SelectionInfo) :
  snd (Taskpane.approach3 l si) =
    match filter selectedFlag l with
    | [] => None
    | sel => Some (claimMethod "isSelected" (setShapes sel si))
    end.
Proof. unfold Taskpane.approach3. now destruct (filter selectedFlag l). Qed.

Lemma direct_approach12_silent (h : Host) :
  directSelectionFound h = false -> activeViewFound h = false ->
  TaskpaneDirect.approach12 h =
    ([TaskpaneDirect.StepDirectSelection; TaskpaneDirect.StepActiveView], None).
Proof.
  unfold directSelectionFound, activeViewFound, TaskpaneDirect.approach12.
  destruct (getSelection h) as [[|s l]|e]; try discriminate;
    destruct (getActiveView h) as [[[|s' l']|]|e']; try discriminate; reflexivity.
Qed.

(** C2: when approaches 1 and 2 yield nothing, the shapes kept by the
    isSelected scan are exactly the shapes of the slide whose flag is set, each
    of them kept (as many entries as flagged shapes), in the SelectionInfo of the
    aggregating task pane and in the report of the direct one. *)
Theorem C2_isSelected_scan_exact (h : Host) (g : Globals) (si : SelectionInfo)
        (slide : Slide) (rest : list Slide) (l : list Shape) :
  getSelectedSlides h = Ok (slide :: rest) ->
  directSelectionFound h = false ->
  activeViewFound h = false ->
  shapes slide = Ok l ->
  (exists s, In s l /\ selectedFlag s = true) ->
  let out := snd (Taskpane.detectShapesDirectly h g si) in
  selShapes out = filter selectedFlag l
  /\ (forall s, In s (selShapes out) <-> In s l /\ selectedFlag s = true)
  /\ List.length (selShapes out) = List.length (filter selectedFlag l)
  /\ detectionMethod out = detectionMethod (claimMethod "isSelected" si)
  /\ snd (TaskpaneDirect.detectShapesDirectly h)
     = TaskpaneDirect.foundMessage "" (filter selectedFlag l).
Proof.
  intros Hs H1 H2 Hl [s0 [Hin Hsel]] out.
  assert (Hne : filter selectedFlag l <> []).
  { intros E. assert (Hf : In s0 (filter selectedFlag l)) by (apply filter_In; auto).
    rewrite E in Hf. exact Hf. }
  destruct l as [|s l']; [contradiction|].
  assert (Hout : out = claimMethod "isSelected" (setShapes (filter selectedFlag (s :: l')) si)).
  { unfold out. rewrite (detectShapesDirectly_afterFetch h g si slide rest s l' Hs H1 H2 Hl).
    cbn [snd]. unfold Taskpane.afterFetch.
    pose proof (approach3_result (s :: l') si) as H3.
    destruct (filter selectedFlag (s :: l')) as [|x xs] eqn:Ef; [now elim Hne|].
    now rewrite (orElse_found _ _ si _ H3). }
  assert (Hshapes : selShapes out = filter selectedFlag (s :: l')).
  { rewrite Hout. apply claimMethod_setShapes. }
  split; [|split; [|split; [|split]]].
  - exact Hshapes.
  - intros x. rewrite Hshapes. apply filter_In.
  - now rewrite Hshapes.
  - rewrite Hout. apply claimMethod_setShapes_method.
  - unfold TaskpaneDirect.detectShapesDirectly.
    rewrite Hs, (direct_approach12_silent h H1 H2), Hl.
    unfold TaskpaneDirect.afterFetch.
    destruct (filter selectedFlag (s :: l')) as [|x xs]; [now elim Hne|]. reflexivity.
Qed.

Lemma C2_isSelected_scan_exact_witness :
  let out := snd (Taskpane.detectShapesDirectly hostTwoSelected initialGlobals freshInfo) in
  selShapes out = [box; logo]
  /\ List.length (selShapes out) = 2%nat
  /\ detectionMethod out = Some "isSelected".
Proof.
  destruct (C2_isSelected_scan_exact hostTwoSelected initialGlobals freshInfo
              (mkSlide (Ok [box; note; logo])) [] [box; note; logo]
              eq_refl eq_refl eq_refl eq_refl
              (ex_intro _ box (conj (or_introl eq_refl) eq_refl)))
    as (H1 & _ & H3 & H4 & _).
  intros out. split; [exact H1 | split; [exact H3 | exact H4]].
Defined.

(** ** Strategies 4 and 5 *)

Lemma existsb_false_filter {A : Type} (f : A -> bool) (l : list A) :
  existsb f l = false -> filter f l = [].
Proof.
  induction l as [|x l IH]; simpl; [reflexivity|].
  intros H. apply orb_false_iff in H. destruct H as [-> H]. auto.
Qed.

Lemma approach3_silent (l : list Shape) (si : SelectionInfo) :
  filter selectedFlag l = [] ->
  Taskpane.approach3 l si = ([Taskpane.Entered Taskpane.StepIsSelected], None).
Proof. unfold Taskpane.approach3. now intros ->. Qed.

Lemma approach4_silent (h : Host) (l : list Shape) (si : SelectionInfo) :
  lastModifiedFound h l = false -> snd (Taskpane.approach4 h l si) = None.
Proof.
  unfold lastModifiedFound, Taskpane.approach4.
  destruct (lastModifiedLoad h) as [u|e]; [|reflexivity].
  intros H. now rewrite (existsb_false_filter _ _ H).
Qed.

Lemma approach4_trace (h : Host) (l : list Shape) (si : SelectionInfo) (e : Taskpane.Event) :
  In e (fst (Taskpane.approach4 h l si)) ->
  e = Taskpane.Entered Taskpane.StepLastModified
  \/ exists err, e = Taskpane.ConsoleLog "Modified time detection failed:" err.
Proof.
  unfold Taskpane.approach4.
  destruct (lastModifiedLoad h) as [u|err].
  - destruct (filter hasModifiedTime l); [|destruct (jsSort byModifiedDesc _)];
      simpl; intros [<-|[]]; now left.
  - simpl. intros [<-|[<-|[]]]; [now left | right; now exists err].
Qed.

Lemma approach5_without_data (g : Globals) (l : list Shape) (si : SelectionInfo) :
  hasMousePositionData g = false -> Taskpane.approach5 g l si = ([], None).
Proof. unfold Taskpane.approach5. now intros ->. Qed.

Lemma approach6_stores (s : Shape) (l : list Shape) (si : SelectionInfo) :
  Taskpane.approach6 (s :: l) si =
    ([Taskpane.Entered Taskpane.StepZOrder], Some (setAllShapes (s :: l) si)).
Proof.
  unfold Taskpane.approach6.
  destruct (jsSort byZIndexDesc (s :: l)) eqn:E; [|reflexivity].
  apply jsSort_nil_inv in E. discriminate.
Qed.

(** C3: with approaches 1 to 4 empty-handed, the position strategy is entered
    only when position data was captured (otherwise the pass keeps the whole
    shape list and never enters it); when it is entered and some shape contains
    the captured position, the result holds exactly the containing shapes,
    sorted by descending z-index, so its first entry has the greatest z-index. *)
Theorem C3_position_strategy (h : Host) (g : Globals) (si : SelectionInfo)
        (slide : Slide) (rest : list Slide) (l : list Shape) :
  getSelectedSlides h = Ok (slide :: rest) ->
  directSelectionFound h = false ->
  activeViewFound h = false ->
  shapes slide = Ok l ->
  filter selectedFlag l = [] ->
  lastModifiedFound h l = false ->
  (exists s, In s l /\ containsPoint (lastClickedPosition g) s = true) ->
  let run := Taskpane.detectShapesDirectly h g si in
  let p := lastClickedPosition g in
  (hasMousePositionData g = false ->
     ~ In (Taskpane.Entered Taskpane.StepPosition) (fst run)
     /\ snd run = setAllShapes l si)
  /\ (hasMousePositionData g = true ->
        In (Taskpane.Entered Taskpane.StepPosition) (fst run)
        /\ selShapes (snd run) = jsSort byZIndexDesc (filter (containsPoint p) l)
        /\ (forall s, In s (selShapes (snd run)) <-> In s l /\ containsPoint p s = true)
        /\ (exists topShape others,
              selShapes (snd run) = topShape :: others
              /\ forall s, In s l -> containsPoint p s = true ->
                           zIndex s <= zIndex topShape)
        /\ detectionMethod (snd run) = detectionMethod (claimMethod "position" si)).
Proof.
  intros Hs H1 H2 Hl H3 H4 [s0 [Hin Hc]] run p.
  destruct l as [|s l']; [contradiction|].
  assert (Hrun : run =
    ((Taskpane.Entered Taskpane.StepSelectedSlides
        :: fst (Taskpane.approach1 h si) ++ fst (Taskpane.approach2 h si)
        ++ Taskpane.Entered Taskpane.StepSlideShapes
        :: Taskpane.Entered Taskpane.StepIsSelected
        :: fst (Taskpane.approach4 h (s :: l') si)
        ++ fst ((Taskpane.orElse (Taskpane.approach5 g (s :: l'))
                   (Taskpane.orElse (Taskpane.approach6 (s :: l'))
                                    (Taskpane.storeAll (s :: l')))) si))%list,
     match snd ((Taskpane.orElse (Taskpane.approach5 g (s :: l'))
                   (Taskpane.orElse (Taskpane.approach6 (s :: l'))
                                    (Taskpane.storeAll (s :: l')))) si) with
     | Some si' => si'
     | None => si
     end)).
  { unfold run. rewrite (detectShapesDirectly_afterFetch h g si slide rest s l' Hs H1 H2 Hl).
    unfold Taskpane.afterFetch.
    rewrite (orElse_silent (Taskpane.approach3 (s :: l')) _ si);
      rewrite (approach3_silent _ si H3); [|reflexivity].
    rewrite (orElse_silent (Taskpane.approach4 h (s :: l')) _ si (approach4_silent h _ si H4)).
    reflexivity. }
  split.
  - intros Hno. rewrite Hrun.
    rewrite (orElse_silent (Taskpane.approach5 g (s :: l')) _ si);
      rewrite (approach5_without_data g _ si Hno); [|reflexivity].
    rewrite (orElse_found (Taskpane.approach6 (s :: l')) _ si (setAllShapes (s :: l') si));
      rewrite approach6_stores; [|reflexivity].
    cbn [fst snd]. split; [|reflexivity].
    intros [E|Hi]; [discriminate|].
    apply in_app_or in Hi. destruct Hi as [Hi|Hi].
    { unfold Taskpane.approach1 in Hi. destruct (getSelection h) as [[|? ?]|?];
        simpl in Hi; intuition discriminate. }
    apply in_app_or in Hi. destruct Hi as [Hi|Hi].
    { unfold Taskpane.approach2 in Hi. destruct (getActiveView h) as [[[|? ?]|]|?];
        simpl in Hi; intuition discriminate. }
    destruct Hi as [E|[E|Hi]]; try discriminate.
    apply in_app_or in Hi. destruct Hi as [Hi|Hi].
    { apply approach4_trace in Hi. destruct Hi as [E|[err E]]; discriminate. }
    simpl in Hi. intuition discriminate.
  - intros Hyes.
    assert (Hne : filter (containsPoint p) (s :: l') <> []).
    { intros E. assert (Hf : In s0 (filter (containsPoint p) (s :: l')))
        by (apply filter_In; auto).
      rewrite E in Hf. exact Hf. }
    assert (H5 : Taskpane.approach5 g (s :: l') si =
                 ([Taskpane.Entered Taskpane.StepPosition],
                  Some (claimMethod "position"
                          (setShapes (jsSort byZIndexDesc (filter (containsPoint p) (s :: l')))
                                     si)))).
    { unfold Taskpane.approach5. rewrite Hyes. fold p.
      destruct (filter (containsPoint p) (s :: l')); [now elim Hne | reflexivity]. }
    rewrite Hrun.
    rewrite (orElse_found (Taskpane.approach5 g (s :: l')) _ si _ (f_equal snd H5)).
    rewrite H5. cbn [fst snd]. rewrite claimMethod_setShapes, claimMethod_setShapes_method.
    split; [|split; [reflexivity|split; [|split; [|reflexivity]]]].
    + right. apply in_or_app. right. apply in_or_app. right.
      right. right. apply in_or_app. right. now left.
    + intros x. rewrite <- filter_In. split; intros Hx.
      * exact (Permutation_in _ (jsSort_perm byZIndexDesc _) Hx).
      * exact (Permutation_in _ (Permutation_sym (jsSort_perm byZIndexDesc _)) Hx).
    + destruct (jsSort byZIndexDesc (filter (containsPoint p) (s :: l')))
        as [|topShape others] eqn:Esort.
      * apply jsSort_nil_inv in Esort. now elim Hne.
      * exists topShape, others. split; [reflexivity|].
        intros x Hx Hcx. apply (byZIndexDesc_head_max _ _ _ Esort).
        apply filter_In. auto.
Qed.

Lemma C3_position_strategy_witness :
  let run := Taskpane.detectShapesDirectly hostOverlap (capturePosition initialGlobals)
                                           freshInfo in
  map name (selShapes (snd run)) = ["B"; "A"]
  /\ detectionMethod (snd run) = Some "position".
Proof.
  destruct (C3_position_strategy hostOverlap (capturePosition initialGlobals) freshInfo
              (mkSlide (Ok [plain "A" "a" 0 0 10 10 1; plain "B" "b" (-5) (-5) 20 20 4;
                            plain "C" "c" 3 3 5 5 9])) [] _
              eq_refl eq_refl eq_refl eq_refl eq_refl eq_refl
              (ex_intro _ (plain "A" "a" 0 0 10 10 1) (conj (or_introl eq_refl) eq_refl)))
    as [_ Hyes].
  destruct (Hyes eq_refl) as (_ & Hshapes & _ & _ & Hm).
  intros run. split.
  - exact (f_equal (map name) Hshapes).
  - exact Hm.
Defined.

(** ** Failures of single strategies *)

Lemma approach1_recovered (h : Host) (si : SelectionInfo) :
  snd (Taskpane.approach1 (recovered h) si) = snd (Taskpane.approach1 h si).
Proof.
  unfold Taskpane.approach1, recovered; simpl.
  now destruct (getSelection h) as [[|s l]|e].
Qed.

Lemma approach2_recovered (h : Host) (si : SelectionInfo) :
  snd (Taskpane.approach2 (recovered h) si) = snd (Taskpane.approach2 h si).
Proof.
  unfold Taskpane.approach2, recovered; simpl.
  now destruct (getActiveView h) as [[[|s l]|]|e].
Qed.

Lemma orElse_snd (a b : Taskpane.Attempt) (si : SelectionInfo) :
  snd (Taskpane.orElse a b si) =
    match snd (a si) with Some r => Some r | None => snd (b si) end.
Proof.
  unfold Taskpane.orElse. destruct (a si) as [ev [r|]]; simpl; [reflexivity|].
  now destruct (b si).
Qed.

(** A throw inside approach 1 or 2 leaves the same SelectionInfo as an empty
    answer of that approach. *)
Lemma detectShapesDirectly_recovered (h : Host) (g : Globals) (si : SelectionInfo) :
  snd (Taskpane.detectShapesDirectly (recovered h) g si)
  = snd (Taskpane.detectShapesDirectly h g si).
Proof.
  unfold Taskpane.detectShapesDirectly.
  change (getSelectedSlides (recovered h)) with (getSelectedSlides h).
  destruct (getSelectedSlides h) as [[|slide rest]|e]; try reflexivity.
  assert (E : snd (Taskpane.cascade (recovered h) g slide si)
              = snd (Taskpane.cascade h g slide si)).
  { unfold Taskpane.cascade. rewrite !orElse_snd.
    rewrite approach1_recovered, approach2_recovered. reflexivity. }
  destruct (Taskpane.cascade (recovered h) g slide si) as [ev r],
           (Taskpane.cascade h g slide si) as [ev' r'].
  simpl in *. now subst.
Qed.

Lemma detectSelectionText_shapes (h : Host) (g : Globals) (si : SelectionInfo) :
  selShapes (snd (Taskpane.detectSelectionText h g si)) = selShapes si.
Proof.
  unfold Taskpane.detectSelectionText.
  destruct (getSelectedText h) as [t|e]; [|reflexivity].
  now destruct (0 <? String.length t)%nat.
Qed.

Lemma claimMethod_selShapes (m : string) (si : SelectionInfo) :
  selShapes (claimMethod m si) = selShapes si.
Proof.
  unfold claimMethod. destruct (detectionMethod si) as [t|]; [destruct (truthy t)|];
    reflexivity.
Qed.

Lemma detectPicturesSpecifically_shapes (h : Host) (g : Globals) (si : SelectionInfo) :
  selShapes (Taskpane.detectPicturesSpecifically h g si) = selShapes si.
Proof.
  unfold Taskpane.detectPicturesSpecifically.
  destruct (getSelectedSlides h) as [[|slide rest]|e]; try reflexivity.
  destruct (shapes slide) as [[|s0 l0]|e]; try reflexivity.
  destruct (filter isPicture (s0 :: l0)) as [|p ps]; [reflexivity|].
  cbv zeta.
  repeat match goal with
         | |- context [match ?x with _ => _ end] =>
             match type of x with
             | list Shape => destruct x
             | bool => destruct x
             end
         end;
    repeat first [ rewrite claimMethod_selShapes
                 | progress cbn [selShapes setPictures setAllPictures] ];
    reflexivity.
Qed.

Section OneFlaggedShape.
Variables (h : Host) (slide : Slide) (rest : list Slide) (l : list Shape) (s : Shape).
Hypothesis Hslides : getSelectedSlides h = Ok (slide :: rest).
Hypothesis Hdirect : directSelectionFound h = false.
Hypothesis Hview : activeViewFound h = false.
Hypothesis Hshapes : shapes slide = Ok l.
Hypothesis Hflag : filter selectedFlag l = [s].

Lemma one_flagged_result (g : Globals) (si : SelectionInfo) :
  snd (Taskpane.detectShapesDirectly h g si) = claimMethod "isSelected" (setShapes [s] si).
Proof.
  destruct l as [|x l']; [discriminate|].
  rewrite (detectShapesDirectly_afterFetch h g si slide rest x l'
             Hslides Hdirect Hview Hshapes).
  cbn [snd]. unfold Taskpane.afterFetch.
  pose proof (approach3_result (x :: l') si) as H3. rewrite Hflag in H3.
  now rewrite (orElse_found _ _ si _ H3).
Qed.

Lemma one_flagged_pass (order : list Taskpane.Channel) (st : Globals * SelectionInfo) :
  In Taskpane.ShapeChannel order \/ selShapes (snd st) = [s] ->
  selShapes (snd (Taskpane.runChannels h order st)) = [s].
Proof.
  revert st. induction order as [|c order IH]; intros [g si] H; simpl.
  - destruct H as [[]|H]. exact H.
  - apply IH. destruct c; simpl.
    + destruct H as [[E|H]|H]; [discriminate|now left|].
      right. now rewrite detectSelectionText_shapes.
    + destruct H as [[E|H]|H]; [discriminate|now left|].
      right. now rewrite detectPicturesSpecifically_shapes.
    + right. rewrite one_flagged_result. apply claimMethod_setShapes.
Qed.
End OneFlaggedShape.

Lemma display_with_shapes (si : SelectionInfo) (s : Shape) (l : list Shape) :
  selShapes si = s :: l ->
  exists body, Taskpane.displaySelectionInfo si = reportHeader ++ body.
Proof.
  intros E. unfold Taskpane.displaySelectionInfo.
  rewrite E. cbn [Taskpane.isEmpty negb]. rewrite orb_true_r. cbn [orb negb].
  eexists. reflexivity.
Qed.

(** C4: when approach 1 throws and the isSelected scan then finds one shape,
    the cascade records that shape with the tag of the scan, the throw is only
    logged to the console and handled exactly like an empty answer, and for
    every completion order of the channels the display shows the selection
    report, not an error text. *)
Theorem C4_failed_strategy_is_local (h : Host) (g : Globals) (si : SelectionInfo)
        (slide : Slide) (rest : list Slide) (l : list Shape) (s : Shape) (e : string) :
  getSelectedSlides h = Ok (slide :: rest) ->
  getSelection h = Failed e ->
  activeViewFound h = false ->
  shapes slide = Ok l ->
  filter selectedFlag l = [s] ->
  claimed si = false ->
  let run := Taskpane.detectShapesDirectly h g si in
  selShapes (snd run) = [s]
  /\ detectionMethod (snd run) = Some "isSelected"
  /\ In (Taskpane.ConsoleLog "Direct selection API not supported:" e) (fst run)
  /\ snd run = snd (Taskpane.detectShapesDirectly (recovered h) g si)
  /\ forall order g0, In order Taskpane.completionOrders ->
       let shown := Taskpane.textContent (Taskpane.detectSelectedElement h order g0) in
       (exists body, shown = reportHeader ++ body)
       /\ String.prefix "Error" shown = false.
Proof.
  intros Hs He H2 Hl Hf Hc run.
  assert (H1 : directSelectionFound h = false)
    by (unfold directSelectionFound; now rewrite He).
  assert (Hrun : snd run = claimMethod "isSelected" (setShapes [s] si))
    by (apply (one_flagged_result h slide rest l s); assumption).
  split; [|split; [|split; [|split]]].
  - rewrite Hrun. apply claimMethod_setShapes.
  - rewrite Hrun, claimMethod_unclaimed; [reflexivity | exact Hc].
  - unfold run, Taskpane.detectShapesDirectly, Taskpane.cascade. rewrite Hs.
    rewrite (orElse_silent _ _ si (approach1_silent h si H1)).
    cbn [fst]. unfold Taskpane.approach1 at 1. rewrite He. simpl. auto.
  - symmetry. apply detectShapesDirectly_recovered.
  - intros order g0 Hin shown.
    assert (Hsel : selShapes (Taskpane.passInfo (Taskpane.detectSelectedElement h order g0))
                   = [s]).
    { unfold Taskpane.detectSelectedElement.
      pose proof (one_flagged_pass h slide rest l s Hs H1 H2 Hl Hf order
                    (g0, freshInfo)) as Hp.
      destruct (Taskpane.runChannels h order (g0, freshInfo)) as [g' si'].
      apply Hp. left.
      unfold Taskpane.completionOrders in Hin. simpl in Hin.
      repeat (destruct Hin as [<-|Hin]; [simpl; tauto|]). contradiction. }
    assert (Hshown : exists body, shown = reportHeader ++ body).
    { unfold shown, Taskpane.detectSelectedElement in *.
      destruct (Taskpane.runChannels h order (g0, freshInfo)) as [g' si'].
      exact (display_with_shapes si' s [] Hsel). }
    split; [exact Hshown|]. destruct Hshown as [body ->]. reflexivity.
Qed.

Lemma C4_failed_strategy_is_local_witness :
  let run := Taskpane.detectShapesDirectly hostOneSelected initialGlobals freshInfo in
  selShapes (snd run) = [box] /\ detectionMethod (snd run) = Some "isSelected".
Proof.
  destruct (C4_failed_strategy_is_local hostOneSelected initialGlobals freshInfo
              (mkSlide (Ok [note; box; card])) [] [note; box; card] box
              "getSelection is not a function"
              eq_refl eq_refl eq_refl eq_refl eq_refl eq_refl)
    as (H1 & H2 & _).
  intros run. split; [exact H1 | exact H2].
Defined.

(** ** When the position strategy is entered *)

Lemma orElse_trace (a b : Taskpane.Attempt) (si : SelectionInfo) (e : Taskpane.Event) :
  In e (fst (Taskpane.orElse a b si)) -> In e (fst (a si)) \/ In e (fst (b si)).
Proof.
  unfold Taskpane.orElse. destruct (a si) as [ev [r|]]; simpl; [now left|].
  destruct (b si) as [ev' r']; simpl. apply in_app_or.
Qed.

Ltac no_position H :=
  simpl in H;
  repeat match type of H with
         | _ \/ _ => destruct H as [H|H]
         | False => contradiction
         | _ = _ => discriminate
         end.

(** X22: Whatever the host answers, the position strategy is entered only after
    position data was captured. *)
Lemma position_entered_only_with_data (h : Host) (g : Globals) (si : SelectionInfo) :
  In (Taskpane.Entered Taskpane.StepPosition) (fst (Taskpane.detectShapesDirectly h g si)) ->
  hasMousePositionData g = true.
Proof.
  destruct (hasMousePositionData g) eqn:Hm; [reflexivity|]. intros H. exfalso.
  unfold Taskpane.detectShapesDirectly in H.
  destruct (getSelectedSlides h) as [[|slide rest]|e]; try solve [no_position H].
  destruct (Taskpane.cascade h g slide si) as [ev r] eqn:Ec.
  assert (Hev : In (Taskpane.Entered Taskpane.StepPosition)
                   (fst (Taskpane.cascade h g slide si))).
  { rewrite Ec. destruct H as [E|H]; [discriminate | exact H]. }
  clear H Ec. unfold Taskpane.cascade in Hev.
  apply orElse_trace in Hev. destruct Hev as [H|H].
  { unfold Taskpane.approach1 in H. destruct (getSelection h) as [[|? ?]|?]; no_position H. }
  apply orElse_trace in H. destruct H as [H|H].
  { unfold Taskpane.approach2 in H.
    destruct (getActiveView h) as [[[|? ?]|]|?]; no_position H. }
  unfold Taskpane.withSlideShapes in H.
  destruct (shapes slide) as [[|x l]|?]; try solve [no_position H].
  destruct (Taskpane.afterFetch h g (x :: l) si) as [ev' r'] eqn:Ea.
  assert (Hev : In (Taskpane.Entered Taskpane.StepPosition)
                   (fst (Taskpane.afterFetch h g (x :: l) si))).
  { rewrite Ea. destruct H as [E|H]; [discriminate | exact H]. }
  clear H Ea. unfold Taskpane.afterFetch in Hev.
  apply orElse_trace in Hev. destruct Hev as [H|H].
  { unfold Taskpane.approach3 in H. destruct (filter selectedFlag (x :: l)); no_position H. }
  apply orElse_trace in H. destruct H as [H|H].
  { apply approach4_trace in H. destruct H as [E|[err E]]; discriminate. }
  apply orElse_trace in H. destruct H as [H|H].
  { rewrite (approach5_without_data g _ si Hm) in H. no_position H. }
  apply orElse_trace in H. destruct H as [H|H].
  { rewrite approach6_stores in H. no_position H. }
  no_position H.
Qed.

(** ** The debounce *)

Section DebounceFacts.
Import Debounce.
Variable lag : nat -> Z.
Hypothesis lag_nonneg : forall i, 0 <= lag i.

Lemma first_event (t : Z) : onEvent lag initialLoop t = armed lag 1 t.
Proof. reflexivity. Qed.

Lemma event_rearms (k : nat) (t t' : Z) :
  t' < t + quietPeriod -> onEvent lag (armed lag k t) t' = armed lag (S k) t'.
Proof.
  intros Hlt. unfold onEvent, advance, selectionChangedHandler, armed; simpl.
  pose proof (lag_nonneg k) as Hk.
  destruct (Z.leb_spec (t + quietPeriod + lag k) t') as [Hle|_]; [lia|].
  simpl. now rewrite Nat.eqb_refl.
Qed.

Lemma last_cons (t' : Z) (ts : list Z) (t : Z) : last (t' :: ts) t = last ts t'.
Proof.
  revert t' t. induction ts as [|z ts IH]; intros t' t; [reflexivity|].
  change (last (t' :: z :: ts) t) with (last (z :: ts) t).
  now rewrite (IH z t), (IH z t').
Qed.

Lemma burst_rearms (ts : list Z) (k : nat) (t : Z) :
  gapsUnder quietPeriod t ts ->
  fold_left (onEvent lag) ts (armed lag k t) = armed lag (k + List.length ts) (last ts t).
Proof.
  revert k t. induction ts as [|t' ts IH]; intros k t Hg.
  - simpl. now rewrite Nat.add_0_r.
  - destruct Hg as [[_ Hlt] Hg]. cbn [fold_left]. rewrite (event_rearms k t t' Hlt).
    rewrite (IH (S k) t' Hg). cbn [List.length]. rewrite Nat.add_succ_r.
    now rewrite last_cons.
Qed.

(** C5: a burst of events whose successive gaps are all below the quiet period
    leaves one pending timer after each event and starts exactly one detection
    pass, at the time of the last event plus 300 plus the lateness of that
    timer, hence not before the last event plus 300. *)
Theorem C5_debounce_single_pass (t0 : Z) (ts : list Z) :
  gapsUnder quietPeriod t0 ts ->
  let tLast := last ts t0 in
  let k := S (List.length ts) in
  pending (fold_left (onEvent lag) (t0 :: ts) initialLoop)
    = [mkTimer k (tLast + 300 + lag k)]
  /\ passesOf lag (t0 :: ts) = [tLast + 300 + lag k]
  /\ List.length (passesOf lag (t0 :: ts)) = 1%nat
  /\ forall t, In t (passesOf lag (t0 :: ts)) -> tLast + 300 <= t.
Proof.
  intros Hg tLast k.
  assert (E : fold_left (onEvent lag) (t0 :: ts) initialLoop = armed lag k tLast).
  { cbn [fold_left]. rewrite first_event. exact (burst_rearms ts 1 t0 Hg). }
  assert (P : passesOf lag (t0 :: ts) = [tLast + 300 + lag k]).
  { unfold passesOf. rewrite E. reflexivity. }
  split; [now rewrite E|]. split; [exact P|]. rewrite P.
  split; [reflexivity|].
  intros t [<-|[]]. pose proof (lag_nonneg k). lia.
Qed.
End DebounceFacts.

(** A gap of at least the quiet period lets the first timer run: two passes. *)
Example debounce_two_bursts :
  Debounce.passesOf (fun _ => 0) [0; 100; 500; 550] = [400; 850].
Proof. reflexivity. Qed.

Lemma C5_debounce_single_pass_witness :
  Debounce.passesOf (fun _ => 0) [0; 100; 200; 250] = [550]
  /\ ~ In 300 (Debounce.passesOf (fun _ => 0) [0; 100; 200; 250])
  /\ ~ In 400 (Debounce.passesOf (fun _ => 0) [0; 100; 200; 250]).
Proof.
  destruct (C5_debounce_single_pass (fun _ => 0) (fun _ => Z.le_refl 0) 0 [100; 200; 250])
    as (_ & P & _ & Hge).
  { unfold gapsUnder, Debounce.quietPeriod. lia. }
  split; [exact P|].
  split; intros Hin; apply Hge in Hin; simpl in Hin; lia.
Defined.

(** ** The empty slide *)

Lemma approach1_beforeScan (h : Host) (si : SelectionInfo) :
  Forall beforeScan (fst (Taskpane.approach1 h si)).
Proof.
  unfold Taskpane.approach1. destruct (getSelection h) as [[|s l]|e]; simpl;
    repeat constructor.
Qed.

Lemma approach2_beforeScan (h : Host) (si : SelectionInfo) :
  Forall beforeScan (fst (Taskpane.approach2 h si)).
Proof.
  unfold Taskpane.approach2. destruct (getActiveView h) as [[[|s l]|]|e]; simpl;
    repeat constructor.
Qed.

Lemma truthy_false_length (t : string) :
  truthy t = false -> (0 <? String.length t)%nat = false.
Proof. destruct t; [reflexivity | discriminate]. Qed.

Lemma idle_channels (h : Host) (slide : Slide) (rest : list Slide)
      (order : list Taskpane.Channel) (g : Globals) (si : SelectionInfo) :
  getSelectedSlides h = Ok (slide :: rest) ->
  shapes slide = Ok [] ->
  directSelectionFound h = false ->
  activeViewFound h = false ->
  textSelectionFound h = false ->
  Taskpane.runChannels h order (g, si) = (g, si).
Proof.
  intros Hs Hl H1 H2 Ht. induction order as [|c order IH]; [reflexivity|].
  cbn [Taskpane.runChannels fold_left]. fold (Taskpane.runChannels h order).
  replace (Taskpane.runChannel h c (g, si)) with (g, si); [exact IH|].
  destruct c; cbn [Taskpane.runChannel].
  - unfold Taskpane.detectSelectionText. unfold textSelectionFound in Ht.
    destruct (getSelectedText h) as [t|e]; [|reflexivity].
    now rewrite (truthy_false_length t Ht).
  - unfold Taskpane.detectPicturesSpecifically. now rewrite Hs, Hl.
  - unfold Taskpane.detectShapesDirectly, Taskpane.cascade. rewrite Hs.
    rewrite (orElse_silent _ _ si (approach1_silent h si H1)).
    rewrite (orElse_silent _ _ si (approach2_silent h si H2)).
    unfold Taskpane.withSlideShapes. now rewrite Hl.
Qed.

(** C6: on a slide without shapes (and a host that, accordingly, reports no
    selection) the shape cascade stops at the emptiness check that follows the
    fetch of the shapes: its last event is that fetch, none of the scans or
    heuristics behind it is entered, the SelectionInfo is left as it was, and
    both task panes end with the "No elements found on the current slide."
    text. *)
Theorem C6_empty_slide (h : Host) (g : Globals) (si : SelectionInfo)
        (slide : Slide) (rest : list Slide) :
  getSelectedSlides h = Ok (slide :: rest) ->
  shapes slide = Ok [] ->
  directSelectionFound h = false ->
  activeViewFound h = false ->
  textSelectionFound h = false ->
  let run := Taskpane.detectShapesDirectly h g si in
  snd run = si
  /\ Forall beforeScan (fst run)
  /\ (exists before, fst run = (before ++ [Taskpane.Entered Taskpane.StepSlideShapes])%list)
  /\ (forall order g0,
        Taskpane.textContent (Taskpane.detectSelectedElement h order g0) = emptySlideReport)
  /\ TaskpaneDirect.detectShapesDirectly h =
       ([TaskpaneDirect.StepSelectedSlides; TaskpaneDirect.StepDirectSelection;
         TaskpaneDirect.StepActiveView; TaskpaneDirect.StepSlideShapes],
        "No elements found on the current slide.").
Proof.
  intros Hs Hl H1 H2 Ht run.
  assert (Hrun : run =
    ((Taskpane.Entered Taskpane.StepSelectedSlides
        :: fst (Taskpane.approach1 h si) ++ fst (Taskpane.approach2 h si)
        ++ [Taskpane.Entered Taskpane.StepSlideShapes])%list, si)).
  { unfold run, Taskpane.detectShapesDirectly, Taskpane.cascade. rewrite Hs.
    rewrite (orElse_silent _ _ si (approach1_silent h si H1)).
    rewrite (orElse_silent _ _ si (approach2_silent h si H2)).
    unfold Taskpane.withSlideShapes. now rewrite Hl. }
  rewrite Hrun. cbn [fst snd].
  split; [reflexivity|]. split; [|split; [|split]].
  - constructor; [exact I|]. apply Forall_app. split; [apply approach1_beforeScan|].
    apply Forall_app. split; [apply approach2_beforeScan|]. now repeat constructor.
  - exists (Taskpane.Entered Taskpane.StepSelectedSlides
            :: fst (Taskpane.approach1 h si) ++ fst (Taskpane.approach2 h si))%list.
    cbn [app]. now rewrite <- app_assoc.
  - intros order g0. unfold Taskpane.detectSelectedElement.
    now rewrite (idle_channels h slide rest order g0 freshInfo Hs Hl H1 H2 Ht).
  - unfold TaskpaneDirect.detectShapesDirectly.
    now rewrite Hs, (direct_approach12_silent h H1 H2), Hl.
Qed.

Lemma C6_empty_slide_witness :
  snd (Taskpane.detectShapesDirectly hostEmptySlide initialGlobals freshInfo) = freshInfo
  /\ Taskpane.textContent
       (Taskpane.detectSelectedElement hostEmptySlide
          [Taskpane.TextChannel; Taskpane.PictureChannel; Taskpane.ShapeChannel]
          initialGlobals)
     = emptySlideReport.
Proof.
  destruct (C6_empty_slide hostEmptySlide initialGlobals freshInfo (mkSlide (Ok [])) []
              eq_refl eq_refl eq_refl eq_refl eq_refl)
    as (H1 & _ & _ & H4 & _).
  split; [exact H1 | apply H4].
Defined.

(** ** Strategy 4 *)

(** C7: with approaches 1 to 3 empty-handed and the timestamp loads
    succeeding, as soon as one shape carries a timestamp the cascade keeps
    exactly one shape, the head of the timestamped shapes sorted by descending
    time (so none is more recent), and claims the tag "lastModified", which an
    unclaimed SelectionInfo then carries. *)
Theorem C7_most_recently_modified (h : Host) (g : Globals) (si : SelectionInfo)
        (slide : Slide) (rest : list Slide) (l : list Shape) (u : unit) :
  getSelectedSlides h = Ok (slide :: rest) ->
  directSelectionFound h = false ->
  activeViewFound h = false ->
  shapes slide = Ok l ->
  filter selectedFlag l = [] ->
  lastModifiedLoad h = Ok u ->
  (exists s, In s l /\ hasModifiedTime s = true) ->
  let out := snd (Taskpane.detectShapesDirectly h g si) in
  exists mostRecentShape others,
    jsSort byModifiedDesc (filter hasModifiedTime l) = mostRecentShape :: others
    /\ selShapes out = [mostRecentShape]
    /\ In mostRecentShape l
    /\ hasModifiedTime mostRecentShape = true
    /\ (forall s, In s l -> hasModifiedTime s = true ->
                  modifiedTime s <= modifiedTime mostRecentShape)
    /\ detectionMethod out = detectionMethod (claimMethod "lastModified" si)
    /\ (claimed si = false -> detectionMethod out = Some "lastModified").
Proof.
  intros Hs H1 H2 Hl H3 H4 [s0 [Hin Hts]] out.
  assert (Hne : filter hasModifiedTime l <> []).
  { intros E. assert (Hf : In s0 (filter hasModifiedTime l)) by (apply filter_In; auto).
    rewrite E in Hf. exact Hf. }
  destruct (jsSort byModifiedDesc (filter hasModifiedTime l)) as [|m others] eqn:Esort.
  { apply jsSort_nil_inv in Esort. now elim Hne. }
  assert (Hm : In m (filter hasModifiedTime l)).
  { apply (Permutation_in _ (jsSort_perm byModifiedDesc _)). rewrite Esort. now left. }
  apply filter_In in Hm. destruct Hm as [Hml Hmt].
  destruct l as [|x l']; [contradiction|].
  assert (Hout : out = claimMethod "lastModified" (setShapes [m] si)).
  { unfold out. rewrite (detectShapesDirectly_afterFetch h g si slide rest x l' Hs H1 H2 Hl).
    cbn [snd]. unfold Taskpane.afterFetch.
    rewrite (orElse_silent (Taskpane.approach3 (x :: l')) _ si);
      rewrite (approach3_silent _ si H3); [|reflexivity].
    cbn [snd].
    assert (H4' : snd (Taskpane.approach4 h (x :: l') si)
                  = Some (claimMethod "lastModified" (setShapes [m] si))).
    { unfold Taskpane.approach4. rewrite H4. revert Esort Hne.
      destruct (filter hasModifiedTime (x :: l')) as [|y ys]; intros Esort Hne;
        [now elim Hne|].
      now rewrite Esort. }
    now rewrite (orElse_found _ _ si _ H4'). }
  exists m, others. split; [reflexivity|]. split; [|split; [|split; [|split; [|split]]]].
  - rewrite Hout. apply claimMethod_setShapes.
  - exact Hml.
  - exact Hmt.
  - intros s Hsl Hst. apply (byModifiedDesc_head_max _ _ _ Esort). apply filter_In. auto.
  - rewrite Hout. apply claimMethod_setShapes_method.
  - intros Hc. rewrite Hout, claimMethod_setShapes_method, claimMethod_unclaimed;
      [reflexivity | exact Hc].
Qed.

Lemma C7_most_recently_modified_witness :
  let out := snd (Taskpane.detectShapesDirectly hostTimestamps initialGlobals freshInfo) in
  selShapes out = [note] /\ detectionMethod out = Some "lastModified".
Proof.
  destruct (C7_most_recently_modified hostTimestamps initialGlobals freshInfo
              (mkSlide (Ok [card; plain "A" "a" 0 0 10 10 1; note])) [] _ tt
              eq_refl eq_refl eq_refl eq_refl eq_refl eq_refl
              (ex_intro _ card (conj (or_introl eq_refl) eq_refl)))
    as (m & others & Hsort & Hshapes & _ & _ & _ & _ & Htag).
  injection Hsort as <- _.
  intros out. split; [exact Hshapes | exact (Htag eq_refl)].
Defined.

(** ** The report of a picture *)

Lemma logo_details (p : Shape) :
  name p = "Logo" -> id p = "p1" ->
  left p = 10 -> top p = 20 -> width p = 100 -> height p = 50 -> zIndex p = 2 ->
  altTextDescription p = "A logo" ->
  exists rest, Taskpane.getPictureDetailsString p 0 = logoLines ++ rest.
Proof.
  intros Hn Hi Hl Ht Hw Hh Hz Ha.
  unfold Taskpane.getPictureDetailsString, geometryLines.
  rewrite Hn, Hi, Hl, Ht, Hw, Hh, Hz, Ha.
  eexists. vm_compute. reflexivity.
Qed.

Lemma display_with_picture (si : SelectionInfo) (p : Shape) :
  selPictures si = [p] ->
  exists before after,
    Taskpane.displaySelectionInfo si
    = before ++ Taskpane.getPictureDetailsString p 0 ++ after.
Proof.
  intros E. unfold Taskpane.displaySelectionInfo. rewrite E.
  cbn [Taskpane.isEmpty negb]. rewrite orb_true_r. cbn [negb].
  cbn [concatIndexed List.length].
  match goal with
  | |- exists before after,
        ?h ++ ?n1 ++ ?n2 ++ ?t ++ (?a ++ ?b ++ ?c ++ ?d ++ (?G ++ "") ++ ?e) ++ ?rest
        = _ =>
      exists (h ++ n1 ++ n2 ++ t ++ a ++ b ++ c ++ d), (e ++ rest)
  end.
  repeat rewrite append_assoc. reflexivity.
Qed.

(** C9: the report of a SelectionInfo whose picture list holds the one picture
    with id "p1", name "Logo", box (10, 20, 100, 50), z-index 2 and alternative
    text "A logo" contains each of "Logo", "(ID: p1)", "(10, 20)", "100 x 50"
    and "A logo". *)
Theorem C9_picture_report (si : SelectionInfo) (p : Shape) :
  name p = "Logo" -> id p = "p1" ->
  left p = 10 -> top p = 20 -> width p = 100 -> height p = 50 -> zIndex p = 2 ->
  altTextDescription p = "A logo" ->
  selPictures si = [p] ->
  let report := Taskpane.displaySelectionInfo si in
  includes "Logo" report = true
  /\ includes "(ID: p1)" report = true
  /\ includes "(10, 20)" report = true
  /\ includes "100 x 50" report = true
  /\ includes "A logo" report = true.
Proof.
  intros Hn Hi Hl Ht Hw Hh Hz Ha Hp report.
  destruct (logo_details p Hn Hi Hl Ht Hw Hh Hz Ha) as [rest Hd].
  destruct (display_with_picture si p Hp) as (before & after & Hr).
  assert (Hin : forall needle, includes needle logoLines = true ->
                               includes needle report = true).
  { intros needle H. unfold report. rewrite Hr, Hd.
    apply includes_right. rewrite append_assoc. now apply includes_left. }
  repeat split; apply Hin; vm_compute; reflexivity.
Qed.

Lemma C9_picture_report_witness :
  let report := Taskpane.displaySelectionInfo (setPictures [logo] freshInfo) in
  includes "Logo" report = true
  /\ includes "(ID: p1)" report = true
  /\ includes "(10, 20)" report = true
  /\ includes "100 x 50" report = true
  /\ includes "A logo" report = true.
Proof.
  exact (C9_picture_report (setPictures [logo] freshInfo) logo
           eq_refl eq_refl eq_refl eq_refl eq_refl eq_refl eq_refl eq_refl eq_refl).
Defined.

(** ** The containment test *)

Lemma containsPoint_spec (p : Point) (s : Shape) :
  containsPoint p s = true <->
  left s <= px p <= left s + width s /\ top s <= py p <= top s + height s.
Proof.
  unfold containsPoint. rewrite !andb_true_iff, !Z.leb_le. tauto.
Qed.

(** C10: for a shape whose width and height are not negative, a captured
    position on any of the four edges of its box passes the containment test,
    so the position strategy of the shape cascade keeps the shape, and the
    picture pass keeps it when it is a picture and the pass reaches its
    position step. *)
Theorem C10_inclusive_bounds (p : Point) (s : Shape) :
  0 <= width s -> 0 <= height s ->
  onEdge p s ->
  containsPoint p s = true
  /\ (forall g l si,
        hasMousePositionData g = true -> lastClickedPosition g = p -> In s l ->
        exists out, snd (Taskpane.approach5 g l si) = Some out /\ In s (selShapes out))
  /\ (forall h g si slide rest l,
        getSelectedSlides h = Ok (slide :: rest) -> shapes slide = Ok l ->
        In s l -> isPicture s = true ->
        filter selectedFlag (filter isPicture l) = [] -> selPictures si = [] ->
        hasMousePositionData g = true -> lastClickedPosition g = p ->
        In s (selPictures (Taskpane.detectPicturesSpecifically h g si))).
Proof.
  intros Hw Hh He.
  assert (Hc : containsPoint p s = true).
  { apply containsPoint_spec. unfold onEdge in He. lia. }
  split; [exact Hc|]. split.
  - intros g l si Hm Hp Hin. unfold Taskpane.approach5. rewrite Hm, Hp.
    assert (Hf : In s (filter (containsPoint p) l)) by (apply filter_In; auto).
    destruct (filter (containsPoint p) l) as [|x xs] eqn:Ef; [contradiction|].
    eexists. split; [reflexivity|]. rewrite claimMethod_setShapes.
    exact (Permutation_in _ (Permutation_sym (jsSort_perm byZIndexDesc _)) Hf).
  - intros h g si slide rest l Hs Hl Hin Hpic Hnone Hsi Hm Hp.
    unfold Taskpane.detectPicturesSpecifically. rewrite Hs, Hl.
    destruct l as [|x l']; [contradiction|].
    assert (Hf : In s (filter isPicture (x :: l'))) by (apply filter_In; auto).
    destruct (filter isPicture (x :: l')) as [|q qs] eqn:Eq; [contradiction|].
    rewrite Hnone. cbv zeta. rewrite Hsi, Hm, Hp.
    assert (Hf2 : In s (filter (containsPoint p) (q :: qs))) by (apply filter_In; auto).
    destruct (filter (containsPoint p) (q :: qs)) as [|y ys] eqn:Ey; [contradiction|].
    assert (Hsel : selPictures (claimMethod "picture-position"
                      (setPictures (jsSort byZIndexDesc (y :: ys)) si))
                   = jsSort byZIndexDesc (y :: ys)).
    { unfold claimMethod. simpl.
      destruct (detectionMethod si) as [t|]; [destruct (truthy t)|]; reflexivity. }
    rewrite Hsel.
    destruct (jsSort byZIndexDesc (y :: ys)) as [|z zs] eqn:Ez.
    { apply jsSort_nil_inv in Ez. discriminate. }
    rewrite Hsel, <- Ez.
    exact (Permutation_in _ (Permutation_sym (jsSort_perm byZIndexDesc _)) Hf2).
Qed.

Lemma C10_inclusive_bounds_witness :
  containsPoint (mkPoint 0 12) box = true
  /\ containsPoint (mkPoint 40 30) box = true
  /\ containsPoint (mkPoint 17 0) box = true.
Proof.
  split; [|split].
  - apply (C10_inclusive_bounds (mkPoint 0 12) box); unfold onEdge; simpl; lia.
  - apply (C10_inclusive_bounds (mkPoint 40 30) box); unfold onEdge; simpl; lia.
  - apply (C10_inclusive_bounds (mkPoint 17 0) box); unfold onEdge; simpl; lia.
Defined.

(** ** The free-text channel and the text scan *)

Section Scan.
Variable t : string.

Lemma scan_firstIndex (l : list Shape) (i : nat) :
  hitIndex (TaskpaneDirect.scanShapes t i l) = firstIndex (stopsScan t) i l.
Proof.
  revert i. induction l as [|s l IH]; intros i; simpl; [reflexivity|].
  unfold stopsScan at 1, textContains.
  destruct (truthy (text s) && includes t (text s)); [reflexivity|].
  destruct (selectedFlag s); [reflexivity | apply IH].
Qed.

Lemma scan_hit_text (l : list Shape) (i : nat) (s : Shape) (j : nat) :
  TaskpaneDirect.scanShapes t i l = Some (TaskpaneDirect.ContainsText s j) ->
  (i <= j)%nat /\ nth_error l (j - i) = Some s /\ textContains t s = true.
Proof.
  revert i. induction l as [|x l IH]; intros i; simpl; [discriminate|].
  fold (textContains t x). destruct (textContains t x) eqn:Ex.
  - intros [= <- <-]. rewrite Nat.sub_diag. auto.
  - destruct (selectedFlag x); [discriminate|]. intros H.
    destruct (IH (S i) H) as (Hle & Hn & Hc).
    split; [lia|]. split; [|exact Hc].
    replace (j - i)%nat with (S (j - S i)) by lia. exact Hn.
Qed.

Lemma scan_hit_flag (l : list Shape) (i : nat) (s : Shape) (j : nat) :
  TaskpaneDirect.scanShapes t i l = Some (TaskpaneDirect.FlaggedSelected s j) ->
  (i <= j)%nat /\ nth_error l (j - i) = Some s
  /\ textContains t s = false /\ selectedFlag s = true.
Proof.
  revert i. induction l as [|x l IH]; intros i; simpl; [discriminate|].
  fold (textContains t x). destruct (textContains t x) eqn:Ex; [discriminate|].
  destruct (selectedFlag x) eqn:Ef.
  - intros [= <- <-]. rewrite Nat.sub_diag. auto.
  - intros H. destruct (IH (S i) H) as (Hle & Hn & Hc).
    split; [lia|]. split; [|exact Hc].
    replace (j - i)%nat with (S (j - S i)) by lia. exact Hn.
Qed.

Lemma scan_without_flags (l : list Shape) (i : nat) :
  existsb selectedFlag l = false ->
  hitIndex (TaskpaneDirect.scanShapes t i l) = firstIndex (textContains t) i l.
Proof.
  revert i. induction l as [|s l IH]; intros i; simpl; [reflexivity|].
  intros H. apply orb_false_iff in H. destruct H as [Hs Hl].
  fold (textContains t s). destruct (textContains t s); [reflexivity|].
  rewrite Hs. now apply IH.
Qed.

(** Only the texts and the flags of the shapes matter. *)
Lemma scan_text_and_flag_only (l l' : list Shape) (i : nat) :
  map text l = map text l' -> map selectedFlag l = map selectedFlag l' ->
  hitIndex (TaskpaneDirect.scanShapes t i l) = hitIndex (TaskpaneDirect.scanShapes t i l').
Proof.
  revert l' i. induction l as [|s l IH]; intros [|s' l'] i Ht Hf; try discriminate;
    [reflexivity|].
  injection Ht as Ht1 Ht2. injection Hf as Hf1 Hf2. simpl.
  rewrite <- Ht1, <- Hf1.
  destruct (truthy (text s) && includes t (text s)); [reflexivity|].
  destruct (selectedFlag s); [reflexivity|]. now apply IH.
Qed.
End Scan.

(** C8 (as stated, refuted): the aggregating task pane records a text that is
    the one it saw before, and the scan of the direct task pane stops at a
    flagged shape that precedes the first shape containing the text. *)
Lemma C8_counterexample :
  (getSelectedText hostPictureAndText = Ok "Hi"
   /\ lastSelectedText seenHi = "Hi"
   /\ selText (snd (Taskpane.detectSelectionText hostPictureAndText seenHi freshInfo))
      = Some "Hi")
  /\ ~ recordsOnlyChangedText Taskpane.detectSelectionText
  /\ (TaskpaneDirect.scanShapes "hello" 0 [logo; note]
        = Some (TaskpaneDirect.FlaggedSelected logo 0)
      /\ textContains "hello" logo = false
      /\ firstIndex (textContains "hello") 0 [logo; note] = Some 1%nat)
  /\ ~ firstSubstringMatchWins.
Proof.
  split; [repeat split|]. split; [|split; [repeat split|]].
  - intros H. exact (H hostPictureAndText seenHi freshInfo "Hi" eq_refl eq_refl eq_refl).
  - intros H. specialize (H "hello" [logo; note]). vm_compute in H. discriminate.
Qed.

(** C8 (amended): the direct task pane records the host's free text exactly
    when it is present, non-empty and different from the text seen before, and
    then searches the shapes with it; the aggregating task pane records it
    whenever it is present and non-empty, whatever was seen before.  The search
    is one pass over the shapes in slide order that stops at the first shape
    which contains the text or has its isSelected flag set; it reads only the
    texts and flags (no position, no z-index), and when no shape is flagged the
    first shape containing the text wins. *)
Theorem C8_text_channel_amended (h : Host) (g : Globals) (si : SelectionInfo)
        (shown t : string) (l : list Shape) :
  let direct := TaskpaneDirect.textChannel h g shown in
  let aggregated := Taskpane.detectSelectionText h g si in
  (direct <> (g, shown) ->
     exists t', getSelectedText h = Ok t' /\ truthy t' = true /\ t' <> lastSelectedText g)
  /\ (getSelectedText h = Ok t -> truthy t = true -> t <> lastSelectedText g ->
        lastSelectedText (fst direct) = t
        /\ snd direct = TaskpaneDirect.getSelectedShapeDetails h t
                          ("Selected text: " ++ dq ++ t ++ dq ++ nl ++ nl))
  /\ (aggregated <> (g, si) -> exists t', getSelectedText h = Ok t' /\ truthy t' = true)
  /\ (getSelectedText h = Ok t -> truthy t = true ->
        selText (snd aggregated) = Some t /\ lastSelectedText (fst aggregated) = t)
  /\ hitIndex (TaskpaneDirect.scanShapes t 0 l) = firstIndex (stopsScan t) 0 l
  /\ (forall s j, TaskpaneDirect.scanShapes t 0 l = Some (TaskpaneDirect.ContainsText s j) ->
                  nth_error l j = Some s /\ textContains t s = true)
  /\ (forall s j, TaskpaneDirect.scanShapes t 0 l = Some (TaskpaneDirect.FlaggedSelected s j) ->
                  nth_error l j = Some s /\ textContains t s = false
                  /\ selectedFlag s = true)
  /\ (existsb selectedFlag l = false ->
        hitIndex (TaskpaneDirect.scanShapes t 0 l) = firstIndex (textContains t) 0 l)
  /\ (forall l', map text l = map text l' -> map selectedFlag l = map selectedFlag l' ->
                 hitIndex (TaskpaneDirect.scanShapes t 0 l)
                 = hitIndex (TaskpaneDirect.scanShapes t 0 l')).
Proof.
  intros direct aggregated.
  assert (Hlen : forall x, truthy x = true -> (0 <? String.length x)%nat = true)
    by (intros [|c x]; [discriminate | reflexivity]).
  assert (Hlen' : forall x, (0 <? String.length x)%nat = true -> truthy x = true)
    by (intros [|c x]; [discriminate | reflexivity]).
  split; [|split; [|split; [|split; [|split; [|split; [|split; [|split]]]]]]].
  - unfold direct, TaskpaneDirect.textChannel.
    destruct (getSelectedText h) as [t'|e]; [|intros H; now elim H].
    destruct (String.eqb_spec t' (lastSelectedText g)) as [E|N]; simpl;
      [intros H; now elim H|].
    destruct (0 <? String.length t')%nat eqn:El; [|intros H; now elim H].
    intros _. exists t'. auto.
  - intros Ht Htr Hne. unfold direct, TaskpaneDirect.textChannel. rewrite Ht.
    destruct (String.eqb_spec t (lastSelectedText g)) as [E|N]; [contradiction|].
    rewrite (Hlen t Htr). simpl. auto.
  - unfold aggregated, Taskpane.detectSelectionText.
    destruct (getSelectedText h) as [t'|e]; [|intros H; now elim H].
    destruct (0 <? String.length t')%nat eqn:El; [|intros H; now elim H].
    intros _. exists t'. auto.
  - intros Ht Htr. unfold aggregated, Taskpane.detectSelectionText.
    rewrite Ht, (Hlen t Htr). simpl. auto.
  - apply scan_firstIndex.
  - intros s j H. destruct (scan_hit_text t l 0 s j H) as (_ & Hn & Hc).
    rewrite Nat.sub_0_r in Hn. auto.
  - intros s j H. destruct (scan_hit_flag t l 0 s j H) as (_ & Hn & Hc).
    rewrite Nat.sub_0_r in Hn. auto.
  - apply scan_without_flags.
  - intros l'. apply scan_text_and_flag_only.
Qed.

(* ================================================================== *)
(** * Further properties of the task panes *)

(** ** What the shape cascade can do *)

Lemma filter_nil_existsb {A : Type} (f : A -> bool) (l : list A) :
  filter f l = [] <-> existsb f l = false.
Proof.
  induction l as [|x l IH]; simpl; [tauto|].
  destruct (f x); simpl; [split; discriminate | exact IH].
Qed.

Lemma filter_cons_existsb {A : Type} (f : A -> bool) (l : list A) (x : A) (xs : list A) :
  filter f l = x :: xs -> existsb f l = true.
Proof.
  intros E. destruct (existsb f l) eqn:Ex; [reflexivity|].
  apply filter_nil_existsb in Ex. congruence.
Qed.

Lemma orElse_outcome (a b : Taskpane.Attempt) :
  attemptOutcome a -> attemptOutcome b -> attemptOutcome (Taskpane.orElse a b).
Proof.
  intros Ha Hb si ev r. unfold Taskpane.orElse.
  destruct (a si) as [ev1 [r1|]] eqn:Ea.
  - intros [= <- <-]. exact (Ha si ev1 r1 Ea).
  - destruct (b si) as [ev2 r2] eqn:Eb. intros [= <- ->]. exact (Hb si ev2 r Eb).
Qed.

Ltac found_tac :=
  intros [= <- <-]; apply ShapesFound; [discriminate | simpl; tauto].

Lemma approach1_outcome (h : Host) : attemptOutcome (Taskpane.approach1 h).
Proof.
  intros si ev r. unfold Taskpane.approach1.
  destruct (getSelection h) as [[|s l]|e]; try discriminate. found_tac.
Qed.

Lemma approach2_outcome (h : Host) : attemptOutcome (Taskpane.approach2 h).
Proof.
  intros si ev r. unfold Taskpane.approach2.
  destruct (getActiveView h) as [[[|s l]|]|e]; try discriminate. found_tac.
Qed.

Lemma approach3_outcome (l : list Shape) : attemptOutcome (Taskpane.approach3 l).
Proof.
  intros si ev r. unfold Taskpane.approach3.
  destruct (filter selectedFlag l); try discriminate. found_tac.
Qed.

Lemma approach4_outcome (h : Host) (l : list Shape) :
  attemptOutcome (Taskpane.approach4 h l).
Proof.
  intros si ev r. unfold Taskpane.approach4.
  destruct (lastModifiedLoad h); try discriminate.
  destruct (filter hasModifiedTime l); try discriminate.
  destruct (jsSort byModifiedDesc _); try discriminate. found_tac.
Qed.

Lemma approach5_outcome (g : Globals) (l : list Shape) :
  attemptOutcome (Taskpane.approach5 g l).
Proof.
  intros si ev r. unfold Taskpane.approach5.
  destruct (hasMousePositionData g); try discriminate.
  destruct (filter _ l) as [|x xs] eqn:Ef; try discriminate.
  intros [= <- <-]. apply ShapesFound; [|simpl; tauto].
  intros E. apply (jsSort_nil_inv byZIndexDesc (x :: xs)) in E. discriminate.
Qed.

Lemma approach6_outcome (l : list Shape) : attemptOutcome (Taskpane.approach6 l).
Proof.
  intros si ev r. unfold Taskpane.approach6.
  destruct (jsSort byZIndexDesc l); try discriminate.
  intros [= <- <-]. apply ShapesStored.
Qed.

Lemma cascade_outcome (h : Host) (g : Globals) (slide : Slide) :
  attemptOutcome (Taskpane.cascade h g slide).
Proof.
  unfold Taskpane.cascade.
  apply orElse_outcome; [apply approach1_outcome|].
  apply orElse_outcome; [apply approach2_outcome|].
  intros si ev r. unfold Taskpane.withSlideShapes.
  destruct (shapes slide) as [[|s l]|e].
  - intros [= <- <-]. apply ShapesUnchanged.
  - destruct (Taskpane.afterFetch h g (s :: l) si) as [ev' r'] eqn:Ek. intros [= <- ->].
    revert Ek. unfold Taskpane.afterFetch.
    repeat first
      [ apply orElse_outcome | apply approach3_outcome | apply approach4_outcome
      | apply approach5_outcome | apply approach6_outcome ].
    intros si' ev'' r''. unfold Taskpane.storeAll. intros [= <- <-]. apply ShapesStored.
  - intros [= <- <-]. apply ShapesUnchanged.
Qed.

(** The cascade either leaves the SelectionInfo alone, or replaces the shape
    list by a non-empty one and claims one of its five tags, or stores the
    list of all shapes. *)
Lemma detectShapesDirectly_outcome (h : Host) (g : Globals) (si : SelectionInfo) :
  ShapeOutcome si (snd (Taskpane.detectShapesDirectly h g si)).
Proof.
  unfold Taskpane.detectShapesDirectly.
  destruct (getSelectedSlides h) as [[|slide rest]|e]; try apply ShapesUnchanged.
  destruct (Taskpane.cascade h g slide si) as [ev [r|]] eqn:E; simpl;
    [|apply ShapesUnchanged].
  exact (cascade_outcome h g slide si ev r E).
Qed.

Lemma claimMethod_fields (m : string) (si : SelectionInfo) :
  selText (claimMethod m si) = selText si
  /\ selShapes (claimMethod m si) = selShapes si
  /\ selPictures (claimMethod m si) = selPictures si
  /\ allShapes (claimMethod m si) = allShapes si
  /\ allPictures (claimMethod m si) = allPictures si.
Proof.
  unfold claimMethod. destruct (detectionMethod si) as [t|]; [destruct (truthy t)|];
    repeat split.
Qed.

(** X1: Whatever the host answers, the shape cascade never touches the
    selected text, the picture list or the list of all pictures; when it stores
    the list of all shapes it has left the selected shapes and the tag alone. *)
Theorem shape_cascade_frame (h : Host) (g : Globals) (si : SelectionInfo) :
  let out := snd (Taskpane.detectShapesDirectly h g si) in
  selText out = selText si
  /\ selPictures out = selPictures si
  /\ allPictures out = allPictures si
  /\ (allShapes out <> allShapes si ->
      selShapes out = selShapes si /\ detectionMethod out = detectionMethod si).
Proof.
  intros out. unfold out.
  destruct (detectShapesDirectly_outcome h g si) as [|m l Hne Hm|l].
  - repeat split; tauto.
  - destruct (claimMethod_fields m (setShapes l si)) as (H1 & _ & H3 & H4 & H5).
    rewrite H1, H3, H4, H5. simpl. repeat split; tauto.
  - simpl. repeat split.
Qed.

(** ** The priority of the strategies *)

Lemma approach4_result (h : Host) (l : list Shape) (si : SelectionInfo) :
  (lastModifiedFound h l = false /\ snd (Taskpane.approach4 h l si) = None)
  \/ (lastModifiedFound h l = true
      /\ exists m, snd (Taskpane.approach4 h l si)
                   = Some (claimMethod "lastModified" (setShapes [m] si))).
Proof.
  destruct (lastModifiedFound h l) eqn:Ef.
  - right. split; [reflexivity|]. unfold lastModifiedFound in Ef.
    unfold Taskpane.approach4. destruct (lastModifiedLoad h) as [u|e]; [|discriminate].
    destruct (filter hasModifiedTime l) as [|y ys] eqn:Efl.
    + apply filter_nil_existsb in Efl. congruence.
    + destruct (jsSort byModifiedDesc (y :: ys)) as [|m ms] eqn:Es.
      * apply (jsSort_nil_inv byModifiedDesc (y :: ys)) in Es. discriminate.
      * now exists m.
  - left. split; [reflexivity|]. now apply approach4_silent.
Qed.

Lemma approach5_result (g : Globals) (l : list Shape) (si : SelectionInfo) :
  let p := lastClickedPosition g in
  snd (Taskpane.approach5 g l si) =
    if hasMousePositionData g && existsb (containsPoint p) l
    then Some (claimMethod "position"
                 (setShapes (jsSort byZIndexDesc (filter (containsPoint p) l)) si))
    else None.
Proof.
  intros p. unfold Taskpane.approach5. fold p.
  destruct (hasMousePositionData g); [|reflexivity]. cbn [andb].
  destruct (filter (containsPoint p) l) as [|x xs] eqn:Ef.
  - apply filter_nil_existsb in Ef. now rewrite Ef.
  - now rewrite (filter_cons_existsb _ _ _ _ Ef).
Qed.

(** The outcome of approaches 3 to 6 on a non-empty shape list, by cases. *)
Lemma afterFetch_cases (h : Host) (g : Globals) (x : Shape) (l' : list Shape)
      (si : SelectionInfo) :
  let l := x :: l' in
  let p := lastClickedPosition g in
  exists r, snd (Taskpane.afterFetch h g l si) = Some r /\
    ((existsb selectedFlag l = true
      /\ r = claimMethod "isSelected" (setShapes (filter selectedFlag l) si))
     \/ (existsb selectedFlag l = false /\ lastModifiedFound h l = true
         /\ exists m, r = claimMethod "lastModified" (setShapes [m] si))
     \/ (existsb selectedFlag l = false /\ lastModifiedFound h l = false
         /\ hasMousePositionData g && existsb (containsPoint p) l = true
         /\ r = claimMethod "position"
                  (setShapes (jsSort byZIndexDesc (filter (containsPoint p) l)) si))
     \/ (existsb selectedFlag l = false /\ lastModifiedFound h l = false
         /\ hasMousePositionData g && existsb (containsPoint p) l = false
         /\ r = setAllShapes l si)).
Proof.
  intros l p. unfold Taskpane.afterFetch. rewrite orElse_snd, approach3_result.
  destruct (filter selectedFlag l) as [|y ys] eqn:E3.
  2:{ eexists. split; [reflexivity|]. left.
      split; [exact (filter_cons_existsb _ _ _ _ E3) | reflexivity]. }
  apply filter_nil_existsb in E3. rewrite orElse_snd.
  destruct (approach4_result h l si) as [[E4 ->]|[E4 [m ->]]].
  2:{ eexists. split; [reflexivity|]. right; left. eauto. }
  rewrite orElse_snd, approach5_result. fold p.
  destruct (hasMousePositionData g && existsb (containsPoint p) l) eqn:E5.
  { eexists. split; [reflexivity|]. right; right; left. auto. }
  rewrite orElse_snd. unfold l at 1. rewrite approach6_stores. cbn [snd].
  eexists. split; [reflexivity|]. right; right; right. auto.
Qed.

Lemma approach1_found (h : Host) (si : SelectionInfo) :
  directSelectionFound h = true ->
  exists sel, snd (Taskpane.approach1 h si)
              = Some (claimMethod "direct-selection" (setShapes sel si)).
Proof.
  unfold directSelectionFound, Taskpane.approach1.
  destruct (getSelection h) as [[|s l]|e]; try discriminate. intros _. now exists (s :: l).
Qed.

Lemma approach2_found (h : Host) (si : SelectionInfo) :
  activeViewFound h = true ->
  exists sel, snd (Taskpane.approach2 h si)
              = Some (claimMethod "active-view" (setShapes sel si)).
Proof.
  unfold activeViewFound, Taskpane.approach2.
  destruct (getActiveView h) as [[[|s l]|]|e]; try discriminate. intros _. now exists (s :: l).
Qed.

Lemma detectShapesDirectly_snd (h : Host) (g : Globals) (si : SelectionInfo)
      (slide : Slide) (rest : list Slide) :
  getSelectedSlides h = Ok (slide :: rest) ->
  snd (Taskpane.detectShapesDirectly h g si)
  = match snd (Taskpane.cascade h g slide si) with Some r => r | None => si end.
Proof.
  intros Hs. unfold Taskpane.detectShapesDirectly. rewrite Hs.
  now destruct (Taskpane.cascade h g slide si).
Qed.

Lemma claimed_tag (m : string) (l : list Shape) (si : SelectionInfo) :
  claimed si = false ->
  detectionMethod (claimMethod m (setShapes l si)) = Some m.
Proof.
  intros Hc. rewrite claimMethod_setShapes_method, claimMethod_unclaimed; [reflexivity|].
  exact Hc.
Qed.

(** X2: On a SelectionInfo without a tag, the tag the shape cascade leaves is that
    of the first strategy, in the order direct selection, active view,
    isSelected flag, modification time, position, that finds something; when
    none does the tag stays unset. *)
Theorem cascade_priority (h : Host) (g : Globals) (si : SelectionInfo)
        (slide : Slide) (rest : list Slide) (l : list Shape) :
  getSelectedSlides h = Ok (slide :: rest) ->
  shapes slide = Ok l ->
  claimed si = false ->
  detectionMethod (snd (Taskpane.detectShapesDirectly h g si))
  = match expectedTag h g l with
    | Some m => Some m
    | None => detectionMethod si
    end.
Proof.
  intros Hs Hl Hc. rewrite (detectShapesDirectly_snd h g si slide rest Hs).
  unfold Taskpane.cascade, expectedTag. rewrite orElse_snd.
  destruct (directSelectionFound h) eqn:H1.
  { destruct (approach1_found h si H1) as [sel ->]. now apply claimed_tag. }
  rewrite (approach1_silent h si H1), orElse_snd.
  destruct (activeViewFound h) eqn:H2.
  { destruct (approach2_found h si H2) as [sel ->]. now apply claimed_tag. }
  rewrite (approach2_silent h si H2).
  destruct l as [|x l'].
  { unfold Taskpane.withSlideShapes. rewrite Hl. cbn [snd existsb].
    unfold lastModifiedFound. cbn [existsb]. rewrite andb_false_r.
    now destruct (lastModifiedLoad h). }
  rewrite (withSlideShapes_fetched slide _ si x l' Hl). cbn [snd].
  destruct (afterFetch_cases h g x l' si) as (r & -> & Hr).
  destruct Hr as [(E3 & ->)|[(E3 & E4 & m & ->)|[(E3 & E4 & E5 & ->)|(E3 & E4 & E5 & ->)]]];
    rewrite E3; try rewrite E4; try rewrite E5; try now apply claimed_tag.
  reflexivity.
Qed.

Lemma cascade_priority_witness :
  detectionMethod (snd (Taskpane.detectShapesDirectly hostDirect initialGlobals freshInfo))
  = Some "direct-selection".
Proof.
  exact (cascade_priority hostDirect initialGlobals freshInfo
           (mkSlide (Ok [box; note; card])) [] [box; note; card] eq_refl eq_refl eq_refl).
Defined.

(** X3: When no strategy finds anything on a slide that has shapes, the cascade
    stores the complete shape list, in slide order, as the list of all shapes
    and changes nothing else. *)
Theorem cascade_fallback_stores_all (h : Host) (g : Globals) (si : SelectionInfo)
        (slide : Slide) (rest : list Slide) (x : Shape) (l' : list Shape) :
  getSelectedSlides h = Ok (slide :: rest) ->
  shapes slide = Ok (x :: l') ->
  expectedTag h g (x :: l') = None ->
  snd (Taskpane.detectShapesDirectly h g si) = setAllShapes (x :: l') si.
Proof.
  intros Hs Hl He. unfold expectedTag in He.
  destruct (directSelectionFound h) eqn:H1; [discriminate|].
  destruct (activeViewFound h) eqn:H2; [discriminate|].
  destruct (existsb selectedFlag (x :: l')) eqn:H3; [discriminate|].
  destruct (lastModifiedFound h (x :: l')) eqn:H4; [discriminate|].
  destruct (hasMousePositionData g
            && existsb (containsPoint (lastClickedPosition g)) (x :: l')) eqn:H5;
    [discriminate|].
  rewrite (detectShapesDirectly_afterFetch h g si slide rest x l' Hs H1 H2 Hl). cbn [snd].
  destruct (afterFetch_cases h g x l' si) as (r & -> & Hr).
  destruct Hr as [(E3 & _)|[(_ & E4 & _)|[(_ & _ & E5 & _)|(_ & _ & _ & ->)]]];
    congruence.
Qed.

Lemma cascade_fallback_stores_all_witness :
  allShapes (snd (Taskpane.detectShapesDirectly hostNothing (capturePosition initialGlobals)
                                                freshInfo))
  = Some [plain "A" "a" 5 5 10 10 1; plain "B" "b" 50 50 20 20 4].
Proof.
  exact (f_equal allShapes
           (cascade_fallback_stores_all hostNothing (capturePosition initialGlobals) freshInfo
              (mkSlide (Ok [plain "A" "a" 5 5 10 10 1; plain "B" "b" 50 50 20 20 4])) []
              (plain "A" "a" 5 5 10 10 1) [plain "B" "b" 50 50 20 20 4]
              eq_refl eq_refl eq_refl)).
Defined.

(** ** The picture pass *)

Lemma claimMethod_setPictures (m : string) (l : list Shape) (si : SelectionInfo) :
  selPictures (claimMethod m (setPictures l si)) = l.
Proof. now destruct (claimMethod_fields m (setPictures l si)) as (_ & _ & -> & _). Qed.

(** The picture pass by cases, on a slide that has pictures. *)
Lemma picture_pass_cases (h : Host) (g : Globals) (si : SelectionInfo)
      (slide : Slide) (rest : list Slide) (l : list Shape) (p : Shape) (ps : list Shape) :
  getSelectedSlides h = Ok (slide :: rest) ->
  shapes slide = Ok l ->
  filter isPicture l = p :: ps ->
  Taskpane.detectPicturesSpecifically h g si =
    match filter selectedFlag (p :: ps) with
    | [] =>
        match selPictures si with
        | [] =>
            if hasMousePositionData g then
              match filter (containsPoint (lastClickedPosition g)) (p :: ps) with
              | [] => setAllPictures (p :: ps) si
              | q :: qs =>
                  claimMethod "picture-position"
                    (setPictures (jsSort byZIndexDesc (q :: qs)) si)
              end
            else setAllPictures (p :: ps) si
        | _ :: _ => si
        end
    | q :: qs => claimMethod "picture-isSelected" (setPictures (q :: qs) si)
    end.
Proof.
  intros Hs Hl Hp. unfold Taskpane.detectPicturesSpecifically. rewrite Hs, Hl.
  destruct l as [|x l']; [discriminate|]. rewrite Hp. cbv zeta.
  destruct (filter selectedFlag (p :: ps)) as [|q qs].
  - destruct (selPictures si) as [|y ys] eqn:Esi; [|now rewrite Esi].
    destruct (hasMousePositionData g); [|now rewrite Esi].
    destruct (filter (containsPoint (lastClickedPosition g)) (p :: ps)) as [|z zs];
      [now rewrite Esi|].
    rewrite claimMethod_setPictures.
    destruct (jsSort byZIndexDesc (z :: zs)) eqn:Ez; [|reflexivity].
    apply (jsSort_nil_inv byZIndexDesc (z :: zs)) in Ez. discriminate.
  - now rewrite !claimMethod_setPictures.
Qed.

Lemma filter_forall {A : Type} (f : A -> bool) (l : list A) :
  Forall (fun x => f x = true) (filter f l).
Proof. apply Forall_forall. intros x Hx. now apply filter_In in Hx. Qed.

Lemma forall_sublist {A : Type} (P : A -> Prop) (l l' : list A) :
  (forall x, In x l' -> In x l) -> Forall P l -> Forall P l'.
Proof. rewrite !Forall_forall. auto. Qed.

(** The picture pass either leaves the SelectionInfo alone, or replaces the
    picture list by a non-empty list of pictures and claims one of its two
    tags, or stores the list of all pictures. *)
Lemma detectPicturesSpecifically_outcome (h : Host) (g : Globals) (si : SelectionInfo) :
  PictureOutcome si (Taskpane.detectPicturesSpecifically h g si).
Proof.
  destruct (getSelectedSlides h) as [[|slide rest]|e] eqn:Hs;
    try (unfold Taskpane.detectPicturesSpecifically; rewrite Hs; apply PicturesUnchanged).
  destruct (shapes slide) as [[|x l']|e] eqn:Hl;
    try (unfold Taskpane.detectPicturesSpecifically; rewrite Hs, Hl; apply PicturesUnchanged).
  destruct (filter isPicture (x :: l')) as [|p ps] eqn:Hp.
  { unfold Taskpane.detectPicturesSpecifically. rewrite Hs, Hl, Hp. apply PicturesUnchanged. }
  rewrite (picture_pass_cases h g si slide rest (x :: l') p ps Hs Hl Hp).
  assert (Hpics : Forall (fun q => isPicture q = true) (p :: ps))
    by (rewrite <- Hp; apply filter_forall).
  destruct (filter selectedFlag (p :: ps)) as [|q qs] eqn:Ef.
  - destruct (selPictures si) as [|y ys] eqn:Esi; [|apply PicturesUnchanged].
    destruct (hasMousePositionData g); [|now apply PicturesStored].
    destruct (filter (containsPoint (lastClickedPosition g)) (p :: ps)) as [|z zs] eqn:Ec;
      [now apply PicturesStored|].
    apply PicturesFound; [|simpl; tauto|].
    + intros E. apply (jsSort_nil_inv byZIndexDesc (z :: zs)) in E. discriminate.
    + apply (forall_sublist _ (p :: ps)); [|exact Hpics].
      intros s Hin. apply (Permutation_in _ (jsSort_perm byZIndexDesc _)) in Hin.
      rewrite <- Ec in Hin. now apply filter_In in Hin.
  - apply PicturesFound; [discriminate | simpl; tauto |].
    apply (forall_sublist _ (p :: ps)); [|exact Hpics].
    intros s Hin. rewrite <- Ef in Hin. now apply filter_In in Hin.
Qed.

(** X4: Whatever the host answers, the picture pass never touches the selected
    text, the shape list or the list of all shapes, and what it puts into the
    picture list are shapes of type "Picture" only. *)
Theorem picture_pass_frame (h : Host) (g : Globals) (si : SelectionInfo) :
  let out := Taskpane.detectPicturesSpecifically h g si in
  selText out = selText si
  /\ selShapes out = selShapes si
  /\ allShapes out = allShapes si
  /\ (Forall (fun p => isPicture p = true) (selPictures si) ->
      Forall (fun p => isPicture p = true) (selPictures out)).
Proof.
  intros out. unfold out.
  destruct (detectPicturesSpecifically_outcome h g si) as [|m l Hne Hm Hl|l Hsi].
  - repeat split; tauto.
  - destruct (claimMethod_fields m (setPictures l si)) as (H1 & H2 & H3 & H4 & _).
    rewrite H1, H2, H3, H4. simpl. repeat split. intros _. exact Hl.
  - simpl. repeat split. tauto.
Qed.

(** X5: A flagged picture decides the picture pass: the picture list becomes the
    flagged pictures of the slide, in slide order, whether or not a position
    was captured and whatever the list held before; the list of all pictures is
    not stored. *)
Theorem picture_pass_flag_priority (h : Host) (g : Globals) (si : SelectionInfo)
        (slide : Slide) (rest : list Slide) (l : list Shape) :
  getSelectedSlides h = Ok (slide :: rest) ->
  shapes slide = Ok l ->
  (exists p, In p l /\ isPicture p = true /\ selectedFlag p = true) ->
  let out := Taskpane.detectPicturesSpecifically h g si in
  selPictures out = filter (fun s => isPicture s && selectedFlag s) l
  /\ allPictures out = allPictures si
  /\ detectionMethod out = detectionMethod (claimMethod "picture-isSelected" si).
Proof.
  intros Hs Hl [p0 (Hin & Hpic & Hflag)] out.
  assert (Hff : forall k : list Shape,
             filter selectedFlag (filter isPicture k)
             = filter (fun s => isPicture s && selectedFlag s) k).
  { induction k as [|s k IH]; [reflexivity|]. simpl.
    destruct (isPicture s); simpl; [destruct (selectedFlag s)|]; now rewrite IH. }
  assert (H0 : In p0 (filter selectedFlag (filter isPicture l)))
    by (apply filter_In; split; [apply filter_In|]; auto).
  destruct (filter isPicture l) as [|p ps] eqn:Hp; [contradiction|].
  unfold out. rewrite (picture_pass_cases h g si slide rest l p ps Hs Hl Hp).
  rewrite <- Hff, Hp.
  destruct (filter selectedFlag (p :: ps)) as [|q qs]; [contradiction|].
  destruct (claimMethod_fields "picture-isSelected" (setPictures (q :: qs) si))
    as (_ & _ & H3 & _ & H5).
  rewrite H3, H5. repeat split. unfold claimMethod. simpl.
  destruct (detectionMethod si) as [t|]; [destruct (truthy t)|]; reflexivity.
Qed.

Lemma picture_pass_flag_priority_witness :
  selPictures (Taskpane.detectPicturesSpecifically hostPictures
                 (capturePosition initialGlobals) freshInfo) = [logo].
Proof.
  destruct (picture_pass_flag_priority hostPictures (capturePosition initialGlobals) freshInfo
              (mkSlide (Ok [box; logo; photo])) [] [box; logo; photo] eq_refl eq_refl
              (ex_intro _ logo (conj (or_intror (or_introl eq_refl)) (conj eq_refl eq_refl))))
    as (H & _).
  exact H.
Defined.

(** X6: Without a flagged picture and with an empty picture list so far, a captured
    position under which pictures lie makes the picture list exactly those
    pictures, ordered by descending z-index. *)
Theorem picture_pass_position_sorted (h : Host) (g : Globals) (si : SelectionInfo)
        (slide : Slide) (rest : list Slide) (l : list Shape) :
  getSelectedSlides h = Ok (slide :: rest) ->
  shapes slide = Ok l ->
  existsb (fun s => isPicture s && selectedFlag s) l = false ->
  selPictures si = [] ->
  hasMousePositionData g = true ->
  (exists p, In p l /\ isPicture p = true /\ containsPoint (lastClickedPosition g) p = true) ->
  let out := Taskpane.detectPicturesSpecifically h g si in
  (forall s, In s (selPictures out) <->
             In s l /\ isPicture s = true /\ containsPoint (lastClickedPosition g) s = true)
  /\ Permutation (selPictures out)
       (filter (fun s => isPicture s && containsPoint (lastClickedPosition g) s) l)
  /\ StronglySorted (notBelow zIndex) (selPictures out)
  /\ allPictures out = allPictures si.
Proof.
  intros Hs Hl Hnone Hsi Hm [p0 (Hin & Hpic & Hc)] out.
  set (pt := lastClickedPosition g) in *.
  assert (Hff : forall (f : Shape -> bool) (k : list Shape),
             filter f (filter isPicture k) = filter (fun s => isPicture s && f s) k).
  { intros f. induction k as [|s k IH]; [reflexivity|]. simpl.
    destruct (isPicture s); simpl; [destruct (f s)|]; now rewrite IH. }
  assert (H0 : In p0 (filter (containsPoint pt) (filter isPicture l)))
    by (apply filter_In; split; [apply filter_In|]; auto).
  apply filter_nil_existsb in Hnone. rewrite <- Hff in Hnone.
  pose proof (Hff (containsPoint pt) l) as Hfc.
  destruct (filter isPicture l) as [|p ps] eqn:Hp; [contradiction|].
  assert (Hout : out = claimMethod "picture-position"
                   (setPictures (jsSort byZIndexDesc (filter (containsPoint pt) (p :: ps))) si)).
  { unfold out. rewrite (picture_pass_cases h g si slide rest l p ps Hs Hl Hp).
    rewrite Hnone, Hsi, Hm. fold pt.
    destruct (filter (containsPoint pt) (p :: ps)); [contradiction | reflexivity]. }
  destruct (claimMethod_fields "picture-position"
              (setPictures (jsSort byZIndexDesc (filter (containsPoint pt) (p :: ps))) si))
    as (_ & _ & H3 & _ & H5).
  rewrite Hout, H3, H5. clear Hout H3 H5. rewrite Hfc.
  split; [|split; [|split]].
  - intros s. split.
    + intros Hx. apply (Permutation_in _ (jsSort_perm byZIndexDesc _)) in Hx.
      apply filter_In in Hx. destruct Hx as [Hx Hb]. apply andb_true_iff in Hb. tauto.
    + intros (Hx & Hb1 & Hb2).
      apply (Permutation_in _ (Permutation_sym (jsSort_perm byZIndexDesc _))).
      apply filter_In. split; [exact Hx|]. now rewrite Hb1, Hb2.
  - apply jsSort_perm.
  - exact (jsSort_descending zIndex _).
  - reflexivity.
Qed.

Lemma picture_pass_position_sorted_witness :
  let out := Taskpane.detectPicturesSpecifically hostUnflaggedPictures
               (capturePosition initialGlobals) freshInfo in
  Permutation (selPictures out) [poster; photo]
  /\ StronglySorted (notBelow zIndex) (selPictures out).
Proof.
  destruct (picture_pass_position_sorted hostUnflaggedPictures (capturePosition initialGlobals)
              freshInfo
              (mkSlide (Ok [poster; plain "A" "a" (-1) (-1) 10 10 9; photo])) [] _
              eq_refl eq_refl eq_refl eq_refl eq_refl
              (ex_intro _ poster (conj (or_introl eq_refl) (conj eq_refl eq_refl))))
    as (_ & Hperm & Hsorted & _).
  intros out. split; [exact Hperm | exact Hsorted].
Defined.

(** ** A whole pass *)

Lemma truthy_tag (m : string) : In m allTags -> truthy m = true.
Proof.
  unfold allTags, pictureTags, shapeTags. simpl.
  intros H. repeat (destruct H as [<-|H]; [reflexivity|]). contradiction.
Qed.

Lemma claimMethod_is_claimed (m : string) (si : SelectionInfo) :
  truthy m = true -> claimed (claimMethod m si) = true.
Proof.
  intros Hm. unfold claimMethod, claimed.
  destruct (detectionMethod si) as [t|] eqn:E; [destruct (truthy t) eqn:Et|]; simpl;
    rewrite ?E; assumption.
Qed.

Lemma claimMethod_tag (m : string) (si : SelectionInfo) (t : string) :
  detectionMethod (claimMethod m si) = Some t ->
  t = m \/ detectionMethod si = Some t.
Proof.
  unfold claimMethod. destruct (detectionMethod si) as [t'|] eqn:E;
    [destruct (truthy t')|]; simpl; rewrite ?E; intros [= <-]; auto.
Qed.

(** The state of a pass in which a tag is set exactly when something is
    selected, and the tag is one of the known ones. *)
Lemma channel_keeps_tag_invariant (h : Host) (c : Taskpane.Channel)
      (g : Globals) (si : SelectionInfo) :
  claimed si = hasSelection si ->
  (forall m, detectionMethod si = Some m -> In m allTags) ->
  let si' := snd (Taskpane.runChannel h c (g, si)) in
  claimed si' = hasSelection si'
  /\ (forall m, detectionMethod si' = Some m -> In m allTags).
Proof.
  intros Hinv Htags. destruct c; cbn [Taskpane.runChannel snd].
  - unfold Taskpane.detectSelectionText.
    destruct (getSelectedText h) as [t|e]; [|now split].
    destruct t as [|c t]; [now split|]. cbn. split; [reflexivity|].
    intros m [= <-]. simpl. tauto.
  - destruct (detectPicturesSpecifically_outcome h g si) as [|m l Hne Hm Hl|l Hsi].
    + now split.
    + assert (Hm' : In m allTags) by (simpl in *; tauto).
      split.
      * rewrite (claimMethod_is_claimed m _ (truthy_tag m Hm')). unfold hasSelection.
        rewrite claimMethod_setPictures. destruct l; [now elim Hne|].
        cbn. now rewrite orb_true_r.
      * intros t Ht. apply claimMethod_tag in Ht. destruct Ht as [->|Ht]; auto.
    + split; [exact Hinv | exact Htags].
  - destruct (detectShapesDirectly_outcome h g si) as [|m l Hne Hm|l].
    + now split.
    + assert (Hm' : In m allTags) by (simpl in *; tauto).
      split.
      * rewrite (claimMethod_is_claimed m _ (truthy_tag m Hm')). unfold hasSelection.
        rewrite claimMethod_setShapes. destruct l; [now elim Hne|].
        cbn. now rewrite orb_true_r.
      * intros t Ht. apply claimMethod_tag in Ht. destruct Ht as [->|Ht]; auto.
    + split; [exact Hinv | exact Htags].
Qed.

Lemma display_selection_report (si : SelectionInfo) (m : string) :
  hasSelection si = true -> detectionMethod si = Some m -> truthy m = true ->
  exists body, Taskpane.displaySelectionInfo si = reportHeader ++ body ++ methodLine m.
Proof.
  intros Hsel Hm Ht. unfold Taskpane.displaySelectionInfo.
  unfold hasSelection in Hsel. rewrite Hsel, Hm, Ht. cbn [negb].
  match goal with
  | |- exists body, ?hd ++ ?n1 ++ ?n2 ++ ?a ++ ?b ++ ?c ++ ?d = _ =>
      exists (n1 ++ n2 ++ a ++ b ++ c)
  end.
  unfold reportHeader, methodLine. now rewrite !append_assoc.
Qed.

Lemma display_no_selection (si : SelectionInfo) :
  hasSelection si = false ->
  exists body,
    Taskpane.displaySelectionInfo si = "No element is currently selected." ++ body.
Proof.
  intros Hsel. unfold Taskpane.displaySelectionInfo.
  unfold hasSelection in Hsel. rewrite Hsel. cbn [negb]. eexists. reflexivity.
Qed.

(** X7: In every pass, for every sequence of channel completions, the tag is set
    exactly when a text, a shape or a picture was found, and it is one of the
    eight tags of the script; so the text shown is either the "No element is
    currently selected." report or the selection report that ends with the
    "Detection method:" line of that tag. *)
Theorem pass_tag_iff_selection (h : Host) (order : list Taskpane.Channel) (g : Globals) :
  let r := Taskpane.detectSelectedElement h order g in
  claimed (Taskpane.passInfo r) = hasSelection (Taskpane.passInfo r)
  /\ (forall m, detectionMethod (Taskpane.passInfo r) = Some m -> In m allTags)
  /\ ((hasSelection (Taskpane.passInfo r) = false
       /\ exists body, Taskpane.textContent r = "No element is currently selected." ++ body)
      \/ (hasSelection (Taskpane.passInfo r) = true
          /\ exists m body, In m allTags
               /\ Taskpane.textContent r = reportHeader ++ body ++ methodLine m)).
Proof.
  intros r.
  assert (Hinv : forall order' st,
             claimed (snd st) = hasSelection (snd st) ->
             (forall m, detectionMethod (snd st) = Some m -> In m allTags) ->
             let si' := snd (Taskpane.runChannels h order' st) in
             claimed si' = hasSelection si'
             /\ (forall m, detectionMethod si' = Some m -> In m allTags)).
  { induction order' as [|c order' IH]; intros [g0 si0] H1 H2; [now split|].
    cbn [Taskpane.runChannels fold_left]. fold (Taskpane.runChannels h order').
    destruct (channel_keeps_tag_invariant h c g0 si0 H1 H2) as [H1' H2'].
    apply IH; assumption. }
  destruct (Hinv order (g, freshInfo) eq_refl) as [H1 H2]; [discriminate|].
  unfold r, Taskpane.detectSelectedElement in *.
  destruct (Taskpane.runChannels h order (g, freshInfo)) as [g' si]. cbn [snd] in *.
  cbn [Taskpane.passInfo Taskpane.textContent].
  split; [exact H1|]. split; [exact H2|].
  destruct (hasSelection si) eqn:Hsel.
  - right. split; [reflexivity|]. unfold claimed in H1.
    destruct (detectionMethod si) as [m|] eqn:Em; [|discriminate].
    destruct (display_selection_report si m Hsel Em H1) as [body Hb].
    exists m, body. auto.
  - left. split; [reflexivity|]. now apply display_no_selection.
Qed.

(** ** The completion order of the channels *)

Lemma orElse_effect (a b : Taskpane.Attempt) :
  attemptEffect a -> attemptEffect b -> attemptEffect (Taskpane.orElse a b).
Proof.
  intros [[ea|] Ha] [eb Hb].
  - exists (Some ea). intros si. now rewrite orElse_snd, Ha.
  - exists eb. intros si. now rewrite orElse_snd, Ha, Hb.
Qed.

Lemma approach1_effect (h : Host) : attemptEffect (Taskpane.approach1 h).
Proof.
  unfold attemptEffect, Taskpane.approach1.
  destruct (getSelection h) as [[|s l]|e].
  - now exists None.
  - now exists (Some (FoundShapes "direct-selection" (s :: l))).
  - now exists None.
Qed.

Lemma approach2_effect (h : Host) : attemptEffect (Taskpane.approach2 h).
Proof.
  unfold attemptEffect, Taskpane.approach2.
  destruct (getActiveView h) as [[[|s l]|]|e].
  - now exists None.
  - now exists (Some (FoundShapes "active-view" (s :: l))).
  - now exists None.
  - now exists None.
Qed.

Lemma afterFetch_effect (h : Host) (g : Globals) (l : list Shape) :
  attemptEffect (Taskpane.afterFetch h g l).
Proof.
  unfold Taskpane.afterFetch. repeat apply orElse_effect.
  - unfold attemptEffect, Taskpane.approach3.
    destruct (filter selectedFlag l) as [|x xs]; [now exists None|].
    now exists (Some (FoundShapes "isSelected" (x :: xs))).
  - unfold attemptEffect, Taskpane.approach4.
    destruct (lastModifiedLoad h); [|now exists None].
    destruct (filter hasModifiedTime l) as [|x xs]; [now exists None|].
    destruct (jsSort byModifiedDesc (x :: xs)) as [|m ms]; [now exists None|].
    now exists (Some (FoundShapes "lastModified" [m])).
  - unfold attemptEffect, Taskpane.approach5.
    destruct (hasMousePositionData g); [|now exists None].
    destruct (filter _ l) as [|x xs]; [now exists None|].
    now exists (Some (FoundShapes "position" (jsSort byZIndexDesc (x :: xs)))).
  - unfold attemptEffect, Taskpane.approach6.
    destruct (jsSort byZIndexDesc l); [now exists None|].
    now exists (Some (StoreShapes l)).
  - now exists (Some (StoreShapes l)).
Qed.

(** What the shape cascade does does not depend on the SelectionInfo it is
    given. *)
Lemma detectShapesDirectly_effect (h : Host) (g : Globals) :
  exists e, forall si, snd (Taskpane.detectShapesDirectly h g si) = applyShapeEffect e si.
Proof.
  unfold Taskpane.detectShapesDirectly.
  destruct (getSelectedSlides h) as [[|slide rest]|err];
    try (now exists KeepShapes).
  assert (Hc : attemptEffect (Taskpane.cascade h g slide)).
  { unfold Taskpane.cascade.
    apply orElse_effect; [apply approach1_effect|].
    apply orElse_effect; [apply approach2_effect|].
    unfold attemptEffect, Taskpane.withSlideShapes.
    destruct (shapes slide) as [[|x l]|err].
    - now exists (Some KeepShapes).
    - destruct (afterFetch_effect h g (x :: l)) as [e He]. exists e. intros si.
      rewrite <- He. now destruct (Taskpane.afterFetch h g (x :: l) si).
    - now exists (Some KeepShapes). }
  destruct Hc as [[e|] He].
  - exists e. intros si. specialize (He si).
    destruct (Taskpane.cascade h g slide si) as [ev r]. simpl in *. now rewrite He.
  - exists KeepShapes. intros si. specialize (He si).
    destruct (Taskpane.cascade h g slide si) as [ev r]. simpl in *. now rewrite He.
Qed.

Lemma content_claimMethod (m : string) (si : SelectionInfo) :
  content (claimMethod m si) = content si.
Proof.
  unfold content. destruct (claimMethod_fields m si) as (-> & -> & -> & -> & ->).
  reflexivity.
Qed.

Lemma content_fields (si si' : SelectionInfo) :
  content si = content si' ->
  selText si = selText si' /\ selShapes si = selShapes si'
  /\ selPictures si = selPictures si' /\ allShapes si = allShapes si'
  /\ allPictures si = allPictures si'.
Proof. unfold content. intros [= -> -> -> -> ->]. repeat split. Qed.

Lemma detectPicturesSpecifically_effect (h : Host) (g : Globals) :
  exists e, forall si, Taskpane.detectPicturesSpecifically h g si = applyPictureEffect e si.
Proof.
  destruct (getSelectedSlides h) as [[|slide rest]|err] eqn:Hs;
    try (exists KeepPictures; intros si;
         unfold Taskpane.detectPicturesSpecifically; now rewrite Hs).
  destruct (shapes slide) as [[|x l']|err] eqn:Hl;
    try (exists KeepPictures; intros si;
         unfold Taskpane.detectPicturesSpecifically; now rewrite Hs, Hl).
  destruct (filter isPicture (x :: l')) as [|p ps] eqn:Hp.
  { exists KeepPictures. intros si.
    unfold Taskpane.detectPicturesSpecifically. now rewrite Hs, Hl, Hp. }
  pose proof (fun si => picture_pass_cases h g si slide rest (x :: l') p ps Hs Hl Hp) as Hc.
  destruct (filter selectedFlag (p :: ps)) as [|q qs].
  - destruct (hasMousePositionData g).
    + destruct (filter (containsPoint (lastClickedPosition g)) (p :: ps)) as [|z zs].
      * exists (StoreIfNone (p :: ps)). intros si. rewrite Hc. simpl.
        now destruct (selPictures si).
      * exists (FoundIfNone "picture-position" (jsSort byZIndexDesc (z :: zs))).
        intros si. rewrite Hc. cbn [applyPictureEffect]. now destruct (selPictures si).
    + exists (StoreIfNone (p :: ps)). intros si. rewrite Hc. simpl.
      now destruct (selPictures si).
  - exists (FoundPictures "picture-isSelected" (q :: qs)). intros si. now rewrite Hc.
Qed.

Lemma detectSelectionText_effect (h : Host) (g : Globals) (si : SelectionInfo) :
  Taskpane.detectSelectionText h g si =
    match textRecorded h with
    | Some t => (rememberText t g, setMethod "text" (setText t si))
    | None => (g, si)
    end.
Proof.
  unfold Taskpane.detectSelectionText, textRecorded.
  destruct (getSelectedText h) as [t|e]; [|reflexivity].
  now destruct (0 <? String.length t)%nat.
Qed.

Lemma shapes_ignore_text (h : Host) (t : string) (g : Globals) (si : SelectionInfo) :
  Taskpane.detectShapesDirectly h (rememberText t g) si = Taskpane.detectShapesDirectly h g si.
Proof. reflexivity. Qed.

Lemma pictures_ignore_text (h : Host) (t : string) (g : Globals) (si : SelectionInfo) :
  Taskpane.detectPicturesSpecifically h (rememberText t g) si
  = Taskpane.detectPicturesSpecifically h g si.
Proof. reflexivity. Qed.

Lemma content_applyShapeEffect (e : ShapeEffect) (si si' : SelectionInfo) :
  content si = content si' ->
  content (applyShapeEffect e si) = content (applyShapeEffect e si').
Proof.
  intros H. destruct (content_fields _ _ H) as (H1 & H2 & H3 & H4 & H5).
  destruct e; cbn [applyShapeEffect]; rewrite ?content_claimMethod; [| |exact H];
    unfold content; simpl; congruence.
Qed.

Lemma content_applyPictureEffect (e : PictureEffect) (si si' : SelectionInfo) :
  content si = content si' ->
  content (applyPictureEffect e si) = content (applyPictureEffect e si').
Proof.
  intros H. destruct (content_fields _ _ H) as (H1 & H2 & H3 & H4 & H5).
  destruct e; cbn [applyPictureEffect]; rewrite <- ?H3;
    try destruct (selPictures si) eqn:E3; rewrite ?content_claimMethod; try exact H;
    unfold content; simpl; congruence.
Qed.

Lemma runChannel_respects (h : Host) (c : Taskpane.Channel) (st st' : Globals * SelectionInfo) :
  sameState st st' -> sameState (Taskpane.runChannel h c st) (Taskpane.runChannel h c st').
Proof.
  destruct st as [g si], st' as [g' si']. intros [Hg Hc]. simpl in Hg, Hc. subst g'.
  destruct c; cbn [Taskpane.runChannel].
  - rewrite !detectSelectionText_effect. destruct (textRecorded h) as [t|].
    + split; [reflexivity|]. cbn [snd].
      destruct (content_fields _ _ Hc) as (H1 & H2 & H3 & H4 & H5).
      unfold content; simpl; congruence.
    + now split.
  - split; [reflexivity|]. cbn [snd].
    destruct (detectPicturesSpecifically_effect h g) as [e He]. rewrite !He.
    now apply content_applyPictureEffect.
  - split; [reflexivity|]. cbn [snd].
    destruct (detectShapesDirectly_effect h g) as [e He]. rewrite !He.
    now apply content_applyShapeEffect.
Qed.

Lemma content_shape (e : ShapeEffect) (si : SelectionInfo) :
  content (applyShapeEffect e si) = shapeOnContent e (content si).
Proof. destruct e; cbn [applyShapeEffect]; rewrite ?content_claimMethod; reflexivity. Qed.

Lemma content_picture (e : PictureEffect) (si : SelectionInfo) :
  content (applyPictureEffect e si) = pictureOnContent e (content si).
Proof.
  destruct e; cbn [applyPictureEffect]; unfold pictureOnContent, content at 2;
    try destruct (selPictures si) eqn:E; rewrite ?content_claimMethod;
    unfold content; simpl; rewrite ?E; reflexivity.
Qed.

Lemma content_text (t : string) (si : SelectionInfo) :
  content (setMethod "text" (setText t si)) = textOnContent t (content si).
Proof. reflexivity. Qed.

Lemma effects_commute (c : Content) (es : ShapeEffect) (ep : PictureEffect) (t : string) :
  shapeOnContent es (pictureOnContent ep c) = pictureOnContent ep (shapeOnContent es c)
  /\ textOnContent t (shapeOnContent es c) = shapeOnContent es (textOnContent t c)
  /\ textOnContent t (pictureOnContent ep c) = pictureOnContent ep (textOnContent t c).
Proof.
  destruct c as [[[[t0 s] p] a] b].
  destruct es, ep; simpl; destruct p; repeat split.
Qed.

Lemma runChannel_commute (h : Host) (c c' : Taskpane.Channel) (st : Globals * SelectionInfo) :
  sameState (Taskpane.runChannel h c (Taskpane.runChannel h c' st))
            (Taskpane.runChannel h c' (Taskpane.runChannel h c st)).
Proof.
  destruct st as [g si].
  destruct (detectPicturesSpecifically_effect h g) as [ep Hp].
  destruct (detectShapesDirectly_effect h g) as [es Hs].
  destruct (effects_commute (content si) es ep
              match textRecorded h with Some t => t | None => "" end)
    as (Hsp & Hts & Htp).
  destruct c, c'; cbn [Taskpane.runChannel]; try (split; reflexivity);
    rewrite ?detectSelectionText_effect;
    destruct (textRecorded h) as [t|] eqn:Et; cbn [Taskpane.runChannel fst snd];
    rewrite ?detectSelectionText_effect, ?Et, ?shapes_ignore_text, ?pictures_ignore_text,
            ?Hp, ?Hs;
    split; cbn [fst snd]; try reflexivity;
    rewrite ?content_shape, ?content_picture, ?content_text,
            ?content_shape, ?content_picture, ?content_text;
    congruence.
Qed.

Lemma runChannels_respects (h : Host) (order : list Taskpane.Channel)
      (st st' : Globals * SelectionInfo) :
  sameState st st' ->
  sameState (Taskpane.runChannels h order st) (Taskpane.runChannels h order st').
Proof.
  revert st st'. induction order as [|c order IH]; intros st st' H; [exact H|].
  cbn [Taskpane.runChannels fold_left]. apply IH. now apply runChannel_respects.
Qed.

Lemma sameState_trans (a b c : Globals * SelectionInfo) :
  sameState a b -> sameState b c -> sameState a c.
Proof. intros [H1 H2] [H3 H4]. split; congruence. Qed.

Lemma runChannels_permutation (h : Host) (order order' : list Taskpane.Channel) :
  Permutation order order' ->
  forall st, sameState (Taskpane.runChannels h order st) (Taskpane.runChannels h order' st).
Proof.
  induction 1 as [|c o o' _ IH|c c' o|o o' o'' _ IH1 _ IH2]; intros st.
  - now split.
  - cbn [Taskpane.runChannels fold_left]. apply IH.
  - cbn [Taskpane.runChannels fold_left]. apply runChannels_respects, runChannel_commute.
  - exact (sameState_trans _ _ _ (IH1 st) (IH2 st)).
Qed.

(** X8: The order in which the three channels complete changes nothing but the
    tag (and with it the last line of the report): the remembered globals, the
    selected text, the shape and picture lists and the lists of all shapes and
    pictures at the end of a pass are the same for every order. *)
Theorem pass_content_order_independent (h : Host) (g : Globals)
        (order order' : list Taskpane.Channel) :
  Permutation order order' ->
  let r := Taskpane.detectSelectedElement h order g in
  let r' := Taskpane.detectSelectedElement h order' g in
  Taskpane.passGlobals r = Taskpane.passGlobals r'
  /\ selText (Taskpane.passInfo r) = selText (Taskpane.passInfo r')
  /\ selShapes (Taskpane.passInfo r) = selShapes (Taskpane.passInfo r')
  /\ selPictures (Taskpane.passInfo r) = selPictures (Taskpane.passInfo r')
  /\ allShapes (Taskpane.passInfo r) = allShapes (Taskpane.passInfo r')
  /\ allPictures (Taskpane.passInfo r) = allPictures (Taskpane.passInfo r').
Proof.
  intros Hperm r r'.
  destruct (runChannels_permutation h order order' Hperm (g, freshInfo)) as [Hg Hc].
  unfold r, r', Taskpane.detectSelectedElement.
  destruct (Taskpane.runChannels h order (g, freshInfo)) as [g1 si1],
           (Taskpane.runChannels h order' (g, freshInfo)) as [g2 si2].
  cbn [Taskpane.passGlobals Taskpane.passInfo fst snd] in *.
  split; [exact Hg|]. now apply content_fields.
Qed.

Lemma pass_content_order_independent_witness :
  let r := Taskpane.detectSelectedElement hostEverything
             [Taskpane.TextChannel; Taskpane.PictureChannel; Taskpane.ShapeChannel]
             initialGlobals in
  let r' := Taskpane.detectSelectedElement hostEverything
              [Taskpane.ShapeChannel; Taskpane.PictureChannel; Taskpane.TextChannel]
              initialGlobals in
  selShapes (Taskpane.passInfo r) = selShapes (Taskpane.passInfo r')
  /\ selPictures (Taskpane.passInfo r) = selPictures (Taskpane.passInfo r').
Proof.
  destruct (pass_content_order_independent hostEverything initialGlobals
              [Taskpane.TextChannel; Taskpane.PictureChannel; Taskpane.ShapeChannel]
              [Taskpane.ShapeChannel; Taskpane.PictureChannel; Taskpane.TextChannel])
    as (_ & _ & H3 & H4 & _).
  - apply perm_trans with [Taskpane.PictureChannel; Taskpane.TextChannel; Taskpane.ShapeChannel].
    + apply perm_swap.
    + apply perm_trans with [Taskpane.PictureChannel; Taskpane.ShapeChannel; Taskpane.TextChannel].
      * apply perm_skip, perm_swap.
      * apply perm_swap.
  - intros r r'. split; [exact H3 | exact H4].
Defined.

(** ** Ties in the sorts *)

Section FirstGreatest.
Context {A : Type}.
Variable key : A -> Z.

(** The head of the sorted array is the first of the entries with the
    greatest key: the sort keeps the order of entries that compare equal. *)
Lemma jsSort_head_first (l : list A) (x : A) (rest : list A) :
  jsSort (descendingBy key) l = x :: rest -> firstWithGreatest key x l.
Proof.
  revert x rest. induction l as [|a l IH]; intros x rest; [discriminate|].
  cbn [jsSort fold_right]. fold (jsSort (descendingBy key) l).
  destruct (jsSort (descendingBy key) l) as [|hd tl] eqn:Es.
  - apply jsSort_nil_inv in Es. subst l. cbn. intros [= <- _].
    exists [], []. repeat split; intros y [].
  - cbn [insertSorted]. unfold descendingBy at 1.
    destruct (Z.leb_spec (key hd - key a) 0) as [Hle|Hgt].
    + intros [= <- _]. exists [], l. split; [reflexivity|].
      split; [intros y []|]. intros y Hy.
      pose proof (jsSort_head_max key l hd tl Es y Hy). lia.
    + intros [= <- _]. destruct (IH hd tl eq_refl) as (before & after & -> & Hb & Ha).
      exists (a :: before), after. split; [reflexivity|]. split; [|exact Ha].
      intros y [<-|Hy]; [lia | now apply Hb].
Qed.
End FirstGreatest.

Lemma modified_time_result (h : Host) (g : Globals) (si : SelectionInfo)
      (slide : Slide) (rest : list Slide) (l : list Shape) (u : unit) :
  getSelectedSlides h = Ok (slide :: rest) ->
  directSelectionFound h = false ->
  activeViewFound h = false ->
  shapes slide = Ok l ->
  filter selectedFlag l = [] ->
  lastModifiedLoad h = Ok u ->
  existsb hasModifiedTime l = true ->
  exists m others,
    jsSort byModifiedDesc (filter hasModifiedTime l) = m :: others
    /\ snd (Taskpane.detectShapesDirectly h g si)
       = claimMethod "lastModified" (setShapes [m] si).
Proof.
  intros Hs H1 H2 Hl H3 H4 H5.
  destruct l as [|x l']; [discriminate|].
  rewrite (detectShapesDirectly_afterFetch h g si slide rest x l' Hs H1 H2 Hl). cbn [snd].
  unfold Taskpane.afterFetch.
  rewrite orElse_snd, approach3_result, H3, orElse_snd.
  unfold Taskpane.approach4 at 1. rewrite H4.
  destruct (filter hasModifiedTime (x :: l')) as [|y ys] eqn:Ef.
  { apply filter_nil_existsb in Ef. congruence. }
  destruct (jsSort byModifiedDesc (y :: ys)) as [|m others] eqn:Es.
  { apply (jsSort_nil_inv byModifiedDesc (y :: ys)) in Es. discriminate. }
  now exists m, others.
Qed.

(** X9: Among several shapes with the same, latest modification time the
    modification-time strategy keeps the one that comes first on the slide. *)
Theorem most_recent_tie_break (h : Host) (g : Globals) (si : SelectionInfo)
        (slide : Slide) (rest : list Slide) (l : list Shape) (u : unit) :
  getSelectedSlides h = Ok (slide :: rest) ->
  directSelectionFound h = false ->
  activeViewFound h = false ->
  shapes slide = Ok l ->
  filter selectedFlag l = [] ->
  lastModifiedLoad h = Ok u ->
  existsb hasModifiedTime l = true ->
  exists m,
    selShapes (snd (Taskpane.detectShapesDirectly h g si)) = [m]
    /\ firstWithGreatest modifiedTime m (filter hasModifiedTime l).
Proof.
  intros Hs H1 H2 Hl H3 H4 H5.
  destruct (modified_time_result h g si slide rest l u Hs H1 H2 Hl H3 H4 H5)
    as (m & others & Hsort & Hout).
  exists m. split; [rewrite Hout; apply claimMethod_setShapes|].
  exact (jsSort_head_first modifiedTime _ m others Hsort).
Qed.

Lemma most_recent_tie_break_witness :
  exists m,
    selShapes (snd (Taskpane.detectShapesDirectly hostTwins initialGlobals freshInfo)) = [m]
    /\ firstWithGreatest modifiedTime m [early; twin1; twin2].
Proof.
  exact (most_recent_tie_break hostTwins initialGlobals freshInfo
           (mkSlide (Ok [early; twin1; twin2])) [] [early; twin1; twin2] tt
           eq_refl eq_refl eq_refl eq_refl eq_refl eq_refl eq_refl).
Defined.

(** X10: When the direct task pane finds no selection, it reports as its best guess
    the shape with the greatest z-index, the first such shape on the slide when
    several share it; when the reload of that shape fails it lists all shapes
    instead. *)
Theorem best_guess_is_topmost (h : Host) (slide : Slide) (rest : list Slide)
        (x : Shape) (l' : list Shape) :
  getSelectedSlides h = Ok (slide :: rest) ->
  directSelectionFound h = false ->
  activeViewFound h = false ->
  shapes slide = Ok (x :: l') ->
  existsb selectedFlag (x :: l') = false ->
  exists topShape,
    firstWithGreatest zIndex topShape (x :: l')
    /\ snd (TaskpaneDirect.detectShapesDirectly h) =
         match topShapeLoad h with
         | Ok _ => TaskpaneDirect.bestGuessMessage topShape
         | Failed _ => TaskpaneDirect.listAllMessage (x :: l')
         end.
Proof.
  intros Hs H1 H2 Hl H3. apply filter_nil_existsb in H3.
  destruct (jsSort byZIndexDesc (x :: l')) as [|topShape others] eqn:Es.
  { apply (jsSort_nil_inv byZIndexDesc (x :: l')) in Es. discriminate. }
  exists topShape. split; [exact (jsSort_head_first zIndex _ topShape others Es)|].
  unfold TaskpaneDirect.detectShapesDirectly.
  rewrite Hs, (direct_approach12_silent h H1 H2), Hl.
  unfold TaskpaneDirect.afterFetch. rewrite H3, Es.
  now destruct (topShapeLoad h).
Qed.

Lemma best_guess_is_topmost_witness :
  exists topShape,
    firstWithGreatest zIndex topShape [early; twin1; twin2]
    /\ snd (TaskpaneDirect.detectShapesDirectly hostTwins)
       = TaskpaneDirect.bestGuessMessage topShape.
Proof.
  exact (best_guess_is_topmost hostTwins (mkSlide (Ok [early; twin1; twin2])) []
           early [twin1; twin2] eq_refl eq_refl eq_refl eq_refl eq_refl).
Defined.

(** ** More on the debounce *)

Section DebounceInvariant.
Import Debounce.
Variable lag : nat -> Z.

Lemma onEvent_single (st : Loop) (t : Z) :
  singleTimer st ->
  let st' := onEvent lag st t in
  singleTimer st'
  /\ List.length (pending st') = 1%nat
  /\ (List.length (passes st') <= List.length (passes st) + List.length (pending st))%nat.
Proof.
  destruct st as [n p s ps]. unfold singleTimer, onEvent, advance, selectionChangedHandler.
  cbn [pending selectionChangeTimeout passes nextTimerId].
  destruct p as [|tm [|tm' l]]; [| |contradiction]; intros H.
  - cbn [filter map]. rewrite app_nil_r.
    destruct s; cbn; repeat split; lia.
  - subst s. cbn [filter map].
    destruct (due tm <=? t); cbn [negb map filter clearTimeout];
      rewrite ?Nat.eqb_refl; cbn [negb app]; rewrite ?app_nil_r, ?length_app;
      cbn; repeat split; lia.
Qed.

Lemma events_single (events : list Z) (st : Loop) :
  singleTimer st ->
  let st' := fold_left (onEvent lag) events st in
  singleTimer st'
  /\ (events <> [] -> List.length (pending st') = 1%nat)
  /\ (List.length (passes st') + List.length (pending st')
      <= List.length (passes st) + List.length (pending st) + List.length events)%nat.
Proof.
  revert st. induction events as [|t events IH]; intros st H; cbn [fold_left].
  - split; [exact H|]. split; [intros E; now elim E | cbn; lia].
  - destruct (onEvent_single st t H) as (H1 & H2 & H3).
    destruct (IH (onEvent lag st t) H1) as (I1 & I2 & I3).
    split; [exact I1|]. split.
    + intros _. destruct events as [|t' events]; [exact H2 | apply I2; discriminate].
    + cbn [List.length]. lia.
Qed.

(** X11: For every sequence of event times and whatever the lateness of the timers,
    after each event exactly one timer is pending (an earlier one is cleared,
    never kept beside the new one); the events start at least one detection
    pass if there is any event, and never more passes than there are events. *)
Theorem debounce_one_pending (events : list Z) :
  let st := fold_left (onEvent lag) events initialLoop in
  (List.length (pending st) <= 1)%nat
  /\ (events <> [] -> List.length (pending st) = 1%nat)
  /\ (List.length (passesOf lag events) <= List.length events)%nat
  /\ (events <> [] -> (1 <= List.length (passesOf lag events))%nat).
Proof.
  intros st. destruct (events_single events initialLoop I) as (H1 & H2 & H3).
  fold st in H1, H2, H3. unfold passesOf. fold st. unfold drain. cbn [passes].
  rewrite length_app, length_map. cbn [passes pending initialLoop List.length] in H3.
  unfold singleTimer in H1.
  destruct (pending st) as [|tm [|tm' l]] eqn:Ep; [| |contradiction]; cbn [List.length] in *.
  - repeat split; try lia; intros Hne; specialize (H2 Hne); discriminate.
  - repeat split; lia.
Qed.
End DebounceInvariant.

Section DebounceSeparate.
Import Debounce.
Variable lag : nat -> Z.
Variable maxLag : Z.
Hypothesis lag_bounded : forall i, lag i <= maxLag.

Lemma separate_events (ts : list Z) (k : nat) (t : Z) (ps : list Z) :
  gapsAtLeast (quietPeriod + maxLag) t ts ->
  passes (drain (fold_left (onEvent lag) ts
                   (mkLoop (S k) [mkTimer k (t + quietPeriod + lag k)] (Some k) ps)))
  = (ps ++ dueTimes lag k (t :: ts))%list.
Proof.
  revert k t ps. induction ts as [|t' ts IH]; intros k t ps Hg.
  - reflexivity.
  - destruct Hg as [Hge Hg]. cbn [fold_left].
    assert (E : onEvent lag (mkLoop (S k) [mkTimer k (t + quietPeriod + lag k)] (Some k) ps) t'
                = mkLoop (S (S k)) [mkTimer (S k) (t' + quietPeriod + lag (S k))]
                         (Some (S k)) (ps ++ [t + quietPeriod + lag k])).
    { unfold onEvent, advance, selectionChangedHandler; simpl.
      pose proof (lag_bounded k) as Hk.
      destruct (Z.leb_spec (t + quietPeriod + lag k) t') as [_|Hlt]; [|lia].
      reflexivity. }
    rewrite E, (IH (S k) t' _ Hg). cbn [dueTimes]. now rewrite <- app_assoc.
Qed.

(** X12: Events that are each separated from the previous one by at least the quiet
    period plus the greatest lateness are not merged: every event starts its
    own detection pass, at its own time plus 300 plus the lateness of its
    timer. *)
Theorem debounce_separate_events (t0 : Z) (ts : list Z) :
  gapsAtLeast (quietPeriod + maxLag) t0 ts ->
  passesOf lag (t0 :: ts) = dueTimes lag 1 (t0 :: ts)
  /\ List.length (passesOf lag (t0 :: ts)) = List.length (t0 :: ts).
Proof.
  intros Hg.
  assert (E : passesOf lag (t0 :: ts) = dueTimes lag 1 (t0 :: ts)).
  { unfold passesOf. cbn [fold_left].
    change (onEvent lag initialLoop t0)
      with (mkLoop 2 [mkTimer 1 (t0 + quietPeriod + lag 1)] (Some 1%nat) []).
    exact (separate_events ts 1 t0 [] Hg). }
  split; [exact E|]. rewrite E. clear. generalize 1%nat.
  induction (t0 :: ts) as [|t l IH]; intros k; [reflexivity|].
  cbn [dueTimes List.length]. now rewrite IH.
Qed.
End DebounceSeparate.

Lemma debounce_separate_events_witness :
  Debounce.passesOf (fun _ => 20) [0; 320; 1000] = [320; 640; 1320].
Proof.
  destruct (debounce_separate_events (fun _ => 20) 20 (fun _ => Z.le_refl 20) 0 [320; 1000])
    as [E _].
  - unfold gapsAtLeast, Debounce.quietPeriod. lia.
  - exact E.
Defined.

(** ** The captured position *)

(** X13: The script never writes [lastMousePosition]; so the position it captures,
    and tests the shapes against, is always the origin: whenever the position
    strategy finds shapes, they are shapes whose box contains (0, 0). *)
Theorem captured_position_is_origin (g : Globals) :
  reachableGlobals g ->
  lastMousePosition g = origin
  /\ lastClickedPosition g = origin
  /\ (forall l si r,
        snd (Taskpane.approach5 g l si) = Some r ->
        forall s, In s (selShapes r) -> In s l /\ containsPoint origin s = true).
Proof.
  intros Hr.
  assert (H : lastMousePosition g = origin /\ lastClickedPosition g = origin).
  { induction Hr as [|g Hr [IH1 IH2]|h g si Hr [IH1 IH2]].
    - split; reflexivity.
    - split; exact IH1.
    - rewrite detectSelectionText_effect. destruct (textRecorded h); now split. }
  destruct H as [H1 H2]. split; [exact H1|]. split; [exact H2|].
  intros l si r. rewrite approach5_result, H2.
  destruct (hasMousePositionData g && existsb (containsPoint origin) l); [|discriminate].
  intros [= <-] s Hs. rewrite claimMethod_setShapes in Hs.
  apply (Permutation_in _ (jsSort_perm byZIndexDesc _)) in Hs.
  now apply filter_In in Hs.
Qed.

Lemma captured_position_is_origin_witness :
  lastClickedPosition (capturePosition (capturePosition initialGlobals)) = origin.
Proof.
  destruct (captured_position_is_origin (capturePosition (capturePosition initialGlobals)))
    as (_ & H & _).
  - apply ReachCapture, ReachCapture, ReachInitial.
  - exact H.
Defined.

(** ** The report *)

Lemma append_nil_r (s : string) : s ++ "" = s.
Proof. induction s as [|c s IH]; simpl; [reflexivity | now rewrite IH]. Qed.

Lemma includes_self (s : string) : includes s s = true.
Proof.
  apply includes_prefix. rewrite <- (append_nil_r s) at 2. apply prefix_append.
Qed.

Lemma concatIndexed_includes {A : Type} (f : A -> nat -> string) (l : list A)
      (k i : nat) (x : A) :
  nth_error l i = Some x ->
  includes (f x (k + i)%nat) (concatIndexed f k l) = true.
Proof.
  revert k i. induction l as [|y l IH]; intros k i; [now destruct i|].
  destruct i as [|i]; cbn [nth_error concatIndexed].
  - intros [= ->]. rewrite Nat.add_0_r. apply includes_left, includes_self.
  - intros H. apply includes_right. rewrite Nat.add_succ_r. exact (IH (S k) i H).
Qed.

(** X14: Every picture of the picture list appears in the report with its full
    details, numbered by its place in the list. *)
Theorem report_lists_every_picture (si : SelectionInfo) (p : Shape) (i : nat) :
  nth_error (selPictures si) i = Some p ->
  includes (Taskpane.getPictureDetailsString p i) (Taskpane.displaySelectionInfo si) = true.
Proof.
  intros Hn. unfold Taskpane.displaySelectionInfo.
  destruct (selPictures si) as [|p0 ps] eqn:E; [now destruct i|].
  cbn [Taskpane.isEmpty negb]. rewrite orb_true_r. cbn [negb].
  do 4 apply includes_right. apply includes_left.
  do 4 apply includes_right. apply includes_left.
  exact (concatIndexed_includes Taskpane.getPictureDetailsString (p0 :: ps) 0 i p Hn).
Qed.

Lemma report_lists_every_picture_witness :
  includes (Taskpane.getPictureDetailsString photo 1)
           (Taskpane.displaySelectionInfo (setPictures [logo; photo] freshInfo)) = true.
Proof.
  exact (report_lists_every_picture (setPictures [logo; photo] freshInfo) photo 1 eq_refl).
Defined.

(** X15: A picture that the pass holds both in its picture list and in its shape
    list is reported once, as a picture: when every selected shape is such a
    picture, the report is the one without any selected shapes. *)
Theorem report_shows_pictures_once (si : SelectionInfo) :
  selPictures si <> [] ->
  (forall s, In s (selShapes si) -> shownAsPicture si s) ->
  Taskpane.displaySelectionInfo si = Taskpane.displaySelectionInfo (setShapes [] si).
Proof.
  intros Hne Hall. unfold Taskpane.displaySelectionInfo.
  cbn [selText selShapes selPictures detectionMethod setShapes allShapes allPictures].
  destruct (selPictures si) as [|p0 ps] eqn:Ep; [now elim Hne|].
  cbn [Taskpane.isEmpty negb]. rewrite !orb_true_r. cbn [negb].
  assert (Hf : filter (fun shape =>
                         negb (String.eqb (type shape) "Picture")
                         || negb (existsb (fun pic => String.eqb (id pic) (id shape))
                                          (p0 :: ps))) (selShapes si) = []).
  { apply filter_nil_existsb. destruct (existsb _ (selShapes si)) eqn:Ex; [|reflexivity].
    apply existsb_exists in Ex. destruct Ex as (s & Hs & Hb).
    destruct (Hall s Hs) as [H1 H2]. unfold isPicture in H1. rewrite Ep in H2.
    rewrite H1, H2 in Hb. discriminate. }
  destruct (selShapes si) as [|s0 l0]; [reflexivity|]. now rewrite Hf.
Qed.

Lemma report_shows_pictures_once_witness :
  Taskpane.displaySelectionInfo (setShapes [logo] (setPictures [logo] freshInfo))
  = Taskpane.displaySelectionInfo (setPictures [logo] freshInfo).
Proof.
  apply (report_shows_pictures_once (setShapes [logo] (setPictures [logo] freshInfo))).
  - discriminate.
  - intros s [<-|[]]. split; reflexivity.
Defined.

(** ** The listing by type *)

Lemma hasGroup_In {A : Type} (k : string) (gs : list (string * list A)) :
  hasGroup k gs = true <-> In k (map fst gs).
Proof.
  induction gs as [|[k' xs] gs IH]; simpl; [split; [discriminate | tauto]|].
  rewrite orb_true_iff, IH, String.eqb_eq. split; intros [H|H]; auto.
Qed.

Lemma pushGroup_perm {A : Type} (k : string) (x : A) (gs : list (string * list A)) :
  Permutation (List.concat (map snd (pushGroup k x gs))) (x :: List.concat (map snd gs)).
Proof.
  induction gs as [|[k' xs] gs IH]; simpl; [apply Permutation_refl|].
  destruct (String.eqb k k'); simpl.
  - rewrite <- app_assoc. simpl. apply Permutation_sym, Permutation_middle.
  - eapply perm_trans; [apply Permutation_app_head, IH|].
    apply Permutation_sym, Permutation_middle.
Qed.

Lemma pushGroup_keys {A : Type} (k : string) (x : A) (gs : list (string * list A)) :
  map fst (pushGroup k x gs)
  = if hasGroup k gs then map fst gs else (map fst gs ++ [k])%list.
Proof.
  induction gs as [|[k' xs] gs IH]; simpl; [reflexivity|].
  destruct (String.eqb k k'); simpl; [reflexivity|].
  rewrite IH. now destruct (hasGroup k gs).
Qed.

Lemma pushGroup_proper (s : Shape) (gs : list (string * list Shape)) :
  Forall properGroup gs -> Forall properGroup (pushGroup (typeKey s) s gs).
Proof.
  induction gs as [|[k' xs] gs IH]; intros H; simpl.
  - constructor; [|constructor]. split; [discriminate|]. now intros s' [<-|[]].
  - inversion H as [|? ? [Hne Hk] Hrest]; subst.
    destruct (String.eqb_spec (typeKey s) k') as [E|N]; constructor; auto.
    + split; [now destruct xs|]. simpl in *. intros s' Hs'.
      apply in_app_or in Hs'. destruct Hs' as [Hs'|[<-|[]]]; auto.
    + now split.
Qed.

Lemma groupByType_acc (l : list Shape) (acc : list (string * list Shape)) :
  NoDup (map fst acc) -> Forall properGroup acc ->
  let gs := fold_left (fun a s => pushGroup (typeKey s) s a) l acc in
  Permutation (List.concat (map snd gs)) (List.concat (map snd acc) ++ l)
  /\ NoDup (map fst gs)
  /\ Forall properGroup gs
  /\ (forall s, In s l -> hasGroup (typeKey s) gs = true)
  /\ (forall k, hasGroup k acc = true -> hasGroup k gs = true).
Proof.
  revert acc. induction l as [|s l IH]; intros acc Hnd Hp; cbn [fold_left].
  - rewrite app_nil_r. repeat split; auto; try solve [intros ? []].
  - assert (Hnd' : NoDup (map fst (pushGroup (typeKey s) s acc))).
    { rewrite pushGroup_keys. destruct (hasGroup (typeKey s) acc) eqn:Eh; [exact Hnd|].
      apply NoDup_app; [exact Hnd | repeat constructor; auto |].
      intros k Hk [<-|[]]. apply hasGroup_In in Hk. congruence. }
    assert (Hhas : forall k, hasGroup k acc = true \/ k = typeKey s ->
                             hasGroup k (pushGroup (typeKey s) s acc) = true).
    { intros k Hk. apply hasGroup_In. rewrite pushGroup_keys.
      destruct (hasGroup (typeKey s) acc) eqn:Eh.
      - destruct Hk as [Hk| ->]; now apply hasGroup_In.
      - apply in_or_app. destruct Hk as [Hk| ->]; [left; now apply hasGroup_In|].
        right. now left. }
    destruct (IH _ Hnd' (pushGroup_proper s acc Hp)) as (I1 & I2 & I3 & I4 & I5).
    split; [|split; [exact I2|split; [exact I3|split]]].
    + eapply perm_trans; [exact I1|].
      eapply perm_trans; [apply Permutation_app_tail, pushGroup_perm|].
      simpl. apply Permutation_middle.
    + intros s' [<-|Hs']; [apply I5, Hhas; now right | now apply I4].
    + intros k Hk. apply I5, Hhas. now left.
Qed.

(** X16: The listing by type files every shape exactly once: the groups together
    are a rearrangement of the shape list, no type name heads two groups, no
    group is empty, and a group holds only shapes of its type ("Unknown" for
    shapes without a type). *)
Theorem grouping_is_a_partition (l : list Shape) :
  let groups := Taskpane.groupByType l in
  Permutation (List.concat (map snd groups)) l
  /\ NoDup (map fst groups)
  /\ Forall properGroup groups
  /\ (forall s, In s l -> hasGroup (typeKey s) groups = true).
Proof.
  destruct (groupByType_acc l [] (NoDup_nil _) (Forall_nil _)) as (H1 & H2 & H3 & H4 & _).
  repeat split; assumption.
Qed.

Lemma picture_typeKey (s : Shape) : isPicture s = true -> typeKey s = "Picture".
Proof.
  unfold isPicture, typeKey. intros H. apply String.eqb_eq in H. now rewrite H.
Qed.

(** X17: When nothing is selected and the pass stored all shapes of the slide and,
    beside them, its pictures, the report lists the shapes grouped by type and
    does not list the pictures a second time, while its heading counts the
    shapes plus the pictures. *)
Theorem fallback_listing (si : SelectionInfo) (l : list Shape) :
  hasSelection si = false ->
  allShapes si = Some l ->
  allPictures si = Some (filter isPicture l) ->
  l <> [] ->
  Taskpane.displaySelectionInfo si =
    "No element is currently selected." ++ nl ++ nl
    ++ "All elements on current slide ("
    ++ natToString (List.length l + List.length (filter isPicture l)) ++ " total):"
    ++ nl ++ nl
    ++ Taskpane.groupsText (Taskpane.groupByType l)
    ++ Taskpane.tipsText.
Proof.
  intros Hsel Hs Hp Hne. unfold Taskpane.displaySelectionInfo.
  unfold hasSelection in Hsel. rewrite Hsel, Hs, Hp. cbn [negb].
  destruct l as [|x l']; [now elim Hne|]. cbn [Taskpane.isEmpty negb orb].
  assert (Hg : negb (Taskpane.isEmpty (filter isPicture (x :: l')))
               && negb (hasGroup "Picture" (Taskpane.groupByType (x :: l'))) = false).
  { destruct (filter isPicture (x :: l')) as [|p ps] eqn:Ef; [reflexivity|].
    assert (Hin : In p (filter isPicture (x :: l'))) by (rewrite Ef; now left).
    apply filter_In in Hin. destruct Hin as [Hin Hpic].
    destruct (groupByType_acc (x :: l') [] (NoDup_nil _) (Forall_nil _))
      as (_ & _ & _ & Hhas & _).
    specialize (Hhas p Hin). rewrite (picture_typeKey p Hpic) in Hhas.
    change (hasGroup "Picture" (Taskpane.groupByType (x :: l')) = true) in Hhas.
    cbn [Taskpane.isEmpty negb andb]. now rewrite Hhas. }
  rewrite Hg. reflexivity.
Qed.

Lemma fallback_listing_witness :
  let l := [plain "A" "a" 5 5 10 10 1; poster] in
  Taskpane.displaySelectionInfo
    (Taskpane.passInfo
       (Taskpane.detectSelectedElement hostQuiet
          [Taskpane.TextChannel; Taskpane.PictureChannel; Taskpane.ShapeChannel]
          initialGlobals))
  = "No element is currently selected." ++ nl ++ nl
    ++ "All elements on current slide (" ++ natToString 3 ++ " total):" ++ nl ++ nl
    ++ Taskpane.groupsText (Taskpane.groupByType l)
    ++ Taskpane.tipsText.
Proof.
  apply (fallback_listing _ [plain "A" "a" 5 5 10 10 1; poster]);
    [reflexivity | reflexivity | reflexivity | discriminate].
Defined.

(** ** The text of a shape in its details *)

Lemma substring0_length (n : nat) (s : string) :
  String.length (substring0 n s) = Nat.min n (String.length s).
Proof.
  unfold substring0. revert s. induction n as [|n IH]; intros [|c s]; simpl; auto.
Qed.

Lemma substring0_prefix (n : nat) (s : string) :
  String.prefix (substring0 n s) s = true.
Proof.
  unfold substring0. revert s. induction n as [|n IH]; intros [|c s]; simpl; auto.
  destruct (ascii_dec c c) as [_|N]; [apply IH | now elim N].
Qed.

Lemma append_length (a b : string) :
  String.length (a ++ b) = (String.length a + String.length b)%nat.
Proof. induction a as [|c a IH]; simpl; [reflexivity | now rewrite IH]. Qed.

(** X18: The details of a shape show its text in full up to 100 characters; a
    longer text is cut to its first 100 characters followed by "...", so the
    text shown never exceeds 103 characters. *)
Theorem shape_text_is_cut (s : Shape) :
  truthy (text s) = true ->
  textLine s = "   Text: " ++ dq ++ shownText s ++ dq ++ nl
  /\ (String.length (shownText s) <= 103)%nat
  /\ ((String.length (text s) <= 100)%nat -> shownText s = text s)
  /\ ((100 < String.length (text s))%nat ->
      exists kept, shownText s = kept ++ "..."
                   /\ String.length kept = 100%nat
                   /\ String.prefix kept (text s) = true).
Proof.
  intros Ht. unfold textLine, shownText. rewrite Ht. split; [reflexivity|].
  destruct (Nat.ltb_spec 100 (String.length (text s))) as [Hlong|Hshort].
  - split; [|split].
    + rewrite append_length, substring0_length. cbn [String.length]. lia.
    + lia.
    + intros _. exists (substring0 100 (text s)). split; [reflexivity|]. split.
      * rewrite substring0_length. lia.
      * apply substring0_prefix.
  - split; [lia|]. split; [reflexivity | lia].
Qed.

Lemma shape_text_is_cut_witness :
  String.length (shownText longText) = 103%nat
  /\ (String.length (shownText longText) <= 103)%nat.
Proof.
  destruct (shape_text_is_cut longText eq_refl) as (_ & Hle & _).
  split; [reflexivity | exact Hle].
Defined.

(** ** The free-text callback of the direct task pane *)

(** X19: A second callback for the same host text records nothing: the remembered
    text stays and the display is left as it is. *)
Theorem text_callback_once (h : Host) (g : Globals) (shown shown' : string) :
  let g1 := fst (TaskpaneDirect.textChannel h g shown) in
  TaskpaneDirect.textChannel h g1 shown' = (g1, shown').
Proof.
  unfold TaskpaneDirect.textChannel.
  destruct (getSelectedText h) as [t|e]; [|reflexivity].
  destruct (String.eqb_spec t (lastSelectedText g)) as [E|N]; cbn [negb andb fst].
  - rewrite E, String.eqb_refl. reflexivity.
  - destruct (0 <? String.length t)%nat eqn:El; cbn [fst lastSelectedText].
    + rewrite String.eqb_refl. reflexivity.
    + destruct (String.eqb_spec t (lastSelectedText g)); [contradiction|].
      cbn [negb andb]. reflexivity.
Qed.




(** ** The first task pane *)

(** X21: The first task pane lists every selected shape with its complete entry,
    its text uncut. *)
Theorem simple_pane_lists_all (l : list Shape) (s : Shape) :
  In s l ->
  includes (SimplePane.shapeEntry s) (SimplePane.run (Ok l)) = true.
Proof.
  intros Hin. destruct l as [|x l']; [contradiction|].
  cbn [SimplePane.run]. do 2 apply includes_right.
  induction (x :: l') as [|y k IH]; [contradiction|]. cbn [SimplePane.entries].
  destruct Hin as [<-|Hin].
  - apply includes_left, includes_self.
  - apply includes_right, IH, Hin.
Qed.

Lemma simple_pane_lists_all_witness :
  includes (SimplePane.shapeEntry longText) (SimplePane.run (Ok [box; longText])) = true.
Proof.
  apply (simple_pane_lists_all [box; longText] longText). right. now left.
Defined.

(** ** Examples for the properties of the tag and of the position strategy *)

Lemma detectShapesDirectly_keeps_method_witness :
  detectionMethod
    (snd (Taskpane.detectShapesDirectly hostTwoSelected initialGlobals
            (setMethod "text" (setText "Hi" freshInfo)))) = Some "text".
Proof.
  exact (detectShapesDirectly_keeps_method hostTwoSelected initialGlobals
           (setMethod "text" (setText "Hi" freshInfo)) eq_refl).
Defined.

Lemma detectPicturesSpecifically_keeps_method_witness :
  detectionMethod
    (Taskpane.detectPicturesSpecifically hostPictures initialGlobals
       (setMethod "isSelected" (setShapes [box] freshInfo))) = Some "isSelected".
Proof.
  exact (detectPicturesSpecifically_keeps_method hostPictures initialGlobals
           (setMethod "isSelected" (setShapes [box] freshInfo)) eq_refl).
Defined.

Lemma position_entered_only_with_data_witness :
  hasMousePositionData (capturePosition initialGlobals) = true.
Proof.
  apply (position_entered_only_with_data hostOverlap (capturePosition initialGlobals)
           freshInfo).
  simpl. tauto.
Defined.
